(** * jigar_database: the data and access-control model, embedded in Rocq

    The development follows the TypeScript sources:
    - the drizzle schema (five MySQL tables),
    - [db.ts]      the persistence access layer,
    - [auth.ts]    the admin identity service,
    - [context.ts] the request context,
    - [routers.ts] the typed procedure router,
    - [api.ts]     the REST facade.

    Asynchronous functions become computations in a state-and-exception
    monad over a [World]: the process-wide connection handle, the
    environment, the clock, the console and the contents of the tables. *)

From Stdlib Require Import ZArith List String Ascii Bool Lia.
From Stdlib Require DecimalString.
Import ListNotations.

Local Open Scope string_scope.
Local Open Scope Z_scope.

Set Implicit Arguments.
Set Warnings "-register-all".

(* ------------------------------------------------------------------ *)
(** ** JavaScript values *)

(** A JSON document.  Numbers are the integral ones; a fractional number
    is never falsy and is treated by the code below like any other
    non-zero number. *)
Inductive JSON : Type :=
| JNull
| JBool (b : bool)
| JNumber (n : Z)
| JString (s : string)
| JArray (items : list JSON)
| JObject (members : list (string * JSON)).

(** Truthiness of a string: only the empty string is falsy. *)
Definition truthy_string (s : string) : bool :=
  match s with EmptyString => false | String _ _ => true end.

(** Truthiness of a JSON value: null, false, 0 and the empty string are falsy;
    arrays and objects (also empty ones) are truthy. *)
Definition truthy_JSON (v : JSON) : bool :=
  match v with
  | JNull => false
  | JBool b => b
  | JNumber n => negb (n =? 0)
  | JString s => truthy_string s
  | JArray _ => true
  | JObject _ => true
  end.

(** Truthiness of a possibly undefined value. *)
Definition truthy_opt {A : Type} (t : A -> bool) (v : option A) : bool :=
  match v with None => false | Some a => t a end.

(** Structural equality of documents, used by the engine to decide whether
    an UPDATE changed a JSON column. *)
Fixpoint JSON_eqb (a b : JSON) {struct a} : bool :=
  match a, b with
  | JNull, JNull => true
  | JBool x, JBool y => Bool.eqb x y
  | JNumber x, JNumber y => x =? y
  | JString x, JString y => String.eqb x y
  | JArray xs, JArray ys =>
      (fix all2 (l : list JSON) (r : list JSON) {struct l} : bool :=
         match l, r with
         | [], [] => true
         | x :: l', y :: r' => JSON_eqb x y && all2 l' r'
         | _, _ => false
         end) xs ys
  | JObject xs, JObject ys =>
      (fix all2 (l : list (string * JSON)) (r : list (string * JSON)) {struct l} : bool :=
         match l, r with
         | [], [] => true
         | (k, x) :: l', (k', y) :: r' => String.eqb k k' && JSON_eqb x y && all2 l' r'
         | _, _ => false
         end) xs ys
  | _, _ => false
  end.

Definition option_eqb {A : Type} (eqb : A -> A -> bool) (a b : option A) : bool :=
  match a, b with
  | None, None => true
  | Some x, Some y => eqb x y
  | _, _ => false
  end.

(* ------------------------------------------------------------------ *)
(** ** Exceptions *)

Inductive TRPC_ERROR_CODE : Type := UNAUTHORIZED | FORBIDDEN | BAD_REQUEST.

(** Failures raised by the MySQL engine for a statement it refuses. *)
Inductive SqlFailure : Type :=
| DuplicateEntry      (* a UNIQUE index would hold the value twice *)
| NullForNotNull      (* NULL assigned to a NOT NULL column *)
| NoDefaultForField   (* no value for a NOT NULL column without default *)
| BadLimitOffset.     (* negative LIMIT or OFFSET *)

Inductive Exn : Type :=
| Error (message : string)
| SyntaxError (message : string)
| TypeError (message : string)
| TRPCError (code : TRPC_ERROR_CODE) (message : option string)
| QueryError (failure : SqlFailure).

(** The text of [error.message].  The wording of a driver failure is not
    modelled: it is kept as the failure itself. *)
Inductive ErrorText : Type :=
| Text (s : string)
| DriverText (failure : SqlFailure).

Definition message_of (e : Exn) : ErrorText :=
  match e with
  | Error m => Text m
  | SyntaxError m => Text m
  | TypeError m => Text m
  | TRPCError UNAUTHORIZED None => Text "UNAUTHORIZED"
  | TRPCError FORBIDDEN None => Text "FORBIDDEN"
  | TRPCError BAD_REQUEST None => Text "BAD_REQUEST"
  | TRPCError _ (Some m) => Text m
  | QueryError f => DriverText f
  end.

(* ------------------------------------------------------------------ *)
(** ** The entity store: one record per table row *)

Inductive Role : Type := role_user | role_admin.

Definition Role_eqb (a b : Role) : bool :=
  match a, b with
  | role_user, role_user | role_admin, role_admin => true
  | _, _ => false
  end.

(** Timestamps are milliseconds since the epoch. *)
Definition Date := Z.

Module User.
Record t : Type := mk {
  id : Z;
  openId : string;
  name : option string;
  email : option string;
  loginMethod : option string;
  role : Role;
  createdAt : Date;
  updatedAt : Date;
  lastSignedIn : Date
}.

Definition eqb (a b : t) : bool :=
  (id a =? id b) && String.eqb (openId a) (openId b)
  && option_eqb String.eqb (name a) (name b)
  && option_eqb String.eqb (email a) (email b)
  && option_eqb String.eqb (loginMethod a) (loginMethod b)
  && Role_eqb (role a) (role b)
  && (createdAt a =? createdAt b) && (updatedAt a =? updatedAt b)
  && (lastSignedIn a =? lastSignedIn b).

Definition with_updatedAt (d : Date) (r : t) : t :=
  mk (id r) (openId r) (name r) (email r) (loginMethod r) (role r)
     (createdAt r) d (lastSignedIn r).
End User.

Module AdminUser.
Record t : Type := mk {
  id : Z;
  email : string;
  passwordHash : string;
  name : option string;
  isActive : bool;
  createdAt : Date;
  updatedAt : Date;
  lastSignedIn : option Date
}.

Definition eqb (a b : t) : bool :=
  (id a =? id b) && String.eqb (email a) (email b)
  && String.eqb (passwordHash a) (passwordHash b)
  && option_eqb String.eqb (name a) (name b)
  && Bool.eqb (isActive a) (isActive b)
  && (createdAt a =? createdAt b) && (updatedAt a =? updatedAt b)
  && option_eqb Z.eqb (lastSignedIn a) (lastSignedIn b).

Definition with_updatedAt (d : Date) (r : t) : t :=
  mk (id r) (email r) (passwordHash r) (name r) (isActive r)
     (createdAt r) d (lastSignedIn r).
End AdminUser.

Module Project.
Record t : Type := mk {
  id : Z;
  adminUserId : Z;
  name : string;
  description : option string;
  schema : option JSON;
  isActive : bool;
  createdAt : Date;
  updatedAt : Date
}.

Definition eqb (a b : t) : bool :=
  (id a =? id b) && (adminUserId a =? adminUserId b)
  && String.eqb (name a) (name b)
  && option_eqb String.eqb (description a) (description b)
  && option_eqb JSON_eqb (schema a) (schema b)
  && Bool.eqb (isActive a) (isActive b)
  && (createdAt a =? createdAt b) && (updatedAt a =? updatedAt b).

Definition with_updatedAt (d : Date) (r : t) : t :=
  mk (id r) (adminUserId r) (name r) (description r) (schema r) (isActive r)
     (createdAt r) d.
End Project.

Module ApiKey.
Record t : Type := mk {
  id : Z;
  projectId : Z;
  key : string;
  name : string;
  permissions : option (list string);
  isActive : bool;
  lastUsedAt : option Date;
  createdAt : Date;
  updatedAt : Date
}.

Definition eqb_columns (a b : t) : bool :=
  (id a =? id b) && (projectId a =? projectId b)
  && String.eqb (key a) (key b) && String.eqb (name a) (name b)
  && Bool.eqb (isActive a) (isActive b)
  && option_eqb Z.eqb (lastUsedAt a) (lastUsedAt b)
  && (createdAt a =? createdAt b) && (updatedAt a =? updatedAt b).

Definition with_updatedAt (d : Date) (r : t) : t :=
  mk (id r) (projectId r) (key r) (name r) (permissions r) (isActive r)
     (lastUsedAt r) (createdAt r) d.
End ApiKey.

Module DynamicData.
Record t : Type := mk {
  id : Z;
  projectId : Z;
  userId : option string;
  dataType : option string;
  data : JSON;
  isPublic : bool;
  createdAt : Date;
  updatedAt : Date
}.
End DynamicData.

(** The contents of the five tables, each with its AUTO_INCREMENT counter. *)
Record Database : Type := mkDatabase {
  users : list User.t;
  adminUsers : list AdminUser.t;
  projects : list Project.t;
  apiKeys : list ApiKey.t;
  dynamicData : list DynamicData.t;
  seq_users : Z;
  seq_adminUsers : Z;
  seq_projects : Z;
  seq_apiKeys : Z;
  seq_dynamicData : Z
}.

Definition with_users (d : Database) (l : list User.t) (s : Z) : Database :=
  mkDatabase l (adminUsers d) (projects d) (apiKeys d) (dynamicData d)
             s (seq_adminUsers d) (seq_projects d) (seq_apiKeys d) (seq_dynamicData d).

Definition with_adminUsers (d : Database) (l : list AdminUser.t) (s : Z) : Database :=
  mkDatabase (users d) l (projects d) (apiKeys d) (dynamicData d)
             (seq_users d) s (seq_projects d) (seq_apiKeys d) (seq_dynamicData d).

Definition with_projects (d : Database) (l : list Project.t) (s : Z) : Database :=
  mkDatabase (users d) (adminUsers d) l (apiKeys d) (dynamicData d)
             (seq_users d) (seq_adminUsers d) s (seq_apiKeys d) (seq_dynamicData d).

Definition with_apiKeys (d : Database) (l : list ApiKey.t) (s : Z) : Database :=
  mkDatabase (users d) (adminUsers d) (projects d) l (dynamicData d)
             (seq_users d) (seq_adminUsers d) (seq_projects d) s (seq_dynamicData d).

Definition with_dynamicData (d : Database) (l : list DynamicData.t) (s : Z) : Database :=
  mkDatabase (users d) (adminUsers d) (projects d) (apiKeys d) l
             (seq_users d) (seq_adminUsers d) (seq_projects d) (seq_apiKeys d) s.

(* ------------------------------------------------------------------ *)
(** ** The world a request runs in *)

(** The handle returned by [drizzle(url)]. *)
Inductive Handle : Type := Drizzle (url : string).

Record World : Type := mkWorld {
  DATABASE_URL : option string;   (* process.env.DATABASE_URL *)
  drizzle_throws : bool;          (* whether drizzle(url) throws *)
  _db : option Handle;            (* the module-level handle of db.ts *)
  store : Database;               (* what the tables hold *)
  clock : Date;                   (* what new Date() and NOW() read *)
  entropy : list string;          (* what the coming random draws yield *)
  console : list string           (* lines written by console.warn / console.error *)
}.

Definition set_db (h : option Handle) (w : World) : World :=
  mkWorld (DATABASE_URL w) (drizzle_throws w) h (store w) (clock w) (entropy w) (console w).

Definition set_store (d : Database) (w : World) : World :=
  mkWorld (DATABASE_URL w) (drizzle_throws w) (_db w) d (clock w) (entropy w) (console w).

Definition set_entropy (e : list string) (w : World) : World :=
  mkWorld (DATABASE_URL w) (drizzle_throws w) (_db w) (store w) (clock w) e (console w).

Definition log (line : string) (w : World) : World :=
  mkWorld (DATABASE_URL w) (drizzle_throws w) (_db w) (store w) (clock w) (entropy w)
          (console w ++ [line]).

(* ------------------------------------------------------------------ *)
(** ** Asynchronous computations *)

Inductive Outcome (A : Type) : Type :=
| Returns (a : A)
| Throws (e : Exn).

Arguments Returns {A} a.
Arguments Throws {A} e.

Definition Async (A : Type) : Type := World -> Outcome A * World.

Definition ret {A : Type} (a : A) : Async A := fun w => (Returns a, w).

Definition throw {A : Type} (e : Exn) : Async A := fun w => (Throws e, w).

Definition bind {A B : Type} (m : Async A) (k : A -> Async B) : Async B :=
  fun w =>
    match m w with
    | (Returns a, w') => k a w'
    | (Throws e, w') => (Throws e, w')
    end.

Definition try_catch {A : Type} (m : Async A) (handler : Exn -> Async A) : Async A :=
  fun w =>
    match m w with
    | (Returns a, w') => (Returns a, w')
    | (Throws e, w') => handler e w'
    end.

Notation "x <- m ;; k" := (bind m (fun x => k))
  (at level 61, m at next level, right associativity).
Notation "m ;;; k" := (bind m (fun _ => k))
  (at level 61, right associativity).

Definition new_Date : Async Date := fun w => (Returns (clock w), w).
Definition console_warn (line : string) : Async unit := fun w => (Returns tt, log line w).
Definition console_error (line : string) : Async unit := fun w => (Returns tt, log line w).
(** One draw from the random source (the empty text once it ran dry). *)
Definition random_draw : Async string :=
  fun w => (Returns (hd EmptyString (entropy w)), set_entropy (tl (entropy w)) w).
Definition read_store : Async Database := fun w => (Returns (store w), w).
Definition write_store (d : Database) : Async unit := fun w => (Returns tt, set_store d w).

(* ------------------------------------------------------------------ *)
(** ** db.ts: the persistence access layer *)

(** [getDb]: the handle is created on first use when a connection string is
    configured, kept afterwards, and stays null when creation throws. *)
Definition getDb : Async (option Handle) :=
  fun w =>
    match _db w, DATABASE_URL w with
    | None, Some url =>
        if truthy_string url then
          if drizzle_throws w then
            (Returns None, set_db None (log "[Database] Failed to connect:" w))
          else
            (Returns (Some (Drizzle url)), set_db (Some (Drizzle url)) w)
        else (Returns None, w)
    | h, _ => (Returns h, w)
    end.

(** [result.length > 0 ? result[0] : null] *)
Definition first_or_null {A : Type} (result : list A) : option A :=
  match result with
  | [] => None
  | r :: _ => Some r
  end.

(** Column equality [eq(column, value)]: modelled as equality of the values
    (a binary collation for text columns). *)
Definition eq_text (a b : string) : bool := String.eqb a b.
Definition eq_int (a b : Z) : bool := a =? b.
Definition eq_text_nullable (a : option string) (b : string) : bool :=
  match a with Some x => String.eqb x b | None => false end.

(** *** users *)

Module InsertUser.
(** [typeof users.$inferInsert]: only [openId] is required.  A nullable
    column can be left out ([None]), given null ([Some None]) or a value. *)
Record t : Type := mk {
  id : option Z;
  openId : string;
  name : option (option string);
  email : option (option string);
  loginMethod : option (option string);
  role : option Role;
  createdAt : option Date;
  updatedAt : option Date;
  lastSignedIn : option Date
}.
End InsertUser.

Module UserSet.
(** The [updateSet] object of [upsertUser]: the keys it can receive. *)
Record t : Type := mk {
  name : option (option string);
  email : option (option string);
  loginMethod : option (option string);
  lastSignedIn : option Date;
  role : option Role
}.

Definition empty : t := mk None None None None None.

(** [Object.keys(updateSet).length === 0] *)
Definition no_keys (s : t) : bool :=
  match name s, email s, loginMethod s, lastSignedIn s, role s with
  | None, None, None, None, None => true
  | _, _, _, _, _ => false
  end.
End UserSet.

Definition or_else {A : Type} (v : option A) (default : A) : A :=
  match v with Some a => a | None => default end.

(** A nullable column left out of an INSERT holds NULL. *)
Definition or_null {A : Type} (v : option (option A)) : option A :=
  match v with Some a => a | None => None end.

(** The row an INSERT creates from [values]: columns left out take their
    defaults (AUTO_INCREMENT id, role user, the three timestamps now). *)
Definition user_row_of (values : InsertUser.t) (auto_id : Z) (now : Date) : User.t :=
  User.mk (or_else (InsertUser.id values) auto_id)
          (InsertUser.openId values)
          (or_null (InsertUser.name values))
          (or_null (InsertUser.email values))
          (or_null (InsertUser.loginMethod values))
          (or_else (InsertUser.role values) role_user)
          (or_else (InsertUser.createdAt values) now)
          (or_else (InsertUser.updatedAt values) now)
          (or_else (InsertUser.lastSignedIn values) now).

(** The assignments of a SET clause, applied to one row. *)
Definition user_assign (set : UserSet.t) (r : User.t) : User.t :=
  User.mk (User.id r) (User.openId r)
          (or_else (UserSet.name set) (User.name r))
          (or_else (UserSet.email set) (User.email r))
          (or_else (UserSet.loginMethod set) (User.loginMethod r))
          (or_else (UserSet.role set) (User.role r))
          (User.createdAt r) (User.updatedAt r)
          (or_else (UserSet.lastSignedIn set) (User.lastSignedIn r)).

(** An UPDATE of one row.  [updatedAt] is declared ON UPDATE CURRENT_TIMESTAMP:
    the engine sets it to now when the statement changes a column of the row
    and leaves it alone otherwise. *)
Definition user_update (set : UserSet.t) (now : Date) (r : User.t) : User.t :=
  let r' := user_assign set r in
  if User.eqb r r' then r else User.with_updatedAt now r'.

(** Does the row collide with [values] on a unique index (the primary key
    or [openId])? *)
Definition user_conflicts (values : InsertUser.t) (r : User.t) : bool :=
  eq_text (User.openId r) (InsertUser.openId values)
  || match InsertUser.id values with
     | Some i => eq_int (User.id r) i
     | None => false
     end.

(** [db.insert(users).values(values).onDuplicateKeyUpdate({ set })] *)
Definition insert_users_onDuplicateKeyUpdate
    (values : InsertUser.t) (set : UserSet.t) : Async unit :=
  d <- read_store ;;
  now <- new_Date ;;
  if existsb (user_conflicts values) (users d) then
    write_store
      (with_users d
         (map (fun r => if user_conflicts values r then user_update set now r else r)
              (users d))
         (seq_users d))
  else
    write_store
      (with_users d
         (users d ++ [user_row_of values (seq_users d) now])
         (seq_users d + 1)).

Section UpsertUser.

(** [ENV.ownerOpenId], read from the environment by a module that is not
    part of the sources at hand. *)
Variable ownerOpenId : string.

(** [assignNullable(field)] on the pair (values, updateSet), one text
    field at a time. *)
Definition assign_name (user : InsertUser.t) (acc : InsertUser.t * UserSet.t)
  : InsertUser.t * UserSet.t :=
  let (values, updateSet) := acc in
  match InsertUser.name user with
  | None => acc
  | Some normalized =>
      (InsertUser.mk (InsertUser.id values) (InsertUser.openId values)
         (Some normalized) (InsertUser.email values) (InsertUser.loginMethod values)
         (InsertUser.role values) (InsertUser.createdAt values)
         (InsertUser.updatedAt values) (InsertUser.lastSignedIn values),
       UserSet.mk (Some normalized) (UserSet.email updateSet)
         (UserSet.loginMethod updateSet) (UserSet.lastSignedIn updateSet)
         (UserSet.role updateSet))
  end.

Definition assign_email (user : InsertUser.t) (acc : InsertUser.t * UserSet.t)
  : InsertUser.t * UserSet.t :=
  let (values, updateSet) := acc in
  match InsertUser.email user with
  | None => acc
  | Some normalized =>
      (InsertUser.mk (InsertUser.id values) (InsertUser.openId values)
         (InsertUser.name values) (Some normalized) (InsertUser.loginMethod values)
         (InsertUser.role values) (InsertUser.createdAt values)
         (InsertUser.updatedAt values) (InsertUser.lastSignedIn values),
       UserSet.mk (UserSet.name updateSet) (Some normalized)
         (UserSet.loginMethod updateSet) (UserSet.lastSignedIn updateSet)
         (UserSet.role updateSet))
  end.

Definition assign_loginMethod (user : InsertUser.t) (acc : InsertUser.t * UserSet.t)
  : InsertUser.t * UserSet.t :=
  let (values, updateSet) := acc in
  match InsertUser.loginMethod user with
  | None => acc
  | Some normalized =>
      (InsertUser.mk (InsertUser.id values) (InsertUser.openId values)
         (InsertUser.name values) (InsertUser.email values) (Some normalized)
         (InsertUser.role values) (InsertUser.createdAt values)
         (InsertUser.updatedAt values) (InsertUser.lastSignedIn values),
       UserSet.mk (UserSet.name updateSet) (UserSet.email updateSet)
         (Some normalized) (UserSet.lastSignedIn updateSet)
         (UserSet.role updateSet))
  end.

Definition set_lastSignedIn (d : Date) (acc : InsertUser.t * UserSet.t)
  : InsertUser.t * UserSet.t :=
  let (values, updateSet) := acc in
  (InsertUser.mk (InsertUser.id values) (InsertUser.openId values)
     (InsertUser.name values) (InsertUser.email values) (InsertUser.loginMethod values)
     (InsertUser.role values) (InsertUser.createdAt values)
     (InsertUser.updatedAt values) (Some d),
   UserSet.mk (UserSet.name updateSet) (UserSet.email updateSet)
     (UserSet.loginMethod updateSet) (Some d) (UserSet.role updateSet)).

Definition set_role (r : Role) (acc : InsertUser.t * UserSet.t)
  : InsertUser.t * UserSet.t :=
  let (values, updateSet) := acc in
  (InsertUser.mk (InsertUser.id values) (InsertUser.openId values)
     (InsertUser.name values) (InsertUser.email values) (InsertUser.loginMethod values)
     (Some r) (InsertUser.createdAt values)
     (InsertUser.updatedAt values) (InsertUser.lastSignedIn values),
   UserSet.mk (UserSet.name updateSet) (UserSet.email updateSet)
     (UserSet.loginMethod updateSet) (UserSet.lastSignedIn updateSet) (Some r)).

(** The statement [upsertUser] builds between its [try] and the insert:
    the [values] to insert and the [updateSet] for a row that exists.
    [now1] and [now2] are the two readings of [new Date()]. *)
Definition upsert_statement (user : InsertUser.t) (now1 now2 : Date)
  : InsertUser.t * UserSet.t :=
  let acc0 :=
    (InsertUser.mk None (InsertUser.openId user) None None None None None None None,
     UserSet.empty) in
  (* textFields.forEach(assignNullable) *)
  let acc1 := assign_loginMethod user (assign_email user (assign_name user acc0)) in
  let acc2 :=
    match InsertUser.lastSignedIn user with
    | Some d => set_lastSignedIn d acc1
    | None => acc1
    end in
  let acc3 :=
    match InsertUser.role user with
    | Some r => set_role r acc2
    | None =>
        if String.eqb (InsertUser.openId user) ownerOpenId
        then set_role role_admin acc2
        else acc2
    end in
  let (values, updateSet) := acc3 in
  let values' :=
    match InsertUser.lastSignedIn values with
    | Some _ => values
    | None =>
        InsertUser.mk (InsertUser.id values) (InsertUser.openId values)
          (InsertUser.name values) (InsertUser.email values)
          (InsertUser.loginMethod values) (InsertUser.role values)
          (InsertUser.createdAt values) (InsertUser.updatedAt values) (Some now1)
    end in
  let updateSet' :=
    if UserSet.no_keys updateSet
    then UserSet.mk None None None (Some now2) None
    else updateSet in
  (values', updateSet').

Definition upsertUser (user : InsertUser.t) : Async unit :=
  if negb (truthy_string (InsertUser.openId user)) then
    throw (Error "User openId is required for upsert")
  else
    db <- getDb ;;
    match db with
    | None =>
        console_warn "[Database] Cannot upsert user: database not available" ;;;
        ret tt
    | Some _ =>
        try_catch
          (now1 <- new_Date ;;
           now2 <- new_Date ;;
           let (values, updateSet) := upsert_statement user now1 now2 in
           insert_users_onDuplicateKeyUpdate values updateSet)
          (fun error =>
             console_error "[Database] Failed to upsert user:" ;;;
             throw error)
    end.

End UpsertUser.

Definition getUserByOpenId (openId : string) : Async (option User.t) :=
  db <- getDb ;;
  match db with
  | None =>
      console_warn "[Database] Cannot get user: database not available" ;;;
      ret None
  | Some _ =>
      d <- read_store ;;
      let result := firstn 1 (filter (fun r => eq_text (User.openId r) openId) (users d)) in
      ret (first_or_null result)
  end.

(** What the driver reports for a statement that ran. *)
Record ResultSetHeader : Type := mkResult { insertId : Z }.

(** *** projects *)

Definition createProject (adminUserId : Z) (name : string)
    (description : option string) (schema : option JSON)
  : Async ResultSetHeader :=
  db <- getDb ;;
  match db with
  | None => throw (Error "Database not available")
  | Some _ =>
      d <- read_store ;;
      now <- new_Date ;;
      let row :=
        Project.mk (seq_projects d) adminUserId name description
          (match schema with Some JNull => None | other => other end)
          true now now in
      write_store (with_projects d (projects d ++ [row]) (seq_projects d + 1)) ;;;
      ret (mkResult (seq_projects d))
  end.

Definition getProjectsByAdminId (adminUserId : Z) : Async (list Project.t) :=
  db <- getDb ;;
  match db with
  | None => throw (Error "Database not available")
  | Some _ =>
      d <- read_store ;;
      ret (filter (fun r => eq_int (Project.adminUserId r) adminUserId) (projects d))
  end.

Definition getProjectById (projectId : Z) : Async (option Project.t) :=
  db <- getDb ;;
  match db with
  | None => throw (Error "Database not available")
  | Some _ =>
      d <- read_store ;;
      let result := firstn 1 (filter (fun r => eq_int (Project.id r) projectId) (projects d)) in
      ret (first_or_null result)
  end.

Module ProjectPatch.
(** [Partial<InsertProject>] *)
Record t : Type := mk {
  id : option Z;
  adminUserId : option Z;
  name : option string;
  description : option (option string);
  schema : option JSON;
  isActive : option bool;
  createdAt : option Date;
  updatedAt : option Date
}.

(** No key carries a value other than undefined. *)
Definition no_values (u : t) : bool :=
  match id u, adminUserId u, name u, description u,
        schema u, isActive u, createdAt u, updatedAt u with
  | None, None, None, None, None, None, None, None => true
  | _, _, _, _, _, _, _, _ => false
  end.
End ProjectPatch.

Definition project_assign (u : ProjectPatch.t) (r : Project.t) : Project.t :=
  Project.mk (or_else (ProjectPatch.id u) (Project.id r))
             (or_else (ProjectPatch.adminUserId u) (Project.adminUserId r))
             (or_else (ProjectPatch.name u) (Project.name r))
             (or_else (ProjectPatch.description u) (Project.description r))
             (match ProjectPatch.schema u with
              | None => Project.schema r
              | Some JNull => None
              | Some v => Some v
              end)
             (or_else (ProjectPatch.isActive u) (Project.isActive r))
             (or_else (ProjectPatch.createdAt u) (Project.createdAt r))
             (Project.updatedAt r).

Definition project_update (u : ProjectPatch.t) (now : Date) (r : Project.t) : Project.t :=
  let r' := project_assign u r in
  match ProjectPatch.updatedAt u with
  | Some d => Project.with_updatedAt d r'
  | None => if Project.eqb r r' then r else Project.with_updatedAt now r'
  end.

(** [db.update(projects).set(updates).where(eq(projects.id, projectId))].
    drizzle refuses a SET clause in which every value is undefined; the
    engine refuses to move a row onto a primary key another row holds. *)
Definition update_projects (updates : ProjectPatch.t) (projectId : Z)
  : Async ResultSetHeader :=
  if ProjectPatch.no_values updates then throw (Error "No values to set")
  else
    d <- read_store ;;
    now <- new_Date ;;
    let hits := existsb (fun r => eq_int (Project.id r) projectId) (projects d) in
    let taken :=
      match ProjectPatch.id updates with
      | Some i => negb (i =? projectId) && existsb (fun r => eq_int (Project.id r) i) (projects d)
      | None => false
      end in
    if hits && taken then throw (QueryError DuplicateEntry)
    else
      write_store
        (with_projects d
           (map (fun r => if eq_int (Project.id r) projectId
                          then project_update updates now r else r)
                (projects d))
           (seq_projects d)) ;;;
      ret (mkResult 0).

Definition updateProject (projectId : Z) (updates : ProjectPatch.t)
  : Async ResultSetHeader :=
  db <- getDb ;;
  match db with
  | None => throw (Error "Database not available")
  | Some _ => update_projects updates projectId
  end.

Definition deleteProject (projectId : Z) : Async ResultSetHeader :=
  db <- getDb ;;
  match db with
  | None => throw (Error "Database not available")
  | Some _ =>
      update_projects
        (ProjectPatch.mk None None None None None (Some false) None None)
        projectId
  end.

(** *** apiKeys *)

(** Decimal text of a number, as a template literal prints it. *)
Definition decimal (n : Z) : string :=
  DecimalString.NilZero.string_of_int (Z.to_int n).

Definition apiKey_set_isActive (b : bool) (now : Date) (r : ApiKey.t) : ApiKey.t :=
  let r' :=
    ApiKey.mk (ApiKey.id r) (ApiKey.projectId r) (ApiKey.key r) (ApiKey.name r)
              (ApiKey.permissions r) b (ApiKey.lastUsedAt r)
              (ApiKey.createdAt r) (ApiKey.updatedAt r) in
  if Bool.eqb (ApiKey.isActive r) b then r else ApiKey.with_updatedAt now r'.

Definition createApiKey (projectId : Z) (name : string)
    (permissions : option (list string))
  : Async ResultSetHeader :=
  db <- getDb ;;
  match db with
  | None => throw (Error "Database not available")
  | Some _ =>
      (* Generate unique API key: Date.now() and
         Math.random().toString(36).substring(2, 15) *)
      millis <- new_Date ;;
      random <- random_draw ;;
      let key := "sk_" ++ decimal millis ++ "_" ++ random in
      d <- read_store ;;
      now <- new_Date ;;
      if existsb (fun r => eq_text (ApiKey.key r) key) (apiKeys d) then
        throw (QueryError DuplicateEntry)
      else
        let row :=
          ApiKey.mk (seq_apiKeys d) projectId key name
            (Some (or_else permissions ["read"; "write"]))
            true None now now in
        write_store (with_apiKeys d (apiKeys d ++ [row]) (seq_apiKeys d + 1)) ;;;
        ret (mkResult (seq_apiKeys d))
  end.

Definition getApiKeysByProjectId (projectId : Z) : Async (list ApiKey.t) :=
  db <- getDb ;;
  match db with
  | None => throw (Error "Database not available")
  | Some _ =>
      d <- read_store ;;
      ret (filter (fun r => eq_int (ApiKey.projectId r) projectId) (apiKeys d))
  end.

Definition getApiKeyByKey (key : string) : Async (option ApiKey.t) :=
  db <- getDb ;;
  match db with
  | None => throw (Error "Database not available")
  | Some _ =>
      d <- read_store ;;
      let result := firstn 1 (filter (fun r => eq_text (ApiKey.key r) key) (apiKeys d)) in
      ret (first_or_null result)
  end.

Definition revokeApiKey (apiKeyId : Z) : Async ResultSetHeader :=
  db <- getDb ;;
  match db with
  | None => throw (Error "Database not available")
  | Some _ =>
      d <- read_store ;;
      now <- new_Date ;;
      write_store
        (with_apiKeys d
           (map (fun r => if eq_int (ApiKey.id r) apiKeyId
                          then apiKey_set_isActive false now r else r)
                (apiKeys d))
           (seq_apiKeys d)) ;;;
      ret (mkResult 0)
  end.

(** *** dynamicData *)

(** [data] is typed [any]: it may be undefined ([None]).  The column is
    NOT NULL without default, so the engine refuses a row without a
    document and one whose document is null. *)
Definition insertDynamicData (projectId : Z) (data : option JSON)
    (userId : option string) (dataType : option string) (isPublic : option bool)
  : Async ResultSetHeader :=
  db <- getDb ;;
  match db with
  | None => throw (Error "Database not available")
  | Some _ =>
      d <- read_store ;;
      now <- new_Date ;;
      match data with
      | None => throw (QueryError NoDefaultForField)
      | Some JNull => throw (QueryError NullForNotNull)
      | Some doc =>
          let row :=
            DynamicData.mk (seq_dynamicData d) projectId userId dataType doc
              (or_else isPublic false) now now in
          write_store
            (with_dynamicData d (dynamicData d ++ [row]) (seq_dynamicData d + 1)) ;;;
          ret (mkResult (seq_dynamicData d))
      end
  end.

(** [.limit(limit).offset(offset)]: the engine refuses negative counts. *)
Definition limit_offset {A : Type} (limit offset : Z) (rows : list A)
  : Outcome (list A) :=
  if (limit <? 0) || (offset <? 0) then Throws (QueryError BadLimitOffset)
  else Returns (firstn (Z.to_nat limit) (skipn (Z.to_nat offset) rows)).

Definition getDynamicDataByProjectId (projectId : Z)
    (limit : option Z) (offset : option Z)
  : Async (list DynamicData.t) :=
  let limit := or_else limit 100 in
  let offset := or_else offset 0 in
  db <- getDb ;;
  match db with
  | None => throw (Error "Database not available")
  | Some _ =>
      d <- read_store ;;
      match limit_offset limit offset
              (filter (fun r => eq_int (DynamicData.projectId r) projectId)
                      (dynamicData d)) with
      | Returns rows => ret rows
      | Throws e => throw e
      end
  end.

Definition getDynamicDataById (dataId : Z) : Async (option DynamicData.t) :=
  db <- getDb ;;
  match db with
  | None => throw (Error "Database not available")
  | Some _ =>
      d <- read_store ;;
      let result :=
        firstn 1 (filter (fun r => eq_int (DynamicData.id r) dataId) (dynamicData d)) in
      ret (first_or_null result)
  end.

(** [set({ data, updatedAt: new Date() })]: an undefined [data] drops out of
    the SET clause, a null one is refused when a row would receive it. *)
Definition updateDynamicData (dataId : Z) (data : option JSON)
  : Async ResultSetHeader :=
  db <- getDb ;;
  match db with
  | None => throw (Error "Database not available")
  | Some _ =>
      now <- new_Date ;;
      d <- read_store ;;
      let hits := existsb (fun r => eq_int (DynamicData.id r) dataId) (dynamicData d) in
      match data with
      | Some JNull =>
          if hits then throw (QueryError NullForNotNull) else ret (mkResult 0)
      | _ =>
          write_store
            (with_dynamicData d
               (map (fun r =>
                       if eq_int (DynamicData.id r) dataId then
                         DynamicData.mk (DynamicData.id r) (DynamicData.projectId r)
                           (DynamicData.userId r) (DynamicData.dataType r)
                           (or_else data (DynamicData.data r))
                           (DynamicData.isPublic r) (DynamicData.createdAt r) now
                       else r)
                    (dynamicData d))
               (seq_dynamicData d)) ;;;
          ret (mkResult 0)
      end
  end.

Definition deleteDynamicData (dataId : Z) : Async ResultSetHeader :=
  db <- getDb ;;
  match db with
  | None => throw (Error "Database not available")
  | Some _ =>
      d <- read_store ;;
      write_store
        (with_dynamicData d
           (filter (fun r => negb (eq_int (DynamicData.id r) dataId)) (dynamicData d))
           (seq_dynamicData d)) ;;;
      ret (mkResult 0)
  end.

Definition searchDynamicData (projectId : Z)
    (userId : option string) (dataType : option string)
  : Async (list DynamicData.t) :=
  db <- getDb ;;
  match db with
  | None => throw (Error "Database not available")
  | Some _ =>
      d <- read_store ;;
      let conditions := [fun r => eq_int (DynamicData.projectId r) projectId] in
      let conditions :=
        match userId with
        | Some u => if truthy_string u
                    then (conditions ++ [fun r => eq_text_nullable (DynamicData.userId r) u])%list
                    else conditions
        | None => conditions
        end in
      let conditions :=
        match dataType with
        | Some t => if truthy_string t
                    then (conditions ++ [fun r => eq_text_nullable (DynamicData.dataType r) t])%list
                    else conditions
        | None => conditions
        end in
      ret (filter (fun r => forallb (fun c => c r) conditions) (dynamicData d))
  end.

(* ------------------------------------------------------------------ *)
(** ** auth.ts: the admin identity service *)

Module InsertAdminUser.
(** [typeof adminUsers.$inferInsert] *)
Record t : Type := mk {
  id : option Z;
  email : string;
  passwordHash : string;
  name : option (option string);
  isActive : option bool;
  createdAt : option Date;
  updatedAt : option Date;
  lastSignedIn : option (option Date)
}.
End InsertAdminUser.

Module AdminUserSet.
(** A SET clause over [adminUsers]: the columns it assigns. *)
Record t : Type := mk {
  id : option Z;
  email : option string;
  passwordHash : option string;
  name : option (option string);
  isActive : option bool;
  createdAt : option Date;
  updatedAt : option Date;
  lastSignedIn : option (option Date)
}.
End AdminUserSet.

Definition admin_row_of (values : InsertAdminUser.t) (auto_id : Z) (now : Date)
  : AdminUser.t :=
  AdminUser.mk (or_else (InsertAdminUser.id values) auto_id)
               (InsertAdminUser.email values)
               (InsertAdminUser.passwordHash values)
               (or_null (InsertAdminUser.name values))
               (or_else (InsertAdminUser.isActive values) true)
               (or_else (InsertAdminUser.createdAt values) now)
               (or_else (InsertAdminUser.updatedAt values) now)
               (or_null (InsertAdminUser.lastSignedIn values)).

Definition admin_assign (set : AdminUserSet.t) (r : AdminUser.t) : AdminUser.t :=
  AdminUser.mk (or_else (AdminUserSet.id set) (AdminUser.id r))
               (or_else (AdminUserSet.email set) (AdminUser.email r))
               (or_else (AdminUserSet.passwordHash set) (AdminUser.passwordHash r))
               (or_else (AdminUserSet.name set) (AdminUser.name r))
               (or_else (AdminUserSet.isActive set) (AdminUser.isActive r))
               (or_else (AdminUserSet.createdAt set) (AdminUser.createdAt r))
               (AdminUser.updatedAt r)
               (or_else (AdminUserSet.lastSignedIn set) (AdminUser.lastSignedIn r)).

(** An UPDATE of one row; [updatedAt] is ON UPDATE CURRENT_TIMESTAMP. *)
Definition admin_update (set : AdminUserSet.t) (now : Date) (r : AdminUser.t)
  : AdminUser.t :=
  let r' := admin_assign set r in
  match AdminUserSet.updatedAt set with
  | Some d => AdminUser.with_updatedAt d r'
  | None => if AdminUser.eqb r r' then r else AdminUser.with_updatedAt now r'
  end.

Definition admin_conflicts (values : InsertAdminUser.t) (r : AdminUser.t) : bool :=
  eq_text (AdminUser.email r) (InsertAdminUser.email values)
  || match InsertAdminUser.id values with
     | Some i => eq_int (AdminUser.id r) i
     | None => false
     end.

(** [db.insert(adminUsers).values(values).onDuplicateKeyUpdate({ set })] *)
Definition insert_adminUsers_onDuplicateKeyUpdate
    (values : InsertAdminUser.t) (set : AdminUserSet.t) : Async unit :=
  d <- read_store ;;
  now <- new_Date ;;
  if existsb (admin_conflicts values) (adminUsers d) then
    write_store
      (with_adminUsers d
         (map (fun r => if admin_conflicts values r then admin_update set now r else r)
              (adminUsers d))
         (seq_adminUsers d))
  else
    write_store
      (with_adminUsers d
         (adminUsers d ++ [admin_row_of values (seq_adminUsers d) now])
         (seq_adminUsers d + 1)).

(** [s.split(sep)] for a one-character separator. *)
Fixpoint split (sep : ascii) (s : string) : list string :=
  match s with
  | EmptyString => [EmptyString]
  | String c rest =>
      if Ascii.eqb c sep then EmptyString :: split sep rest
      else match split sep rest with
           | [] => [String c EmptyString]
           | piece :: pieces => String c piece :: pieces
           end
  end.

(** [email.split("@")[0]] *)
Definition email_prefix (email : string) : string :=
  hd EmptyString (split "@"%char email).

(** The reduced record [authenticateAdmin] returns, which is also the
    [AdminSession] the context carries. *)
Module AdminSession.
Record t : Type := mk {
  id : Z;
  email : string;
  name : option string
}.
End AdminSession.

Section AdminIdentity.

(** bcryptjs, an opaque salted one-way hash: [bcrypt_hash password rounds
    salt] and [bcrypt_compare plain hash]. *)
Variable bcrypt_hash : string -> Z -> string -> string.
Variable bcrypt_compare : string -> string -> bool.

Definition SALT_ROUNDS : Z := 10.

Definition hashPassword (password : string) : Async string :=
  salt <- random_draw ;;
  ret (bcrypt_hash password SALT_ROUNDS salt).

Definition comparePassword (plainPassword hashedPassword : string) : Async bool :=
  ret (bcrypt_compare plainPassword hashedPassword).

(** [name || email.split("@")[0]] *)
Definition name_or_prefix (name : option string) (email : string) : string :=
  match name with
  | Some n => if truthy_string n then n else email_prefix email
  | None => email_prefix email
  end.

(** The row and the SET clause of the upsert in [createAdminUser]. *)
Definition createAdminUser_values (email hashedPassword : string) (name : option string)
  : InsertAdminUser.t :=
  InsertAdminUser.mk None email hashedPassword
    (Some (Some (name_or_prefix name email))) (Some true) None None None.

Definition createAdminUser_set (email hashedPassword : string) (name : option string)
  : AdminUserSet.t :=
  AdminUserSet.mk None None (Some hashedPassword)
    (Some (Some (name_or_prefix name email))) None None None None.

Definition createAdminUser (email password : string) (name : option string)
  : Async unit :=
  db <- getDb ;;
  match db with
  | None => throw (Error "Database not available")
  | Some _ =>
      hashedPassword <- hashPassword password ;;
      insert_adminUsers_onDuplicateKeyUpdate
        (createAdminUser_values email hashedPassword name)
        (createAdminUser_set email hashedPassword name)
  end.

Definition authenticateAdmin (email password : string)
  : Async (option AdminSession.t) :=
  db <- getDb ;;
  match db with
  | None => throw (Error "Database not available")
  | Some _ =>
      d <- read_store ;;
      let result :=
        firstn 1 (filter (fun r => eq_text (AdminUser.email r) email) (adminUsers d)) in
      match result with
      | [] => ret None
      | admin :: _ =>
          if negb (AdminUser.isActive admin) then ret None
          else
            passwordMatch <- comparePassword password (AdminUser.passwordHash admin) ;;
            if negb passwordMatch then ret None
            else
              (* Update lastSignedIn *)
              now <- new_Date ;;
              d' <- read_store ;;
              write_store
                (with_adminUsers d'
                   (map (fun r =>
                           if eq_int (AdminUser.id r) (AdminUser.id admin)
                           then admin_update
                                  (AdminUserSet.mk None None None None None None None
                                     (Some (Some now)))
                                  now r
                           else r)
                        (adminUsers d'))
                   (seq_adminUsers d')) ;;;
              ret (Some (AdminSession.mk (AdminUser.id admin)
                                         (AdminUser.email admin)
                                         (AdminUser.name admin)))
      end
  end.

Definition getAdminById (id : Z) : Async (option AdminUser.t) :=
  db <- getDb ;;
  match db with
  | None => throw (Error "Database not available")
  | Some _ =>
      d <- read_store ;;
      let result :=
        firstn 1 (filter (fun r => eq_int (AdminUser.id r) id) (adminUsers d)) in
      ret (first_or_null result)
  end.

End AdminIdentity.

(* ------------------------------------------------------------------ *)
(** ** context.ts and routers.ts: the typed procedure router *)

Module Context.
(** [TrpcContext], without the raw request and response handles. *)
Record t : Type := mk {
  user : option User.t;
  adminSession : option AdminSession.t
}.

(** [ctx.adminSession?.id] *)
Definition adminSession_id (ctx : t) : option Z :=
  option_map AdminSession.id (adminSession ctx).
End Context.

(** Protected procedure for admin users: the middleware in front of every
    resolver built from it. *)
Definition adminProcedure {O : Type} (ctx : Context.t)
    (next : Context.t -> Async O) : Async O :=
  match Context.user ctx, Context.adminSession ctx with
  | Some _, Some _ => next ctx
  | _, _ => throw (TRPCError UNAUTHORIZED None)
  end.

(** [!project || project.adminUserId !== ctx.adminSession?.id] *)
Definition not_owner (project : option Project.t) (ctx : Context.t) : bool :=
  match project with
  | None => true
  | Some p =>
      match Context.adminSession_id ctx with
      | Some i => negb (Project.adminUserId p =? i)
      | None => true
      end
  end.

(** The input parser [name: z.string().min(1)].  The parser of a procedure
    runs after the middleware of [adminProcedure] and before the resolver;
    an input it refuses is a BAD_REQUEST (whose message, the report of the
    parser, is not modelled).  The other input parsers of the router only
    fix the types of the arguments, as the signatures below do. *)
Definition z_string_min_1 (name : string) : bool :=
  (1 <=? Z.of_nat (String.length name)).

(** [!ctx.adminSession?.id] *)
Definition no_session_id (ctx : Context.t) : bool :=
  match Context.adminSession_id ctx with
  | Some i => i =? 0
  | None => true
  end.

Module admin.
Definition getAdminInfo (ctx : Context.t) : Async (option AdminUser.t) :=
  adminProcedure ctx (fun ctx =>
    if no_session_id ctx then throw (TRPCError UNAUTHORIZED None)
    else getAdminById (or_else (Context.adminSession_id ctx) 0)).
End admin.

Module projects.
Definition list (ctx : Context.t) : Async (list Project.t) :=
  adminProcedure ctx (fun ctx =>
    if no_session_id ctx then throw (TRPCError UNAUTHORIZED None)
    else getProjectsByAdminId (or_else (Context.adminSession_id ctx) 0)).

Definition get (ctx : Context.t) (projectId : Z) : Async Project.t :=
  adminProcedure ctx (fun ctx =>
    project <- getProjectById projectId ;;
    if not_owner project ctx then throw (TRPCError FORBIDDEN None)
    else
      match project with
      | Some p => ret p
      | None => throw (TRPCError FORBIDDEN None)   (* excluded by the test above *)
      end).

Definition create (ctx : Context.t) (name : string)
    (description : option string) (schema : option JSON)
  : Async ResultSetHeader :=
  adminProcedure ctx (fun ctx =>
    if negb (z_string_min_1 name) then throw (TRPCError BAD_REQUEST None)
    else if no_session_id ctx then throw (TRPCError UNAUTHORIZED None)
    else createProject (or_else (Context.adminSession_id ctx) 0) name description schema).

Definition update (ctx : Context.t) (projectId : Z) (name : option string)
    (description : option string) (schema : option JSON)
  : Async ResultSetHeader :=
  adminProcedure ctx (fun ctx =>
    project <- getProjectById projectId ;;
    if not_owner project ctx then throw (TRPCError FORBIDDEN None)
    else
      updateProject projectId
        (ProjectPatch.mk None None name (option_map Some description) schema
                         None None None)).

Definition delete (ctx : Context.t) (projectId : Z) : Async ResultSetHeader :=
  adminProcedure ctx (fun ctx =>
    project <- getProjectById projectId ;;
    if not_owner project ctx then throw (TRPCError FORBIDDEN None)
    else deleteProject projectId).
End projects.

Module apiKeys.
Definition list (ctx : Context.t) (projectId : Z) : Async (list ApiKey.t) :=
  adminProcedure ctx (fun ctx =>
    project <- getProjectById projectId ;;
    if not_owner project ctx then throw (TRPCError FORBIDDEN None)
    else getApiKeysByProjectId projectId).

Definition create (ctx : Context.t) (projectId : Z) (name : string)
    (permissions : option (Datatypes.list string))
  : Async ResultSetHeader :=
  adminProcedure ctx (fun ctx =>
    if negb (z_string_min_1 name) then throw (TRPCError BAD_REQUEST None)
    else
      project <- getProjectById projectId ;;
      if not_owner project ctx then throw (TRPCError FORBIDDEN None)
      else createApiKey projectId name permissions).

Definition revoke (ctx : Context.t) (apiKeyId : Z) : Async ResultSetHeader :=
  adminProcedure ctx (fun _ => revokeApiKey apiKeyId).
End apiKeys.

Module data.
(** [limit] and [offset] carry the defaults of the input schema. *)
Definition list (ctx : Context.t) (projectId : Z)
    (limit : option Z) (offset : option Z)
  : Async (list DynamicData.t) :=
  let limit := or_else limit 100 in
  let offset := or_else offset 0 in
  adminProcedure ctx (fun ctx =>
    project <- getProjectById projectId ;;
    if not_owner project ctx then throw (TRPCError FORBIDDEN None)
    else getDynamicDataByProjectId projectId (Some limit) (Some offset)).

Definition create (ctx : Context.t) (projectId : Z) (data : option JSON)
    (userId : option string) (dataType : option string) (isPublic : option bool)
  : Async ResultSetHeader :=
  adminProcedure ctx (fun ctx =>
    project <- getProjectById projectId ;;
    if not_owner project ctx then throw (TRPCError FORBIDDEN None)
    else insertDynamicData projectId data userId dataType isPublic).

Definition update (ctx : Context.t) (dataId : Z) (data : option JSON)
  : Async ResultSetHeader :=
  adminProcedure ctx (fun _ => updateDynamicData dataId data).

Definition delete (ctx : Context.t) (dataId : Z) : Async ResultSetHeader :=
  adminProcedure ctx (fun _ => deleteDynamicData dataId).

Definition search (ctx : Context.t) (projectId : Z)
    (userId : option string) (dataType : option string)
  : Async (Datatypes.list DynamicData.t) :=
  adminProcedure ctx (fun ctx =>
    project <- getProjectById projectId ;;
    if not_owner project ctx then throw (TRPCError FORBIDDEN None)
    else searchDynamicData projectId userId dataType).
End data.

(* ------------------------------------------------------------------ *)
(** ** api.ts: the REST facade *)

(** *** Number conversions of the language

    Texts are strings of ASCII characters.  A number is the integer it
    denotes; [None] stands for NaN.  A number is a double: it holds every
    integer up to 2^53 in magnitude exactly, and a larger one only when it
    fits a significand of 53 bits.  The texts considered denote integers
    below 2^1024 in magnitude, so that no number is infinite. *)

Definition two_53 : Z := 9007199254740992.

(** The double nearest to an integer, a tie going to the even significand. *)
Definition nearest_double (n : Z) : Z :=
  let a := Z.abs n in
  if a <=? two_53 then n
  else
    let e := Z.log2 a - 52 in
    let q := Z.shiftr a e in
    let r := a - Z.shiftl q e in
    let half := Z.shiftl 1 (e - 1) in
    let q' := if (half <? r) || ((r =? half) && Z.odd q) then q + 1 else q in
    Z.sgn n * Z.shiftl q' e.

(** White space and line terminators among the ASCII characters. *)
Definition is_white (c : ascii) : bool :=
  let n := Z.of_nat (nat_of_ascii c) in
  ((9 <=? n) && (n <=? 13)) || (n =? 32).

Fixpoint trim_start (s : string) : string :=
  match s with
  | String c rest => if is_white c then trim_start rest else s
  | EmptyString => EmptyString
  end.

Fixpoint trim_end (s : string) : string :=
  match s with
  | EmptyString => EmptyString
  | String c rest =>
      match trim_end rest with
      | EmptyString => if is_white c then EmptyString else String c EmptyString
      | rest' => String c rest'
      end
  end.

(** The value of a digit in the given radix, if it is one. *)
Definition digit_value (radix : Z) (c : ascii) : option Z :=
  let n := Z.of_nat (nat_of_ascii c) in
  let v :=
    if (48 <=? n) && (n <=? 57) then n - 48            (* 0-9 *)
    else if (97 <=? n) && (n <=? 122) then n - 97 + 10 (* a-z *)
    else if (65 <=? n) && (n <=? 90) then n - 65 + 10  (* A-Z *)
    else radix in
  if v <? radix then Some v else None.

(** The longest prefix of digits, read in the radix; [None] when the text
    does not start with a digit. *)
Fixpoint leading_digits (radix : Z) (s : string) (acc : option Z) : option Z :=
  match s with
  | EmptyString => acc
  | String c rest =>
      match digit_value radix c with
      | Some v => leading_digits radix rest (Some (or_else acc 0 * radix + v))
      | None => acc
      end
  end.

(** The whole text as digits of the radix; [None] when it is empty or holds
    anything else. *)
Fixpoint only_digits (radix : Z) (s : string) (acc : option Z) : option Z :=
  match s with
  | EmptyString => acc
  | String c rest =>
      match digit_value radix c with
      | Some v => only_digits radix rest (Some (or_else acc 0 * radix + v))
      | None => None
      end
  end.

Definition starts_with_0x (s : string) : bool :=
  match s with
  | String "0" (String "x" _) | String "0" (String "X" _) => true
  | _ => false
  end.

Definition drop2 (s : string) : string :=
  match s with
  | String _ (String _ rest) => rest
  | _ => EmptyString
  end.

(** [parseInt(text)] without a radix.  An undefined argument reads as the
    text "undefined", which is not a number.  The result is a double: the
    one nearest to the integer the digits denote. *)
Definition parseInt (text : option string) : option Z :=
  match text with
  | None => None
  | Some input =>
      let s := trim_start input in
      let (sign, s) :=
        match s with
        | String "-" rest => (-1, rest)
        | String "+" rest => (1, rest)
        | _ => (1, s)
        end in
      let (radix, s) := if starts_with_0x s then (16, drop2 s) else (10, s) in
      option_map (fun m => nearest_double (sign * m)) (leading_digits radix s None)
  end.

(** [BigInt(text)]: the text trimmed at both ends must be empty, a decimal
    integer with an optional sign, or an unsigned literal with prefix 0x, 0o
    or 0b; anything else is a SyntaxError. *)
Definition BigInt (text : string) : Outcome Z :=
  let s := trim_end (trim_start text) in
  let parsed :=
    match s with
    | EmptyString => Some 0
    | String "-" rest => option_map Z.opp (only_digits 10 rest None)
    | String "+" rest => only_digits 10 rest None
    | String "0" (String "x" rest) | String "0" (String "X" rest) =>
        only_digits 16 rest None
    | String "0" (String "o" rest) | String "0" (String "O" rest) =>
        only_digits 8 rest None
    | String "0" (String "b" rest) | String "0" (String "B" rest) =>
        only_digits 2 rest None
    | _ => only_digits 10 s None
    end in
  match parsed with
  | Some n => Returns n
  | None => Throws (SyntaxError ("Cannot convert " ++ text ++ " to a BigInt"))
  end.

(** [x || d] for a number: NaN and 0 give way to the default. *)
Definition number_or (x : option Z) (d : Z) : Z :=
  match x with
  | None => d
  | Some n => if n =? 0 then d else n
  end.

(** *** Requests and responses *)

Module Body.
(** The parsed JSON object in [req.body]; an absent property is undefined. *)
Record t : Type := mk {
  data : option JSON;
  userId : option string;
  dataType : option string;
  isPublic : option bool
}.
End Body.

Module Query.
Record t : Type := mk {
  limit : option string;
  offset : option string;
  userId : option string;
  dataType : option string
}.
End Query.

Module Request.
Record t : Type := mk {
  x_api_key : option string;    (* req.headers["x-api-key"] *)
  query : Query.t;
  params_id : string;           (* req.params.id *)
  body : Body.t
}.
End Request.

(** A request the middleware let through, with what it attached to it. *)
Module Bound.
Record t : Type := mk {
  req : Request.t;
  apiKey : ApiKey.t;            (* (req as any).apiKey *)
  projectId : Z                 (* (req as any).projectId *)
}.
End Bound.

(** The JSON documents the handlers send. *)
Inductive Payload : Type :=
| error_payload (error : ErrorText)
| list_payload (data : list DynamicData.t) (limit offset total : Z)
| done_payload (message : string) (result : ResultSetHeader)
| search_payload (data : list DynamicData.t) (userId dataType : option string)
| project_payload (id : Z) (name : string) (description : option string)
                  (isActive : bool) (createdAt : Date)
| health_payload (message : string) (timestamp : Date).

Module Response.
Record t : Type := mk {
  status : Z;
  json : Payload
}.
End Response.

(** *** Middleware *)

(** Middleware to authenticate API requests using API key.  A failure of
    [getApiKeyByKey] is not caught here and leaves as a rejection. *)
Definition authenticateApiKey (req : Request.t)
    (next : Bound.t -> Async Response.t) : Async Response.t :=
  let apiKey := Request.x_api_key req in
  if negb (truthy_opt truthy_string apiKey) then
    ret (Response.mk 401 (error_payload (Text "Missing API key")))
  else
    keyData <- getApiKeyByKey (or_else apiKey "") ;;
    match keyData with
    | None => ret (Response.mk 401 (error_payload (Text "Invalid or revoked API key")))
    | Some k =>
        if negb (ApiKey.isActive k) then
          ret (Response.mk 401 (error_payload (Text "Invalid or revoked API key")))
        else
          (* Attach API key data to request *)
          next (Bound.mk req k (ApiKey.projectId k))
    end.

(** [catch (error) { res.status(500).json({ error: error.message }) }] *)
Definition status_500 (error : Exn) : Async Response.t :=
  ret (Response.mk 500 (error_payload (message_of error))).

(** *** Handlers *)

(** [res.json(body)] for a body that holds the rows of [dynamic_data]: the
    body is passed to [JSON.stringify] before anything is sent.  The column
    [id] of the schema has mode "bigint", so each row carries its id as a
    BigInt, which [JSON.stringify] refuses with a TypeError; only a body
    without rows is serialized. *)
Definition res_json (rows : list DynamicData.t) (response : Response.t)
  : Async Response.t :=
  match rows with
  | [] => ret response
  | _ :: _ => throw (TypeError "Do not know how to serialize a BigInt")
  end.

(** [Math.min(parseInt(req.query.limit) || 100, 1000)] *)
Definition effective_limit (q : Query.t) : Z :=
  Z.min (number_or (parseInt (Query.limit q)) 100) 1000.

(** [parseInt(req.query.offset) || 0] *)
Definition effective_offset (q : Query.t) : Z :=
  number_or (parseInt (Query.offset q)) 0.

(** GET /v1/data - List all data for a project *)
Definition get_data_handler (b : Bound.t) : Async Response.t :=
  try_catch
    (let projectId := Bound.projectId b in
     let limit := effective_limit (Request.query (Bound.req b)) in
     let offset := effective_offset (Request.query (Bound.req b)) in
     data <- getDynamicDataByProjectId projectId (Some limit) (Some offset) ;;
     res_json data
       (Response.mk 200
          (list_payload data limit offset (Z.of_nat (List.length data)))))
    status_500.

(** POST /api/v1/data - Insert new data *)
Definition post_data_handler (b : Bound.t) : Async Response.t :=
  try_catch
    (let projectId := Bound.projectId b in
     let body := Request.body (Bound.req b) in
     if negb (truthy_opt truthy_JSON (Body.data body)) then
       ret (Response.mk 400 (error_payload (Text "Data field is required")))
     else
       result <- insertDynamicData projectId (Body.data body) (Body.userId body)
                   (Body.dataType body) (Body.isPublic body) ;;
       ret (Response.mk 201 (done_payload "Data inserted successfully" result)))
    status_500.

(** PUT /api/v1/data/:id - Update existing data *)
Definition put_data_handler (b : Bound.t) : Async Response.t :=
  try_catch
    (match BigInt (Request.params_id (Bound.req b)) with
     | Throws e => throw e
     | Returns dataId =>
         let body := Request.body (Bound.req b) in
         if negb (truthy_opt truthy_JSON (Body.data body)) then
           ret (Response.mk 400 (error_payload (Text "Data field is required")))
         else
           result <- updateDynamicData dataId (Body.data body) ;;
           ret (Response.mk 200 (done_payload "Data updated successfully" result))
     end)
    status_500.

(** DELETE /api/v1/data/:id - Delete data *)
Definition delete_data_handler (b : Bound.t) : Async Response.t :=
  try_catch
    (match BigInt (Request.params_id (Bound.req b)) with
     | Throws e => throw e
     | Returns dataId =>
         result <- deleteDynamicData dataId ;;
         ret (Response.mk 200 (done_payload "Data deleted successfully" result))
     end)
    status_500.

(** GET /api/v1/data/search - Search data by userId or dataType *)
Definition search_data_handler (b : Bound.t) : Async Response.t :=
  try_catch
    (let projectId := Bound.projectId b in
     let userId := Query.userId (Request.query (Bound.req b)) in
     let dataType := Query.dataType (Request.query (Bound.req b)) in
     data <- searchDynamicData projectId userId dataType ;;
     res_json data (Response.mk 200 (search_payload data userId dataType)))
    status_500.

(** GET /api/v1/project - Get project info *)
Definition project_handler (b : Bound.t) : Async Response.t :=
  try_catch
    (project <- getProjectById (Bound.projectId b) ;;
     match project with
     | None => ret (Response.mk 404 (error_payload (Text "Project not found")))
     | Some p =>
         ret (Response.mk 200
                (project_payload (Project.id p) (Project.name p) (Project.description p)
                                 (Project.isActive p) (Project.createdAt p)))
     end)
    status_500.

(** GET /api/v1/health - Health check endpoint *)
Definition health_handler (_ : Request.t) : Async Response.t :=
  now <- new_Date ;;
  ret (Response.mk 200 (health_payload "API is healthy" now)).

(** The routes: the middleware in front of each handler. *)
Definition GET_v1_data (req : Request.t) : Async Response.t :=
  authenticateApiKey req get_data_handler.
Definition POST_api_v1_data (req : Request.t) : Async Response.t :=
  authenticateApiKey req post_data_handler.
Definition PUT_api_v1_data_id (req : Request.t) : Async Response.t :=
  authenticateApiKey req put_data_handler.
Definition DELETE_api_v1_data_id (req : Request.t) : Async Response.t :=
  authenticateApiKey req delete_data_handler.
Definition GET_api_v1_data_search (req : Request.t) : Async Response.t :=
  authenticateApiKey req search_data_handler.
Definition GET_api_v1_project (req : Request.t) : Async Response.t :=
  authenticateApiKey req project_handler.
Definition GET_api_v1_health (req : Request.t) : Async Response.t :=
  health_handler req.

(* ================================================================== *)
(** * Properties *)

Unset Implicit Arguments.

(** ** The connection handle *)

Definition db_unavailable : Exn := Error "Database not available".

(** [getDb] touches neither the tables nor the clock. *)
Lemma getDb_store (w : World) : store (snd (getDb w)) = store w.
Proof.
  unfold getDb.
  destruct (_db w), (DATABASE_URL w) as [url|]; try reflexivity.
  destruct (truthy_string url); try reflexivity.
  destruct (drizzle_throws w); reflexivity.
Qed.

Lemma getDb_clock (w : World) : clock (snd (getDb w)) = clock w.
Proof.
  unfold getDb.
  destruct (_db w), (DATABASE_URL w) as [url|]; try reflexivity.
  destruct (truthy_string url); try reflexivity.
  destruct (drizzle_throws w); reflexivity.
Qed.

Lemma getDb_entropy (w : World) : entropy (snd (getDb w)) = entropy w.
Proof.
  unfold getDb.
  destruct (_db w), (DATABASE_URL w) as [url|]; try reflexivity.
  destruct (truthy_string url); try reflexivity.
  destruct (drizzle_throws w); reflexivity.
Qed.

(** [getDb] never throws. *)
Lemma getDb_returns (w : World) : exists h, fst (getDb w) = Returns h.
Proof.
  unfold getDb.
  destruct (_db w), (DATABASE_URL w) as [url|]; try (eexists; reflexivity).
  destruct (truthy_string url); try (eexists; reflexivity).
  destruct (drizzle_throws w); eexists; reflexivity.
Qed.

(** A handle once created is reused. *)
Lemma getDb_cached (w : World) (h : Handle) :
  _db w = Some h -> getDb w = (Returns (Some h), w).
Proof.
  intros H. unfold getDb. rewrite H. reflexivity.
Qed.

(** No handle and no connection string: there is no datastore. *)
Lemma getDb_unconfigured (w : World) :
  _db w = None -> DATABASE_URL w = None -> getDb w = (Returns None, w).
Proof.
  intros H1 H2. unfold getDb. rewrite H1, H2. reflexivity.
Qed.

Lemma getDb_split (w : World) (r : Outcome (option Handle)) (w1 : World) :
  getDb w = (r, w1) -> store w1 = store w /\ clock w1 = clock w.
Proof.
  intros H. pose proof (getDb_store w) as Hs. pose proof (getDb_clock w) as Hc.
  rewrite H in Hs, Hc. simpl in Hs, Hc. auto.
Qed.

(** After a call that yielded a handle, the handle is the cached one. *)
Lemma getDb_keeps_handle (w w1 : World) (h : Handle) :
  getDb w = (Returns (Some h), w1) -> _db w1 = Some h.
Proof.
  unfold getDb.
  destruct (_db w) as [h0|] eqn:Hdb.
  - intros H. inversion H. subst. exact Hdb.
  - destruct (DATABASE_URL w) as [url|]; [|discriminate].
    destruct (truthy_string url); [|discriminate].
    destruct (drizzle_throws w); [discriminate|].
    intros H. inversion H. reflexivity.
Qed.

(** Worlds used in the examples below. *)
Definition empty_database : Database :=
  mkDatabase [] [] [] [] [] 1 1 1 1 1.

(** A process without connection string. *)
Definition world_down : World :=
  mkWorld None false None empty_database 1000 ["k3x9"; "p07q"] [].

(** A process whose handle exists, over the given tables. *)
Definition world_up (d : Database) : World :=
  mkWorld (Some "mysql://db") false (Some (Drizzle "mysql://db")) d 1000
          ["k3x9"; "p07q"] [].

(* ------------------------------------------------------------------ *)
(** ** Unavailable datastore (db.ts) *)

Ltac without_db E :=
  cbv beta delta [bind or_else]; rewrite E; reflexivity.

(** The fifteen project, key and data operations throw
    "Database not available" as soon as [getDb] yields null, leaving the
    world as [getDb] left it. *)
Lemma data_operations_throw_without_db (w w1 : World) :
  getDb w = (Returns None, w1) ->
  (forall a n d s, createProject a n d s w = (Throws db_unavailable, w1)) /\
  (forall a, getProjectsByAdminId a w = (Throws db_unavailable, w1)) /\
  (forall p, getProjectById p w = (Throws db_unavailable, w1)) /\
  (forall p u, updateProject p u w = (Throws db_unavailable, w1)) /\
  (forall p, deleteProject p w = (Throws db_unavailable, w1)) /\
  (forall p n ps, createApiKey p n ps w = (Throws db_unavailable, w1)) /\
  (forall p, getApiKeysByProjectId p w = (Throws db_unavailable, w1)) /\
  (forall k, getApiKeyByKey k w = (Throws db_unavailable, w1)) /\
  (forall k, revokeApiKey k w = (Throws db_unavailable, w1)) /\
  (forall p d u t b, insertDynamicData p d u t b w = (Throws db_unavailable, w1)) /\
  (forall p l o, getDynamicDataByProjectId p l o w = (Throws db_unavailable, w1)) /\
  (forall i, getDynamicDataById i w = (Throws db_unavailable, w1)) /\
  (forall i d, updateDynamicData i d w = (Throws db_unavailable, w1)) /\
  (forall i, deleteDynamicData i w = (Throws db_unavailable, w1)) /\
  (forall p u t, searchDynamicData p u t w = (Throws db_unavailable, w1)).
Proof.
  intros E.
  repeat split; intros.
  - unfold createProject; without_db E.
  - unfold getProjectsByAdminId; without_db E.
  - unfold getProjectById; without_db E.
  - unfold updateProject; without_db E.
  - unfold deleteProject; without_db E.
  - unfold createApiKey; without_db E.
  - unfold getApiKeysByProjectId; without_db E.
  - unfold getApiKeyByKey; without_db E.
  - unfold revokeApiKey; without_db E.
  - unfold insertDynamicData; without_db E.
  - unfold getDynamicDataByProjectId; without_db E.
  - unfold getDynamicDataById; without_db E.
  - unfold updateDynamicData; without_db E.
  - unfold deleteDynamicData; without_db E.
  - unfold searchDynamicData; without_db E.
Qed.

(** C2, as the code has it.  When [getDb] yields null: the fifteen project,
    key and data operations throw "Database not available"; [getUserByOpenId]
    does not throw but warns and returns undefined; [upsertUser] never throws
    that error: with a non-empty openId it warns and returns without writing,
    with an empty one it throws its validation error.  None of them changes
    the tables. *)
Theorem unavailable_datastore (owner : string) (w w1 : World) :
  getDb w = (Returns None, w1) ->
  ((forall a n d s, createProject a n d s w = (Throws db_unavailable, w1)) /\
   (forall a, getProjectsByAdminId a w = (Throws db_unavailable, w1)) /\
   (forall p, getProjectById p w = (Throws db_unavailable, w1)) /\
   (forall p u, updateProject p u w = (Throws db_unavailable, w1)) /\
   (forall p, deleteProject p w = (Throws db_unavailable, w1)) /\
   (forall p n ps, createApiKey p n ps w = (Throws db_unavailable, w1)) /\
   (forall p, getApiKeysByProjectId p w = (Throws db_unavailable, w1)) /\
   (forall k, getApiKeyByKey k w = (Throws db_unavailable, w1)) /\
   (forall k, revokeApiKey k w = (Throws db_unavailable, w1)) /\
   (forall p d u t b, insertDynamicData p d u t b w = (Throws db_unavailable, w1)) /\
   (forall p l o, getDynamicDataByProjectId p l o w = (Throws db_unavailable, w1)) /\
   (forall i, getDynamicDataById i w = (Throws db_unavailable, w1)) /\
   (forall i d, updateDynamicData i d w = (Throws db_unavailable, w1)) /\
   (forall i, deleteDynamicData i w = (Throws db_unavailable, w1)) /\
   (forall p u t, searchDynamicData p u t w = (Throws db_unavailable, w1))) /\
  (forall openId,
     getUserByOpenId openId w =
     (Returns None, log "[Database] Cannot get user: database not available" w1)) /\
  (forall user,
     truthy_string (InsertUser.openId user) = true ->
     upsertUser owner user w =
     (Returns tt, log "[Database] Cannot upsert user: database not available" w1)) /\
  (forall user,
     truthy_string (InsertUser.openId user) = false ->
     upsertUser owner user w =
     (Throws (Error "User openId is required for upsert"), w)) /\
  store w1 = store w.
Proof.
  intros E.
  split; [exact (data_operations_throw_without_db w w1 E)|].
  split; [|split; [|split]].
  - intros. unfold getUserByOpenId. cbv beta delta [bind]. rewrite E. reflexivity.
  - intros user Ht. unfold upsertUser. rewrite Ht.
    cbv beta iota delta [negb bind]. rewrite E. reflexivity.
  - intros user Ht. unfold upsertUser. rewrite Ht. reflexivity.
  - exact (proj1 (getDb_split w _ w1 E)).
Qed.

(** At a process without connection string the hypothesis holds, and
    [getUserByOpenId] returns undefined there. *)
Lemma unavailable_datastore_witness :
  getProjectById 7 world_down = (Throws db_unavailable, world_down) /\
  fst (getUserByOpenId "user-1" world_down) = Returns None.
Proof.
  pose proof (unavailable_datastore "owner-1" world_down world_down eq_refl) as H.
  destruct H as [Hops [Hget _]].
  split.
  - apply Hops.
  - rewrite Hget. reflexivity.
Defined.

(** C2 as stated fails: without a datastore [getUserByOpenId] returns
    undefined instead of throwing an unavailability error. *)
Lemma getUserByOpenId_does_not_throw_without_db :
  getDb world_down = (Returns None, world_down) /\
  fst (getUserByOpenId "user-1" world_down) = Returns None /\
  fst (getUserByOpenId "user-1" world_down) <> Throws db_unavailable.
Proof.
  split; [reflexivity|]. split; [reflexivity|]. discriminate.
Qed.

(* ------------------------------------------------------------------ *)
(** ** Row comparison *)

Lemma option_eqb_string_eq (a b : option string) :
  option_eqb String.eqb a b = true -> a = b.
Proof.
  destruct a, b; simpl; try discriminate; auto.
  intros H. apply String.eqb_eq in H. congruence.
Qed.

Lemma option_eqb_Z_eq (a b : option Z) :
  option_eqb Z.eqb a b = true -> a = b.
Proof.
  destruct a, b; simpl; try discriminate; auto.
  intros H. apply Z.eqb_eq in H. congruence.
Qed.

Lemma Role_eqb_eq (a b : Role) : Role_eqb a b = true -> a = b.
Proof. destruct a, b; simpl; congruence. Qed.

Lemma User_eqb_eq (a b : User.t) : User.eqb a b = true -> a = b.
Proof.
  destruct a, b. unfold User.eqb. simpl. intros H.
  repeat (apply andb_prop in H; destruct H as [H ?]).
  repeat match goal with
         | X : (_ =? _) = true |- _ => apply Z.eqb_eq in X
         | X : String.eqb _ _ = true |- _ => apply String.eqb_eq in X
         | X : option_eqb String.eqb _ _ = true |- _ => apply option_eqb_string_eq in X
         | X : Role_eqb _ _ = true |- _ => apply Role_eqb_eq in X
         end.
  congruence.
Qed.

Lemma AdminUser_eqb_eq (a b : AdminUser.t) : AdminUser.eqb a b = true -> a = b.
Proof.
  destruct a, b. unfold AdminUser.eqb. simpl. intros H.
  repeat (apply andb_prop in H; destruct H as [H ?]).
  repeat match goal with
         | X : (_ =? _) = true |- _ => apply Z.eqb_eq in X
         | X : String.eqb _ _ = true |- _ => apply String.eqb_eq in X
         | X : option_eqb String.eqb _ _ = true |- _ => apply option_eqb_string_eq in X
         | X : option_eqb Z.eqb _ _ = true |- _ => apply option_eqb_Z_eq in X
         | X : Bool.eqb _ _ = true |- _ => apply Bool.eqb_prop in X
         end.
  congruence.
Qed.

Lemma existsb_pointwise {A : Type} (p q : A -> bool) (l : list A) :
  (forall a, p a = q a) -> existsb p l = existsb q l.
Proof.
  intros H. induction l as [|a l IH]; simpl; [reflexivity|].
  rewrite H, IH. reflexivity.
Qed.

(** [firstn 1 (filter p l)] is the first row that satisfies [p]. *)
Lemma first_match {A : Type} (p : A -> bool) (l : list A) :
  firstn 1 (filter p l) = match find p l with Some x => [x] | None => [] end.
Proof.
  induction l as [|a l IH]; simpl; [reflexivity|].
  destruct (p a); simpl; [reflexivity|exact IH].
Qed.

(* ------------------------------------------------------------------ *)
(** ** upsertUser on a user seen before (db.ts) *)

(** What one UPDATE does to the columns of a user row. *)
Lemma user_update_columns (set : UserSet.t) (now : Date) (r : User.t) :
  User.id (user_update set now r) = User.id r /\
  User.openId (user_update set now r) = User.openId r /\
  User.createdAt (user_update set now r) = User.createdAt r /\
  User.name (user_update set now r) = or_else (UserSet.name set) (User.name r) /\
  User.email (user_update set now r) = or_else (UserSet.email set) (User.email r) /\
  User.loginMethod (user_update set now r)
    = or_else (UserSet.loginMethod set) (User.loginMethod r) /\
  User.role (user_update set now r) = or_else (UserSet.role set) (User.role r) /\
  User.lastSignedIn (user_update set now r)
    = or_else (UserSet.lastSignedIn set) (User.lastSignedIn r) /\
  (User.updatedAt (user_update set now r) = User.updatedAt r \/
   User.updatedAt (user_update set now r) = now).
Proof.
  unfold user_update.
  destruct (User.eqb r (user_assign set r)) eqn:E.
  - apply User_eqb_eq in E.
    repeat split; try (rewrite E at 1; reflexivity). left; reflexivity.
  - repeat split. right; reflexivity.
Qed.

(** No updatable field of the argument carries a value. *)
Definition supplies_nothing (user : InsertUser.t) : bool :=
  match InsertUser.name user, InsertUser.email user, InsertUser.loginMethod user,
        InsertUser.role user, InsertUser.lastSignedIn user with
  | None, None, None, None, None => true
  | _, _, _, _, _ => false
  end.

(** The statement [upsertUser] issues, column by column. *)
Lemma upsert_statement_columns (owner : string) (user : InsertUser.t) (now1 now2 : Date) :
  let values := fst (upsert_statement owner user now1 now2) in
  let set := snd (upsert_statement owner user now1 now2) in
  InsertUser.id values = None /\
  InsertUser.openId values = InsertUser.openId user /\
  UserSet.name set = InsertUser.name user /\
  UserSet.email set = InsertUser.email user /\
  UserSet.loginMethod set = InsertUser.loginMethod user /\
  UserSet.role set =
    match InsertUser.role user with
    | Some x => Some x
    | None => if String.eqb (InsertUser.openId user) owner then Some role_admin else None
    end /\
  UserSet.lastSignedIn set =
    match InsertUser.lastSignedIn user with
    | Some d => Some d
    | None =>
        if supplies_nothing user && negb (String.eqb (InsertUser.openId user) owner)
        then Some now2 else None
    end.
Proof.
  destruct user as [i o n e l r c u s].
  unfold upsert_statement, supplies_nothing, assign_name, assign_email,
    assign_loginMethod, set_lastSignedIn, set_role; simpl.
  destruct n, e, l, s, r; simpl;
    try (destruct (String.eqb o owner); simpl); repeat split.
Qed.

(** The row [upsertUser] leaves for a user it has seen before, as a function
    of the stored row. *)
Definition upserted (owner : string) (user : InsertUser.t) (now : Date) (r : User.t)
  : User.t :=
  if user_conflicts (fst (upsert_statement owner user now now)) r
  then user_update (snd (upsert_statement owner user now now)) now r
  else r.

Lemma upsertUser_runs (owner : string) (user : InsertUser.t) (w w1 : World) (h : Handle) :
  truthy_string (InsertUser.openId user) = true ->
  getDb w = (Returns (Some h), w1) ->
  existsb (fun r => eq_text (User.openId r) (InsertUser.openId user)) (users (store w))
    = true ->
  upsertUser owner user w =
  (Returns tt,
   set_store (with_users (store w)
                (map (upserted owner user (clock w)) (users (store w)))
                (seq_users (store w))) w1).
Proof.
  intros Ht E Hex.
  destruct (getDb_split w _ w1 E) as [Hs Hc].
  unfold upsertUser. rewrite Ht.
  cbv beta iota delta [negb bind]. rewrite E.
  cbv beta iota delta [try_catch bind new_Date].
  rewrite Hc.
  destruct (upsert_statement_columns owner user (clock w) (clock w))
    as [Hid [Hop _]].
  unfold upserted.
  destruct (upsert_statement owner user (clock w) (clock w)) as [values set].
  simpl fst in *. simpl snd in *.
  unfold insert_users_onDuplicateKeyUpdate.
  cbv beta iota delta [bind read_store new_Date write_store].
  rewrite Hs, Hc.
  assert (Hc' : forall r, user_conflicts values r
                          = eq_text (User.openId r) (InsertUser.openId user)).
  { intros r. unfold user_conflicts. rewrite Hid, Hop. apply orb_false_r. }
  rewrite (existsb_pointwise _ _ (users (store w)) Hc').
  rewrite Hex. reflexivity.
Qed.

(** C3, as the code has it.  For a user already stored, [upsertUser] rewrites
    the rows with that openId and no other row.  In such a row name, email
    and login method take the supplied values and keep theirs otherwise;
    role takes the supplied value, else becomes admin when the openId is the
    configured owner's, else is kept; last-signed-in takes the supplied
    value, else is set to now when nothing at all was supplied and the openId
    is not the owner's, else is kept; id, openId and createdAt are kept;
    updatedAt is kept or set to now by the engine. *)
Theorem upsertUser_repeat_sight
    (owner : string) (user : InsertUser.t) (w w1 : World) (h : Handle) :
  truthy_string (InsertUser.openId user) = true ->
  getDb w = (Returns (Some h), w1) ->
  existsb (fun r => eq_text (User.openId r) (InsertUser.openId user)) (users (store w))
    = true ->
  exists (w2 : World) (f : User.t -> User.t),
    upsertUser owner user w = (Returns tt, w2) /\
    users (store w2) = map f (users (store w)) /\
    (forall r, User.openId r <> InsertUser.openId user -> f r = r) /\
    (forall r, User.openId r = InsertUser.openId user ->
       User.id (f r) = User.id r /\
       User.openId (f r) = User.openId r /\
       User.createdAt (f r) = User.createdAt r /\
       User.name (f r) = or_else (InsertUser.name user) (User.name r) /\
       User.email (f r) = or_else (InsertUser.email user) (User.email r) /\
       User.loginMethod (f r) = or_else (InsertUser.loginMethod user) (User.loginMethod r) /\
       User.role (f r) =
         match InsertUser.role user with
         | Some x => x
         | None => if String.eqb (InsertUser.openId user) owner
                   then role_admin else User.role r
         end /\
       User.lastSignedIn (f r) =
         match InsertUser.lastSignedIn user with
         | Some d => d
         | None =>
             if supplies_nothing user && negb (String.eqb (InsertUser.openId user) owner)
             then clock w else User.lastSignedIn r
         end /\
       (User.updatedAt (f r) = User.updatedAt r \/ User.updatedAt (f r) = clock w)).
Proof.
  intros Ht E Hex.
  eexists. exists (upserted owner user (clock w)).
  split; [exact (upsertUser_runs owner user w w1 h Ht E Hex)|].
  split; [reflexivity|].
  destruct (upsert_statement_columns owner user (clock w) (clock w))
    as [Hid [Hop [Hn [He [Hl [Hr Hs]]]]]].
  assert (Hc : forall r, user_conflicts (fst (upsert_statement owner user (clock w) (clock w))) r
                         = String.eqb (User.openId r) (InsertUser.openId user)).
  { intros r. unfold user_conflicts, eq_text. rewrite Hid, Hop. apply orb_false_r. }
  split.
  - intros r Hne. unfold upserted. rewrite Hc.
    apply String.eqb_neq in Hne. rewrite Hne. reflexivity.
  - intros r Heq. unfold upserted. rewrite Hc.
    apply String.eqb_eq in Heq. rewrite Heq.
    destruct (user_update_columns (snd (upsert_statement owner user (clock w) (clock w)))
                (clock w) r)
      as [U1 [U2 [U3 [U4 [U5 [U6 [U7 [U8 U9]]]]]]]].
    rewrite U1, U2, U3, U4, U5, U6, U7, U8, Hn, He, Hl, Hr, Hs.
    repeat split; try assumption.
    + destruct (InsertUser.role user); [reflexivity|].
      destruct (String.eqb (InsertUser.openId user) owner); reflexivity.
    + destruct (InsertUser.lastSignedIn user); [reflexivity|].
      destruct (supplies_nothing user && negb (String.eqb (InsertUser.openId user) owner));
        reflexivity.
Qed.

(** A stored user of role user whose openId is the configured owner's. *)
Definition stored_owner : User.t :=
  User.mk 1 "owner-1" (Some "Ann") None None role_user 10 10 100.

(** A stored user who is not the owner. *)
Definition stored_guest : User.t :=
  User.mk 2 "guest-2" (Some "Bob") (Some "bob@x.com") None role_user 20 20 200.

Definition users_database : Database :=
  mkDatabase [stored_owner; stored_guest] [] [] [] [] 3 1 1 1 1.

(** An argument that carries the openId and nothing else. *)
Definition only_openId (openId : string) : InsertUser.t :=
  InsertUser.mk None openId None None None None None None None.

(** For the guest, an argument without fields refreshes last-signed-in and
    keeps name, email and role. *)
Lemma upsertUser_repeat_sight_witness :
  exists w2 r,
    upsertUser "owner-1" (only_openId "guest-2") (world_up users_database)
      = (Returns tt, w2) /\
    users (store w2) = [stored_owner; r] /\
    User.name r = Some "Bob" /\ User.role r = role_user /\
    User.lastSignedIn r = 1000.
Proof.
  destruct (upsertUser_repeat_sight "owner-1" (only_openId "guest-2")
              (world_up users_database) (world_up users_database)
              (Drizzle "mysql://db") eq_refl eq_refl eq_refl)
    as [w2 [f [Hrun [Hmap [Hother Hsame]]]]].
  exists w2, (f stored_guest).
  split; [exact Hrun|].
  split.
  - rewrite Hmap. simpl. rewrite (Hother stored_owner) by discriminate. reflexivity.
  - destruct (Hsame stored_guest eq_refl) as [_ [_ [_ [Hn [_ [_ [Hr [Hl _]]]]]]]].
    repeat split; assumption.
Defined.

(** C3 as stated fails for the owner: an argument that supplies no field at
    all changes the stored role to admin and leaves last-signed-in as it
    was. *)
Lemma upsertUser_owner_role_not_supplied :
  exists w2 r,
    upsertUser "owner-1" (only_openId "owner-1") (world_up users_database)
      = (Returns tt, w2) /\
    users (store w2) = [r; stored_guest] /\
    InsertUser.role (only_openId "owner-1") = None /\
    User.role stored_owner = role_user /\ User.role r = role_admin /\
    User.lastSignedIn r = 100 /\ User.lastSignedIn r <> clock (world_up users_database).
Proof.
  eexists. eexists.
  split; [vm_compute; reflexivity|].
  split; [reflexivity|].
  repeat split. discriminate.
Qed.

(* ------------------------------------------------------------------ *)
(** ** authenticateAdmin (auth.ts) *)

(** What one UPDATE does to the columns of an admin row, for a SET clause
    that does not assign [updatedAt]. *)
Lemma admin_update_columns (set : AdminUserSet.t) (now : Date) (r : AdminUser.t) :
  AdminUserSet.updatedAt set = None ->
  AdminUser.id (admin_update set now r) = or_else (AdminUserSet.id set) (AdminUser.id r) /\
  AdminUser.email (admin_update set now r)
    = or_else (AdminUserSet.email set) (AdminUser.email r) /\
  AdminUser.passwordHash (admin_update set now r)
    = or_else (AdminUserSet.passwordHash set) (AdminUser.passwordHash r) /\
  AdminUser.name (admin_update set now r)
    = or_else (AdminUserSet.name set) (AdminUser.name r) /\
  AdminUser.isActive (admin_update set now r)
    = or_else (AdminUserSet.isActive set) (AdminUser.isActive r) /\
  AdminUser.createdAt (admin_update set now r)
    = or_else (AdminUserSet.createdAt set) (AdminUser.createdAt r) /\
  AdminUser.lastSignedIn (admin_update set now r)
    = or_else (AdminUserSet.lastSignedIn set) (AdminUser.lastSignedIn r) /\
  (AdminUser.updatedAt (admin_update set now r) = AdminUser.updatedAt r \/
   AdminUser.updatedAt (admin_update set now r) = now).
Proof.
  intros Hu. unfold admin_update. rewrite Hu.
  destruct (AdminUser.eqb r (admin_assign set r)) eqn:E.
  - apply AdminUser_eqb_eq in E.
    repeat split; try (rewrite E at 1; reflexivity). left; reflexivity.
  - repeat split. right; reflexivity.
Qed.

(** The row [authenticateAdmin] leaves in place of a row whose id is that of
    the admin who signed in. *)
Definition signed_in (id : Z) (now : Date) (r : AdminUser.t) : AdminUser.t :=
  if eq_int (AdminUser.id r) id
  then admin_update (AdminUserSet.mk None None None None None None None (Some (Some now)))
                    now r
  else r.

(** C4.  With a datastore at hand, [authenticateAdmin] looks at the first
    row with the given email.  It returns null, writing nothing, when there
    is no such row, when the row is inactive, or when the password does not
    verify against the stored hash.  Otherwise it returns exactly the
    record (id, email, name) of that row, and every row with that id has its
    last-signed-in set to now while its other columns, updatedAt apart, and
    all other rows stay as they were. *)
Theorem authenticateAdmin_spec
    (bcrypt_compare : string -> string -> bool)
    (email password : string) (w w1 : World) (h : Handle) :
  getDb w = (Returns (Some h), w1) ->
  let lookup := find (fun r => eq_text (AdminUser.email r) email) (adminUsers (store w)) in
  (lookup = None ->
   authenticateAdmin bcrypt_compare email password w = (Returns None, w1)) /\
  (forall admin, lookup = Some admin -> AdminUser.isActive admin = false ->
   authenticateAdmin bcrypt_compare email password w = (Returns None, w1)) /\
  (forall admin, lookup = Some admin ->
   bcrypt_compare password (AdminUser.passwordHash admin) = false ->
   authenticateAdmin bcrypt_compare email password w = (Returns None, w1)) /\
  (forall admin, lookup = Some admin -> AdminUser.isActive admin = true ->
   bcrypt_compare password (AdminUser.passwordHash admin) = true ->
   exists (w2 : World) (f : AdminUser.t -> AdminUser.t),
     authenticateAdmin bcrypt_compare email password w
       = (Returns (Some (AdminSession.mk (AdminUser.id admin) (AdminUser.email admin)
                                         (AdminUser.name admin))), w2) /\
     AdminUser.email admin = email /\
     adminUsers (store w2) = map f (adminUsers (store w)) /\
     In (f admin) (adminUsers (store w2)) /\
     (forall r, AdminUser.id r <> AdminUser.id admin -> f r = r) /\
     (forall r, AdminUser.id r = AdminUser.id admin ->
        AdminUser.lastSignedIn (f r) = Some (clock w) /\
        AdminUser.id (f r) = AdminUser.id r /\
        AdminUser.email (f r) = AdminUser.email r /\
        AdminUser.passwordHash (f r) = AdminUser.passwordHash r /\
        AdminUser.name (f r) = AdminUser.name r /\
        AdminUser.isActive (f r) = AdminUser.isActive r /\
        AdminUser.createdAt (f r) = AdminUser.createdAt r)).
Proof.
  intros E lookup.
  destruct (getDb_split w _ w1 E) as [Hs Hc].
  assert (Hrun : authenticateAdmin bcrypt_compare email password w =
    match lookup with
    | None => (Returns None, w1)
    | Some admin =>
        if negb (AdminUser.isActive admin) then (Returns None, w1)
        else if negb (bcrypt_compare password (AdminUser.passwordHash admin))
             then (Returns None, w1)
             else (Returns (Some (AdminSession.mk (AdminUser.id admin)
                                    (AdminUser.email admin) (AdminUser.name admin))),
                   set_store (with_adminUsers (store w)
                                (map (signed_in (AdminUser.id admin) (clock w))
                                     (adminUsers (store w)))
                                (seq_adminUsers (store w))) w1)
    end).
  { unfold authenticateAdmin.
    cbv beta iota delta [bind]. rewrite E.
    cbv beta iota delta [bind read_store]. rewrite Hs.
    rewrite first_match. fold lookup.
    destruct lookup as [admin|]; [|reflexivity].
    destruct (AdminUser.isActive admin); [|reflexivity].
    cbv beta iota delta [negb bind comparePassword ret].
    destruct (bcrypt_compare password (AdminUser.passwordHash admin)); [|reflexivity].
    cbv beta iota delta [negb bind new_Date read_store write_store ret].
    rewrite Hs, Hc. reflexivity. }
  split; [|split; [|split]].
  - intros Hl. rewrite Hrun, Hl. reflexivity.
  - intros admin Hl Hi. rewrite Hrun, Hl, Hi. reflexivity.
  - intros admin Hl Hp. rewrite Hrun, Hl, Hp.
    destruct (negb (AdminUser.isActive admin)); reflexivity.
  - intros admin Hl Hi Hp.
    exists (set_store (with_adminUsers (store w)
                         (map (signed_in (AdminUser.id admin) (clock w))
                              (adminUsers (store w)))
                         (seq_adminUsers (store w))) w1).
    exists (signed_in (AdminUser.id admin) (clock w)).
    split; [rewrite Hrun, Hl, Hi, Hp; reflexivity|].
    pose proof (find_some _ _ Hl) as [Hin Hmail].
    split; [apply String.eqb_eq; exact Hmail|].
    split; [reflexivity|].
    split; [simpl; apply in_map; exact Hin|].
    split.
    + intros r Hne. unfold signed_in, eq_int.
      apply Z.eqb_neq in Hne. rewrite Hne. reflexivity.
    + intros r Heq. unfold signed_in, eq_int.
      apply Z.eqb_eq in Heq. rewrite Heq.
      destruct (admin_update_columns
                  (AdminUserSet.mk None None None None None None None (Some (Some (clock w))))
                  (clock w) r eq_refl)
        as [U1 [U2 [U3 [U4 [U5 [U6 [U7 _]]]]]]].
      simpl in U1, U2, U3, U4, U5, U6, U7.
      repeat split; assumption.
Qed.

(** A stand-in for bcrypt in the examples: the salt, a separator, the
    password. *)
Definition sample_hash (password : string) (rounds : Z) (salt : string) : string :=
  salt ++ "$" ++ password.

Definition sample_compare (plain hashed : string) : bool :=
  match split "$"%char hashed with
  | [_; password] => String.eqb password plain
  | _ => false
  end.

Definition admin_ann : AdminUser.t :=
  AdminUser.mk 1 "a@x.com" "k3x9$pw1" (Some "Ann") true 10 10 None.

Definition admin_bob : AdminUser.t :=
  AdminUser.mk 2 "b@x.com" "zz$pw2" (Some "Bob") false 20 20 None.

Definition admins_database : Database :=
  mkDatabase [] [admin_ann; admin_bob] [] [] [] 1 3 1 1 1.

(** Ann signs in with her password: the reduced record comes back and her
    row carries the time of the call. *)
Lemma authenticateAdmin_spec_witness :
  exists w2 r,
    authenticateAdmin sample_compare "a@x.com" "pw1" (world_up admins_database)
      = (Returns (Some (AdminSession.mk 1 "a@x.com" (Some "Ann"))), w2) /\
    adminUsers (store w2) = [r; admin_bob] /\
    AdminUser.lastSignedIn r = Some 1000 /\
    AdminUser.passwordHash r = "k3x9$pw1".
Proof.
  destruct (authenticateAdmin_spec sample_compare "a@x.com" "pw1"
              (world_up admins_database) (world_up admins_database)
              (Drizzle "mysql://db") eq_refl)
    as [_ [_ [_ Hok]]].
  destruct (Hok admin_ann eq_refl eq_refl eq_refl)
    as [w2 [f [Hrun [_ [Hmap [_ [Hother Hsame]]]]]]].
  exists w2, (f admin_ann).
  split; [exact Hrun|].
  split.
  - rewrite Hmap. simpl. rewrite (Hother admin_bob) by discriminate. reflexivity.
  - destruct (Hsame admin_ann eq_refl) as [Hl [_ [_ [Hp _]]]].
    split; assumption.
Defined.

(* ------------------------------------------------------------------ *)
(** ** createAdminUser (auth.ts) *)








(** The row the upsert of [createAdminUser] leaves in place of a stored
    row. *)
Definition recreated (email hashed : string) (name : option string) (now : Date)
    (r : AdminUser.t) : AdminUser.t :=
  if eq_text (AdminUser.email r) email
  then admin_update (createAdminUser_set email hashed name) now r
  else r.

Lemma recreated_email (email hashed : string) (name : option string) (now : Date)
    (r : AdminUser.t) :
  AdminUser.email (recreated email hashed name now r) = AdminUser.email r.
Proof.
  unfold recreated. destruct (eq_text (AdminUser.email r) email); [|reflexivity].
  destruct (admin_update_columns (createAdminUser_set email hashed name) now r eq_refl)
    as [_ [H _]].
  exact H.
Qed.

(** One run of [createAdminUser] over a datastore at hand: the salt is
    drawn, then the row is inserted or, when the email is taken, the rows
    with that email are rewritten. *)
Lemma createAdminUser_runs
    (bcrypt_hash : string -> Z -> string -> string)
    (email password : string) (name : option string) (w w1 : World) (h : Handle) :
  getDb w = (Returns (Some h), w1) ->
  let hashed := bcrypt_hash password SALT_ROUNDS (hd EmptyString (entropy w1)) in
  let rows := adminUsers (store w) in
  createAdminUser bcrypt_hash email password name w =
  (Returns tt,
   set_store
     (if existsb (fun r => eq_text (AdminUser.email r) email) rows
      then with_adminUsers (store w)
             (map (recreated email hashed name (clock w)) rows)
             (seq_adminUsers (store w))
      else with_adminUsers (store w)
             (rows ++ [admin_row_of (createAdminUser_values email hashed name)
                         (seq_adminUsers (store w)) (clock w)])
             (seq_adminUsers (store w) + 1))
     (set_entropy (tl (entropy w1)) w1)).
Proof.
  intros E hashed rows.
  destruct (getDb_split w _ w1 E) as [Hs Hc].
  unfold createAdminUser.
  cbv beta iota delta [bind]. rewrite E.
  cbv beta iota delta [bind hashPassword random_draw ret].
  unfold insert_adminUsers_onDuplicateKeyUpdate.
  cbv beta iota delta [bind read_store new_Date write_store].
  change (store (set_entropy (tl (entropy w1)) w1)) with (store w1).
  change (clock (set_entropy (tl (entropy w1)) w1)) with (clock w1).
  rewrite Hs, Hc.
  fold hashed. fold rows.
  assert (Hc' : forall r, admin_conflicts (createAdminUser_values email hashed name) r
                          = eq_text (AdminUser.email r) email).
  { intros r. unfold admin_conflicts. simpl. apply orb_false_r. }
  rewrite (existsb_pointwise _ _ rows Hc').
  destruct (existsb (fun r => eq_text (AdminUser.email r) email) rows) eqn:Hex.
  - unfold set_store. simpl. f_equal. f_equal. f_equal.
    apply map_ext. intros r. unfold recreated. rewrite Hc'. reflexivity.
  - reflexivity.
Qed.







(* ------------------------------------------------------------------ *)
(** ** Pagination of GET /v1/data (api.ts) *)

(** The records stored for a project. *)
Definition stored_for (projectId : Z) (d : Database) : list DynamicData.t :=
  filter (fun r => eq_int (DynamicData.projectId r) projectId) (dynamicData d).

(** The page the list handler asks the datastore for. *)
Definition page_of (b : Bound.t) (d : Database) : list DynamicData.t :=
  firstn (Z.to_nat (effective_limit (Request.query (Bound.req b))))
         (skipn (Z.to_nat (effective_offset (Request.query (Bound.req b))))
                (stored_for (Bound.projectId b) d)).

Definition cannot_serialize : Exn :=
  TypeError "Do not know how to serialize a BigInt".

(** The list handler always answers: with 500 and an error, or with 200 and
    the page together with the limit and offset it used and the length of
    the page as total; the page it sends holds no record, since a record
    cannot be serialized. *)
Lemma get_data_handler_cases (b : Bound.t) (w : World) :
  let limit := effective_limit (Request.query (Bound.req b)) in
  let offset := effective_offset (Request.query (Bound.req b)) in
  exists w1,
    (exists m, get_data_handler b w = (Returns (Response.mk 500 (error_payload m)), w1)) \/
    (0 <= limit /\ 0 <= offset /\ page_of b (store w) = [] /\
     get_data_handler b w =
     (Returns (Response.mk 200
                 (list_payload (page_of b (store w)) limit offset
                               (Z.of_nat (List.length (page_of b (store w)))))), w1)).
Proof.
  intros limit offset.
  unfold get_data_handler, getDynamicDataByProjectId.
  cbv beta iota zeta delta [try_catch bind or_else].
  destruct (getDb w) as [r w1] eqn:E.
  destruct (getDb_split w r w1 E) as [Hs _].
  exists w1.
  destruct r as [[h|]|e]; try (left; eexists; reflexivity).
  cbv beta iota delta [read_store]. rewrite Hs.
  unfold limit_offset. fold limit. fold offset.
  destruct ((limit <? 0) || (offset <? 0)) eqn:Hneg.
  - left; eexists; reflexivity.
  - apply orb_false_elim in Hneg. destruct Hneg as [Hl Ho].
    apply Z.ltb_ge in Hl. apply Z.ltb_ge in Ho.
    cbv beta iota delta [ret].
    change (firstn (Z.to_nat limit)
              (skipn (Z.to_nat offset)
                 (filter (fun r => eq_int (DynamicData.projectId r) (Bound.projectId b))
                    (dynamicData (store w)))))
      with (page_of b (store w)).
    destruct (page_of b (store w)) as [|r0 rest] eqn:Hp.
    + right. split; [exact Hl|]. split; [exact Ho|]. split; reflexivity.
    + left; eexists; reflexivity.
Qed.

(** With a datastore at hand and non-negative limit and offset, the answer
    is the page when it is empty, and the failure to serialize when it
    holds a record. *)
Lemma get_data_handler_page (b : Bound.t) (w w1 : World) (h : Handle) :
  getDb w = (Returns (Some h), w1) ->
  0 <= effective_limit (Request.query (Bound.req b)) ->
  0 <= effective_offset (Request.query (Bound.req b)) ->
  get_data_handler b w =
  (Returns
     match page_of b (store w) with
     | [] =>
         Response.mk 200
           (list_payload [] (effective_limit (Request.query (Bound.req b)))
              (effective_offset (Request.query (Bound.req b))) 0)
     | _ :: _ => Response.mk 500 (error_payload (message_of cannot_serialize))
     end, w1).
Proof.
  intros E Hl Ho.
  destruct (getDb_split w _ w1 E) as [Hs _].
  unfold get_data_handler, getDynamicDataByProjectId.
  cbv beta iota zeta delta [try_catch bind or_else]. rewrite E.
  cbv beta iota delta [read_store]. rewrite Hs.
  unfold limit_offset.
  apply Z.ltb_ge in Hl. apply Z.ltb_ge in Ho. rewrite Hl, Ho.
  cbv beta iota delta [ret orb].
  change (firstn (Z.to_nat (effective_limit (Request.query (Bound.req b))))
            (skipn (Z.to_nat (effective_offset (Request.query (Bound.req b))))
               (filter (fun r => eq_int (DynamicData.projectId r) (Bound.projectId b))
                  (dynamicData (store w)))))
    with (page_of b (store w)).
  destruct (page_of b (store w)); reflexivity.
Qed.

Lemma page_length (b : Bound.t) (d : Database) :
  0 <= effective_limit (Request.query (Bound.req b)) ->
  Z.of_nat (List.length (page_of b d)) <= effective_limit (Request.query (Bound.req b)) /\
  (List.length (page_of b d) <= List.length (stored_for (Bound.projectId b) d))%nat.
Proof.
  intros Hl. unfold page_of.
  rewrite length_firstn, length_skipn. split; lia.
Qed.

Lemma effective_limit_le_1000 (q : Query.t) : effective_limit q <= 1000.
Proof. unfold effective_limit. lia. Qed.

(** C6 as stated fails: the limit 0 is a parsable limit, yet the effective
    limit is 100 and not 0. *)
Lemma effective_limit_of_zero :
  parseInt (Some "0") = Some 0 /\
  effective_limit (Query.mk (Some "0") None None None) = 100 /\
  effective_limit (Query.mk (Some "0") None None None) <> Z.min 0 1000.
Proof.
  split; [reflexivity|]. split; [reflexivity|]. discriminate.
Qed.

(** C6, as the code has it.  The effective limit is 100 when the limit
    parameter is absent, does not parse, or parses to 0, and otherwise the
    parsed limit capped at 1000; so it never exceeds 1000 and is exactly
    1000 for a limit above 1000.  The effective offset is 0 when the offset
    parameter is absent or does not parse, and the parsed offset otherwise.
    The list handler answers with these two numbers and with at most as
    many records as the effective limit. *)
Theorem effective_limit_and_offset (b : Bound.t) (w : World) :
  let q := Request.query (Bound.req b) in
  effective_limit q =
    match parseInt (Query.limit q) with
    | None => 100
    | Some n => if n =? 0 then 100 else Z.min n 1000
    end /\
  effective_limit q <= 1000 /\
  (Query.limit q = None -> effective_limit q = 100) /\
  (parseInt (Query.limit q) = None -> effective_limit q = 100) /\
  (forall n, parseInt (Query.limit q) = Some n -> 1000 < n -> effective_limit q = 1000) /\
  (forall n, parseInt (Query.limit q) = Some n -> n <> 0 -> n <= 1000 ->
             effective_limit q = n) /\
  (Query.offset q = None -> effective_offset q = 0) /\
  (parseInt (Query.offset q) = None -> effective_offset q = 0) /\
  (forall n, parseInt (Query.offset q) = Some n -> effective_offset q = n) /\
  (forall resp w' data limit offset total,
     get_data_handler b w = (Returns resp, w') ->
     Response.json resp = list_payload data limit offset total ->
     limit = effective_limit q /\ offset = effective_offset q /\
     Z.of_nat (List.length data) <= limit /\ Z.of_nat (List.length data) <= 1000).
Proof.
  intros q.
  assert (Hdef : effective_limit q =
    match parseInt (Query.limit q) with
    | None => 100
    | Some n => if n =? 0 then 100 else Z.min n 1000
    end).
  { unfold effective_limit, number_or.
    destruct (parseInt (Query.limit q)) as [n|]; [|reflexivity].
    destruct (n =? 0); reflexivity. }
  split; [exact Hdef|].
  split; [apply effective_limit_le_1000|].
  split; [intros H; rewrite Hdef, H; reflexivity|].
  split; [intros H; rewrite Hdef, H; reflexivity|].
  split.
  { intros n H Hn. rewrite Hdef, H.
    destruct (n =? 0) eqn:E0; [apply Z.eqb_eq in E0; lia|lia]. }
  split.
  { intros n H Hn Hle. rewrite Hdef, H.
    destruct (n =? 0) eqn:E0; [apply Z.eqb_eq in E0; lia|lia]. }
  split; [intros H; unfold effective_offset; rewrite H; reflexivity|].
  split; [intros H; unfold effective_offset; rewrite H; reflexivity|].
  split.
  { intros n H. unfold effective_offset, number_or. rewrite H.
    destruct (n =? 0) eqn:E0; [apply Z.eqb_eq in E0; lia|reflexivity]. }
  intros resp w' data limit offset total Hrun Hjson.
  destruct (get_data_handler_cases b w) as [w1 [[m Hcase]|[Hl [Ho [_ Hcase]]]]];
    rewrite Hcase in Hrun; inversion Hrun; subst resp; simpl in Hjson.
  - discriminate.
  - inversion Hjson. subst.
    pose proof (page_length b (store w) Hl) as [Hlen _].
    pose proof (effective_limit_le_1000 q).
    fold q. repeat split; try reflexivity; fold q in Hlen; lia.
Qed.

(** A tenant for the examples: Ann's project 10 with a live key, a revoked
    key and three records. *)
Definition project_ten : Project.t :=
  Project.mk 10 1 "P1" (Some "first project") None true 5 5.

Definition key_live : ApiKey.t :=
  ApiKey.mk 7 10 "sk_live_1" "main" (Some ["read"; "write"]) true None 6 6.

Definition key_revoked : ApiKey.t :=
  ApiKey.mk 8 10 "sk_old_1" "old" (Some ["read"; "write"]) false None 6 9.

Definition record_5 : DynamicData.t :=
  DynamicData.mk 5 10 (Some "u1") (Some "post") (JObject [("likes", JNumber 42)]) false 7 7.

Definition record_6 : DynamicData.t :=
  DynamicData.mk 6 10 (Some "u2") (Some "post") (JString "hello") false 8 8.

Definition record_7 : DynamicData.t :=
  DynamicData.mk 7 10 (Some "u1") (Some "video") (JArray [JNumber 1; JNumber 2]) true 9 9.

Definition tenant_database : Database :=
  mkDatabase [] [admin_ann; admin_bob] [project_ten] [key_live; key_revoked]
             [record_5; record_6; record_7] 1 3 11 9 8.

Definition empty_body : Body.t := Body.mk None None None None.

(** A request that carries the live key. *)
Definition request_with (q : Query.t) (id : string) (body : Body.t) : Request.t :=
  Request.mk (Some "sk_live_1") q id body.

Definition bound_with (q : Query.t) (id : string) (body : Body.t) : Bound.t :=
  Bound.mk (request_with q id body) key_live 10.

(** A limit of 5000 is reduced to 1000 and the absent offset reads 0. *)
Lemma effective_limit_and_offset_witness :
  effective_limit (Query.mk (Some "5000") None None None) = 1000 /\
  effective_offset (Query.mk (Some "5000") None None None) = 0.
Proof.
  destruct (effective_limit_and_offset
              (bound_with (Query.mk (Some "5000") None None None) "" empty_body)
              (world_up tenant_database))
    as [_ [_ [_ [_ [Hcap [_ [Hoff _]]]]]]].
  split.
  - exact (Hcap 5000 eq_refl eq_refl).
  - exact (Hoff eq_refl).
Defined.



(* ------------------------------------------------------------------ *)
(** ** The API key middleware (api.ts) *)

Definition missing_api_key : Response.t :=
  Response.mk 401 (error_payload (Text "Missing API key")).

Definition invalid_api_key : Response.t :=
  Response.mk 401 (error_payload (Text "Invalid or revoked API key")).

(** C7 as stated fails: a header that is present with an empty value
    resolves to no key record, yet the answer is "Missing API key". *)
Lemma empty_api_key_header_is_missing :
  let req := Request.mk (Some "") (Query.mk None None None None) "" empty_body in
  Request.x_api_key req <> None /\
  getApiKeyByKey "" (world_up tenant_database) = (Returns None, world_up tenant_database) /\
  GET_api_v1_project req (world_up tenant_database)
    = (Returns missing_api_key, world_up tenant_database) /\
  missing_api_key <> invalid_api_key.
Proof.
  cbv zeta. split; [discriminate|]. split; [reflexivity|].
  split; [reflexivity|]. discriminate.
Qed.

(** C7, as the code has it.  A header that is absent or empty is answered
    with 401 "Missing API key" without touching the datastore.  For a
    non-empty header and a datastore at hand: when no key record carries the
    header's value, or the first such record is inactive, the answer is 401
    "Invalid or revoked API key"; otherwise the handler runs on the request
    with that record and its project id attached. *)
Theorem authenticateApiKey_spec
    (req : Request.t) (next : Bound.t -> Async Response.t) (w : World) :
  (Request.x_api_key req = None ->
   authenticateApiKey req next w = (Returns missing_api_key, w)) /\
  (Request.x_api_key req = Some "" ->
   authenticateApiKey req next w = (Returns missing_api_key, w)) /\
  (forall key h w1,
     Request.x_api_key req = Some key -> key <> "" ->
     getDb w = (Returns (Some h), w1) ->
     let lookup := find (fun r => eq_text (ApiKey.key r) key) (apiKeys (store w)) in
     (lookup = None ->
      authenticateApiKey req next w = (Returns invalid_api_key, w1)) /\
     (forall k, lookup = Some k -> ApiKey.isActive k = false ->
      authenticateApiKey req next w = (Returns invalid_api_key, w1)) /\
     (forall k, lookup = Some k -> ApiKey.isActive k = true ->
      ApiKey.key k = key /\
      authenticateApiKey req next w = next (Bound.mk req k (ApiKey.projectId k)) w1)).
Proof.
  split; [|split].
  - intros H. unfold authenticateApiKey. rewrite H. reflexivity.
  - intros H. unfold authenticateApiKey. rewrite H. reflexivity.
  - intros key h w1 Hkey Hne E lookup.
    destruct (getDb_split w _ w1 E) as [Hs _].
    assert (Htruthy : truthy_string key = true).
    { destruct key; [congruence|reflexivity]. }
    assert (Hrun : authenticateApiKey req next w =
              match lookup with
              | None => (Returns invalid_api_key, w1)
              | Some k => if negb (ApiKey.isActive k)
                          then (Returns invalid_api_key, w1)
                          else next (Bound.mk req k (ApiKey.projectId k)) w1
              end).
    { unfold authenticateApiKey, getApiKeyByKey. rewrite Hkey.
      cbv beta iota delta [truthy_opt or_else]. rewrite Htruthy.
      cbv beta iota delta [negb bind]. rewrite E.
      cbv beta iota delta [bind read_store ret]. rewrite Hs.
      rewrite first_match. fold lookup.
      destruct lookup as [k|]; [|reflexivity].
      cbv beta iota delta [first_or_null].
      destruct (ApiKey.isActive k); reflexivity. }
    split; [|split].
    + intros Hl. rewrite Hrun, Hl. reflexivity.
    + intros k Hl Hi. rewrite Hrun, Hl, Hi. reflexivity.
    + intros k Hl Hi. split.
      * apply find_some in Hl. destruct Hl as [_ Hk]. apply String.eqb_eq. exact Hk.
      * rewrite Hrun, Hl, Hi. reflexivity.
Qed.

(** The live key lets the request through to the project handler; the
    revoked key and an unknown key are turned away. *)
Lemma authenticateApiKey_spec_witness :
  GET_api_v1_project (request_with (Query.mk None None None None) "" empty_body)
                     (world_up tenant_database)
  = project_handler (bound_with (Query.mk None None None None) "" empty_body)
                    (world_up tenant_database) /\
  GET_api_v1_project
    (Request.mk (Some "sk_old_1") (Query.mk None None None None) "" empty_body)
    (world_up tenant_database)
  = (Returns invalid_api_key, world_up tenant_database) /\
  GET_api_v1_project
    (Request.mk None (Query.mk None None None None) "" empty_body)
    (world_up tenant_database)
  = (Returns missing_api_key, world_up tenant_database).
Proof.
  split; [|split].
  - destruct (authenticateApiKey_spec
                (request_with (Query.mk None None None None) "" empty_body)
                project_handler (world_up tenant_database)) as [_ [_ H]].
    assert (Hne : "sk_live_1" <> "") by discriminate.
    destruct (H "sk_live_1" (Drizzle "mysql://db") (world_up tenant_database)
                eq_refl Hne eq_refl) as [_ [_ Hok]].
    exact (proj2 (Hok key_live eq_refl eq_refl)).
  - destruct (authenticateApiKey_spec
                (Request.mk (Some "sk_old_1") (Query.mk None None None None) "" empty_body)
                project_handler (world_up tenant_database)) as [_ [_ H]].
    assert (Hne : "sk_old_1" <> "") by discriminate.
    destruct (H "sk_old_1" (Drizzle "mysql://db") (world_up tenant_database)
                eq_refl Hne eq_refl) as [_ [Hrev _]].
    exact (Hrev key_revoked eq_refl eq_refl).
  - destruct (authenticateApiKey_spec
                (Request.mk None (Query.mk None None None None) "" empty_body)
                project_handler (world_up tenant_database)) as [H _].
    exact (H eq_refl).
Defined.

(* ------------------------------------------------------------------ *)
(** ** The admin procedure (routers.ts) *)

Definition unauthorized : Exn := TRPCError UNAUTHORIZED None.
Definition forbidden : Exn := TRPCError FORBIDDEN None.

(** The middleware alone: without both identities the resolver is not
    entered, whatever it is; with both it is entered on the same context. *)
Lemma adminProcedure_guard {O : Type} (ctx : Context.t) (next : Context.t -> Async O) :
  (Context.user ctx = None \/ Context.adminSession ctx = None ->
   forall w, adminProcedure ctx next w = (Throws unauthorized, w)) /\
  (Context.user ctx <> None -> Context.adminSession ctx <> None ->
   adminProcedure ctx next = next ctx).
Proof.
  unfold adminProcedure. split.
  - intros [H|H] w; rewrite H; [reflexivity|].
    destruct (Context.user ctx); reflexivity.
  - intros Hu Hs.
    destruct (Context.user ctx); [|congruence].
    destruct (Context.adminSession ctx); [reflexivity|congruence].
Qed.

(** C8.  When the context lacks the end-user identity or the admin session,
    every procedure built on the admin procedure throws UNAUTHORIZED and
    leaves the world as it found it: nothing of its resolver ran.  This holds
    for any resolver, and so for each of the fourteen admin procedures
    of the router.  With both identities present the resolver runs. *)
Theorem admin_procedures_unauthorized (ctx : Context.t) (w : World) :
  (Context.user ctx <> None -> Context.adminSession ctx <> None ->
   forall (O : Type) (next : Context.t -> Async O),
     adminProcedure ctx next w = next ctx w) /\
  (Context.user ctx = None \/ Context.adminSession ctx = None ->
  (forall (O : Type) (next : Context.t -> Async O),
     adminProcedure ctx next w = (Throws unauthorized, w)) /\
  admin.getAdminInfo ctx w = (Throws unauthorized, w) /\
  projects.list ctx w = (Throws unauthorized, w) /\
  (forall p, projects.get ctx p w = (Throws unauthorized, w)) /\
  (forall n d s, projects.create ctx n d s w = (Throws unauthorized, w)) /\
  (forall p n d s, projects.update ctx p n d s w = (Throws unauthorized, w)) /\
  (forall p, projects.delete ctx p w = (Throws unauthorized, w)) /\
  (forall p, apiKeys.list ctx p w = (Throws unauthorized, w)) /\
  (forall p n ps, apiKeys.create ctx p n ps w = (Throws unauthorized, w)) /\
  (forall k, apiKeys.revoke ctx k w = (Throws unauthorized, w)) /\
  (forall p l o, data.list ctx p l o w = (Throws unauthorized, w)) /\
  (forall p d u t b, data.create ctx p d u t b w = (Throws unauthorized, w)) /\
  (forall i d, data.update ctx i d w = (Throws unauthorized, w)) /\
  (forall i, data.delete ctx i w = (Throws unauthorized, w)) /\
  (forall p u t, data.search ctx p u t w = (Throws unauthorized, w))).
Proof.
  split.
  { intros Hu Hs O next.
    rewrite (proj2 (adminProcedure_guard ctx next) Hu Hs). reflexivity. }
  intros H.
  assert (G : forall (O : Type) (next : Context.t -> Async O),
             adminProcedure ctx next w = (Throws unauthorized, w)).
  { intros O next. exact (proj1 (adminProcedure_guard ctx next) H w). }
  split; [exact G|].
  unfold admin.getAdminInfo, projects.list, projects.get, projects.create,
    projects.update, projects.delete, apiKeys.list, apiKeys.create, apiKeys.revoke,
    data.list, data.create, data.update, data.delete, data.search.
  repeat split; intros; apply G.
Qed.

Definition someone : User.t :=
  User.mk 1 "open-1" (Some "Ann") None None role_user 10 10 100.

(** A signed-in end user without admin session cannot revoke a key: the
    key stays active. *)
Lemma admin_procedures_unauthorized_witness :
  apiKeys.revoke (Context.mk (Some someone) None) 7 (world_up tenant_database)
  = (Throws unauthorized, world_up tenant_database).
Proof.
  destruct (admin_procedures_unauthorized (Context.mk (Some someone) None)
              (world_up tenant_database)) as [_ Hguard].
  destruct (Hguard (or_intror eq_refl))
    as [_ [_ [_ [_ [_ [_ [_ [_ [_ [H _]]]]]]]]]].
  exact (H 7).
Defined.

(* ------------------------------------------------------------------ *)
(** ** Falsy payloads at the REST facade (api.ts) *)

Definition data_required : Response.t :=
  Response.mk 400 (error_payload (Text "Data field is required")).

(** The falsy values of [data]: undefined, null, false, 0 and the empty
    string. *)
Lemma falsy_data (data : option JSON) :
  truthy_opt truthy_JSON data = false <->
  (data = None \/ data = Some JNull \/ data = Some (JBool false) \/
   data = Some (JNumber 0) \/ data = Some (JString "")).
Proof.
  split.
  - destruct data as [[|[|]|n|[|c s]|l|l]|]; simpl; try discriminate; auto 6.
    intros H. apply negb_false_iff in H. apply Z.eqb_eq in H. subst. auto 6.
  - intros [H|[H|[H|[H|H]]]]; subst; reflexivity.
Qed.

(** C9 as stated fails for the update endpoint: with an id that is not an
    integer the answer to a falsy payload is 500, not 400. *)
Lemma put_falsy_data_with_bad_id :
  let req := request_with (Query.mk None None None None) "abc"
                          (Body.mk (Some (JNumber 0)) None None None) in
  truthy_opt truthy_JSON (Body.data (Request.body req)) = false /\
  PUT_api_v1_data_id req (world_up tenant_database)
  = (Returns (Response.mk 500 (error_payload (Text "Cannot convert abc to a BigInt"))),
     world_up tenant_database) /\
  Response.mk 500 (error_payload (Text "Cannot convert abc to a BigInt")) <> data_required.
Proof.
  cbv zeta. split; [reflexivity|]. split; [reflexivity|]. discriminate.
Qed.

(** C9, as the code has it.  For a request that passed the middleware and
    whose [data] is falsy (undefined, null, false, 0 or the empty string):
    the create handler answers 400 "Data field is required"; the update
    handler answers the same when the id in the path converts to a BigInt,
    and 500 with the conversion error when it does not; in each case the
    world is left as it was.  Whatever a create or update request with a
    falsy [data] is answered, the tables hold afterwards what they held
    before. *)
Theorem falsy_data_is_refused (b : Bound.t) (w : World) :
  let data := Body.data (Request.body (Bound.req b)) in
  (data = None \/ data = Some JNull \/ data = Some (JBool false) \/
   data = Some (JNumber 0) \/ data = Some (JString "")) ->
  post_data_handler b w = (Returns data_required, w) /\
  (forall dataId, BigInt (Request.params_id (Bound.req b)) = Returns dataId ->
     put_data_handler b w = (Returns data_required, w)) /\
  (forall e, BigInt (Request.params_id (Bound.req b)) = Throws e ->
     put_data_handler b w = (Returns (Response.mk 500 (error_payload (message_of e))), w)) /\
  store (snd (POST_api_v1_data (Bound.req b) w)) = store w /\
  store (snd (PUT_api_v1_data_id (Bound.req b) w)) = store w.
Proof.
  intros data Hvalue.
  assert (Hfalsy : truthy_opt truthy_JSON (Body.data (Request.body (Bound.req b))) = false).
  { apply falsy_data. exact Hvalue. }
  assert (Hpost : forall b0 w0,
            truthy_opt truthy_JSON (Body.data (Request.body (Bound.req b0))) = false ->
            post_data_handler b0 w0 = (Returns data_required, w0)).
  { intros b0 w0 H. unfold post_data_handler. cbv beta iota zeta delta [try_catch].
    rewrite H. reflexivity. }
  assert (Hput : forall b0 w0,
            truthy_opt truthy_JSON (Body.data (Request.body (Bound.req b0))) = false ->
            put_data_handler b0 w0 =
            match BigInt (Request.params_id (Bound.req b0)) with
            | Returns _ => (Returns data_required, w0)
            | Throws e => (Returns (Response.mk 500 (error_payload (message_of e))), w0)
            end).
  { intros b0 w0 H. unfold put_data_handler. cbv beta iota zeta delta [try_catch].
    destruct (BigInt (Request.params_id (Bound.req b0))); [|reflexivity].
    rewrite H. reflexivity. }
  split; [exact (Hpost b w Hfalsy)|].
  split; [intros dataId Hid; rewrite (Hput b w Hfalsy), Hid; reflexivity|].
  split; [intros e Hid; rewrite (Hput b w Hfalsy), Hid; reflexivity|].
  split.
  - unfold POST_api_v1_data, authenticateApiKey.
    destruct (negb (truthy_opt truthy_string (Request.x_api_key (Bound.req b))));
      [reflexivity|].
    unfold getApiKeyByKey. cbv beta iota delta [bind].
    destruct (getDb w) as [r w1] eqn:E.
    destruct (getDb_split w r w1 E) as [Hs _].
    destruct r as [[h|]|e]; simpl; try exact Hs.
    destruct (first_or_null _) as [k|]; simpl; try exact Hs.
    destruct (negb (ApiKey.isActive k)); simpl; try exact Hs.
    rewrite Hpost by exact Hfalsy. exact Hs.
  - unfold PUT_api_v1_data_id, authenticateApiKey.
    destruct (negb (truthy_opt truthy_string (Request.x_api_key (Bound.req b))));
      [reflexivity|].
    unfold getApiKeyByKey. cbv beta iota delta [bind].
    destruct (getDb w) as [r w1] eqn:E.
    destruct (getDb_split w r w1 E) as [Hs _].
    destruct r as [[h|]|e]; simpl; try exact Hs.
    destruct (first_or_null _) as [k|]; simpl; try exact Hs.
    destruct (negb (ApiKey.isActive k)); simpl; try exact Hs.
    rewrite Hput by exact Hfalsy. cbn [Bound.req].
    destruct (BigInt (Request.params_id (Bound.req b))); exact Hs.
Qed.

(** A create request whose [data] is 0 is answered 400 and stores
    nothing. *)
Lemma falsy_data_is_refused_witness :
  let body := Body.mk (Some (JNumber 0)) (Some "u1") None None in
  post_data_handler (bound_with (Query.mk None None None None) "5" body)
                    (world_up tenant_database)
  = (Returns data_required, world_up tenant_database) /\
  put_data_handler (bound_with (Query.mk None None None None) "5" body)
                   (world_up tenant_database)
  = (Returns data_required, world_up tenant_database).
Proof.
  cbv zeta.
  destruct (falsy_data_is_refused
              (bound_with (Query.mk None None None None) "5"
                          (Body.mk (Some (JNumber 0)) (Some "u1") None None))
              (world_up tenant_database)
              (or_intror (or_intror (or_intror (or_introl eq_refl)))))
    as [Hpost [Hput _]].
  split; [exact Hpost|exact (Hput 5 eq_refl)].
Defined.

(* ------------------------------------------------------------------ *)
(** ** Ownership checks of the router (routers.ts) *)

(** The project the router fetches again for a project id. *)
Definition fetched (projectId : Z) (w : World) : option Project.t :=
  find (fun r => eq_int (Project.id r) projectId) (projects (store w)).

Lemma getProjectById_runs (projectId : Z) (w w1 : World) (h : Handle) :
  getDb w = (Returns (Some h), w1) ->
  getProjectById projectId w = (Returns (fetched projectId w), w1).
Proof.
  intros E. destruct (getDb_split w _ w1 E) as [Hs _].
  unfold getProjectById. cbv beta iota delta [bind]. rewrite E.
  cbv beta iota delta [bind read_store ret]. rewrite Hs, first_match.
  unfold fetched. destruct (find _ _); reflexivity.
Qed.

(** The input parser [z.string().min(1)] accepts the texts that are not
    empty. *)
Lemma z_string_min_1_given (name : string) :
  name <> "" -> z_string_min_1 name = true.
Proof.
  destruct name as [|c rest]; [contradiction|].
  intros _. unfold z_string_min_1. apply Z.leb_le.
  cbn [String.length]. lia.
Qed.

Lemma z_string_min_1_empty : z_string_min_1 "" = false.
Proof. reflexivity. Qed.

(** Eight procedures take a project id, fetch the project again and compare
    its owner with the session: when the project is absent or owned by
    another admin they throw FORBIDDEN right after the fetch, before the
    persistence operation they guard.  ([apiKeys.create] does so for a name
    its input parser accepts.) *)
Lemma checked_procedures_forbidden (ctx : Context.t) (projectId : Z)
    (w w1 : World) (h : Handle) :
  Context.user ctx <> None -> Context.adminSession ctx <> None ->
  getDb w = (Returns (Some h), w1) ->
  not_owner (fetched projectId w) ctx = true ->
  projects.get ctx projectId w = (Throws forbidden, w1) /\
  (forall n d s, projects.update ctx projectId n d s w = (Throws forbidden, w1)) /\
  projects.delete ctx projectId w = (Throws forbidden, w1) /\
  apiKeys.list ctx projectId w = (Throws forbidden, w1) /\
  (forall n ps, n <> "" ->
     apiKeys.create ctx projectId n ps w = (Throws forbidden, w1)) /\
  (forall l o, data.list ctx projectId l o w = (Throws forbidden, w1)) /\
  (forall d u t b, data.create ctx projectId d u t b w = (Throws forbidden, w1)) /\
  (forall u t, data.search ctx projectId u t w = (Throws forbidden, w1)).
Proof.
  intros Hu Hs E Hno.
  pose proof (getProjectById_runs projectId w w1 h E) as Hget.
  unfold projects.get, projects.update, projects.delete, apiKeys.list, apiKeys.create,
    data.list, data.create, data.search.
  repeat split; intros;
    rewrite (proj2 (adminProcedure_guard ctx _) Hu Hs);
    try match goal with
        | Hn : _ <> EmptyString |- _ => rewrite (z_string_min_1_given _ Hn)
        end;
    cbv beta iota delta [bind negb]; rewrite Hget, Hno; reflexivity.
Qed.

(** Bob (admin 2) in a session of his own; project 10, its keys and its
    records belong to Ann (admin 1). *)
Definition bob_context : Context.t :=
  Context.mk (Some someone) (Some (AdminSession.mk 2 "b@x.com" (Some "Bob"))).

Definition key_live_revoked : ApiKey.t :=
  ApiKey.mk 7 10 "sk_live_1" "main" (Some ["read"; "write"]) false None 6 1000.

Definition record_5_overwritten : DynamicData.t :=
  DynamicData.mk 5 10 (Some "u1") (Some "post") (JString "overwritten") false 7 1000.

(** C1 does not hold of the code.  Under Bob's session the procedures that
    take Ann's project id are refused with FORBIDDEN, but the three
    procedures that take a key id or a record id never fetch a project:
    Bob revokes Ann's key, overwrites her record and deletes it. *)
Theorem unchecked_procedures_reach_foreign_data :
  let w := world_up tenant_database in
  Project.adminUserId project_ten = 1 /\
  Context.adminSession_id bob_context = Some 2 /\
  projects.get bob_context 10 w = (Throws forbidden, w) /\
  apiKeys.list bob_context 10 w = (Throws forbidden, w) /\
  apiKeys.revoke bob_context 7 w
    = (Returns (mkResult 0),
       set_store (with_apiKeys tenant_database [key_live_revoked; key_revoked] 9) w) /\
  data.update bob_context 5 (Some (JString "overwritten")) w
    = (Returns (mkResult 0),
       set_store (with_dynamicData tenant_database
                    [record_5_overwritten; record_6; record_7] 8) w) /\
  data.delete bob_context 5 w
    = (Returns (mkResult 0),
       set_store (with_dynamicData tenant_database [record_6; record_7] 8) w).
Proof.
  cbv zeta. repeat split.
Qed.

(* ================================================================== *)
(** * Further properties of the persistence layer, the identity service,
      the router and the REST facade *)

(** ** Lists of rows *)

Lemma find_all_false {A : Type} (p : A -> bool) (l : list A) :
  (forall x, In x l -> p x = false) -> find p l = None.
Proof.
  induction l as [|a l IH]; simpl; [reflexivity|].
  intros H. rewrite (H a (or_introl eq_refl)). apply IH.
  intros x Hx. apply H. right. exact Hx.
Qed.

Lemma find_snoc {A : Type} (p : A -> bool) (l : list A) (x : A) :
  find p (l ++ [x]) =
  match find p l with
  | Some y => Some y
  | None => if p x then Some x else None
  end.
Proof.
  induction l as [|a l IH]; simpl; [reflexivity|].
  destruct (p a); [reflexivity|exact IH].
Qed.

Lemma find_map_same_test {A : Type} (p : A -> bool) (f : A -> A) (l : list A) :
  (forall x, p (f x) = p x) -> find p (map f l) = option_map f (find p l).
Proof.
  intros H. induction l as [|a l IH]; simpl; [reflexivity|].
  rewrite H. destruct (p a); [reflexivity|exact IH].
Qed.

Lemma filter_snoc {A : Type} (p : A -> bool) (l : list A) (x : A) :
  filter p (l ++ [x]) = (filter p l ++ (if p x then [x] else []))%list.
Proof. rewrite filter_app. reflexivity. Qed.

(** A world in which a handle was obtained keeps answering with it. *)
Lemma getDb_again (w w1 : World) (h : Handle) :
  getDb w = (Returns (Some h), w1) -> getDb w1 = (Returns (Some h), w1).
Proof.
  intros E. apply getDb_cached. exact (getDb_keeps_handle w w1 h E).
Qed.

Lemma getDb_after_write (w1 : World) (h : Handle) (d : Database) :
  _db w1 = Some h -> getDb (set_store d w1) = (Returns (Some h), set_store d w1).
Proof. intros H. apply getDb_cached. exact H. Qed.

(* ------------------------------------------------------------------ *)
(** ** The life of the connection handle (db.ts, getDb) *)

(** X1.  A handle that exists is returned as it is.  Without a handle and
    with a non-empty connection string, a creation that succeeds stores the
    handle, and every later call returns that same handle without another
    creation; a creation that throws is logged, yields null and leaves the
    handle null, so that the very next call attempts the creation again (and
    logs again).  Without a connection string, or with an empty one, null is
    returned and nothing changes.  No call touches the tables. *)
Theorem getDb_lifecycle (w : World) :
  (forall h, _db w = Some h -> getDb w = (Returns (Some h), w)) /\
  (_db w = None -> DATABASE_URL w = None \/ DATABASE_URL w = Some "" ->
   getDb w = (Returns None, w)) /\
  (forall url, _db w = None -> DATABASE_URL w = Some url -> url <> "" ->
     drizzle_throws w = false ->
     let w1 := set_db (Some (Drizzle url)) w in
     getDb w = (Returns (Some (Drizzle url)), w1) /\
     getDb w1 = (Returns (Some (Drizzle url)), w1)) /\
  (forall url, _db w = None -> DATABASE_URL w = Some url -> url <> "" ->
     drizzle_throws w = true ->
     let w1 := set_db None (log "[Database] Failed to connect:" w) in
     getDb w = (Returns None, w1) /\
     getDb w1 = (Returns None, set_db None (log "[Database] Failed to connect:" w1))) /\
  store (snd (getDb w)) = store w.
Proof.
  split; [|split; [|split; [|split]]].
  - intros h H. exact (getDb_cached w h H).
  - intros Hdb [Hurl|Hurl]; unfold getDb; rewrite Hdb, Hurl; reflexivity.
  - intros url Hdb Hurl Hne Hok w1.
    assert (Ht : truthy_string url = true) by (destruct url; [congruence|reflexivity]).
    split.
    + unfold getDb. rewrite Hdb, Hurl, Ht, Hok. reflexivity.
    + apply getDb_cached. reflexivity.
  - intros url Hdb Hurl Hne Hthrows w1.
    assert (Ht : truthy_string url = true) by (destruct url; [congruence|reflexivity]).
    split.
    + unfold getDb. rewrite Hdb, Hurl, Ht, Hthrows. reflexivity.
    + unfold getDb, w1. simpl. rewrite Hurl, Ht, Hthrows. reflexivity.
  - apply getDb_store.
Qed.

(** A process with a connection string and no handle yet. *)
Definition world_cold (throws : bool) : World :=
  mkWorld (Some "mysql://db") throws None tenant_database 1000 ["k3x9"; "p07q"] [].

(** The first call creates the handle, the second finds it; when the driver
    throws, two calls leave two lines on the console. *)
Lemma getDb_lifecycle_witness :
  getDb (snd (getDb (world_cold false)))
    = (Returns (Some (Drizzle "mysql://db")), world_up tenant_database) /\
  console (snd (getDb (snd (getDb (world_cold true)))))
    = ["[Database] Failed to connect:"; "[Database] Failed to connect:"].
Proof.
  destruct (getDb_lifecycle (world_cold false)) as [_ [_ [Hok _]]].
  destruct (getDb_lifecycle (world_cold true)) as [_ [_ [_ [Hthrows _]]]].
  assert (Hne : "mysql://db" <> "") by discriminate.
  destruct (Hok "mysql://db" eq_refl eq_refl Hne eq_refl) as [H1 H2].
  destruct (Hthrows "mysql://db" eq_refl eq_refl Hne eq_refl) as [H3 H4].
  split.
  - rewrite H1. cbn [snd]. rewrite H2. reflexivity.
  - rewrite H3. cbn [snd]. rewrite H4. reflexivity.
Defined.

(* ------------------------------------------------------------------ *)
(** ** End users: upsert and lookup (db.ts) *)

Lemma existsb_find_some {A : Type} (p : A -> bool) (l : list A) :
  existsb p l = true -> exists x, find p l = Some x.
Proof.
  induction l as [|a l IH]; simpl; [discriminate|].
  destruct (p a); [intros _; eexists; reflexivity|exact IH].
Qed.

Lemma existsb_find_none {A : Type} (p : A -> bool) (l : list A) :
  existsb p l = false -> find p l = None.
Proof.
  induction l as [|a l IH]; simpl; [reflexivity|].
  destruct (p a); [discriminate|exact IH].
Qed.

(** The row [upsertUser] hands to the INSERT, column by column. *)
Lemma upsert_values_columns (owner : string) (user : InsertUser.t) (now1 now2 : Date) :
  let values := fst (upsert_statement owner user now1 now2) in
  InsertUser.id values = None /\
  InsertUser.openId values = InsertUser.openId user /\
  InsertUser.name values = InsertUser.name user /\
  InsertUser.email values = InsertUser.email user /\
  InsertUser.loginMethod values = InsertUser.loginMethod user /\
  InsertUser.role values =
    match InsertUser.role user with
    | Some x => Some x
    | None => if String.eqb (InsertUser.openId user) owner then Some role_admin else None
    end /\
  InsertUser.createdAt values = None /\
  InsertUser.updatedAt values = None /\
  InsertUser.lastSignedIn values = Some (or_else (InsertUser.lastSignedIn user) now1).
Proof.
  destruct user as [i o n e l r c u s].
  unfold upsert_statement, assign_name, assign_email,
    assign_loginMethod, set_lastSignedIn, set_role; simpl.
  destruct n, e, l, s, r; simpl;
    try (destruct (String.eqb o owner); simpl); repeat split.
Qed.

(** The row a first sight inserts. *)
Definition first_sight_row (owner : string) (user : InsertUser.t) (auto_id : Z) (now : Date)
  : User.t :=
  user_row_of (fst (upsert_statement owner user now now)) auto_id now.

Lemma upsertUser_inserts (owner : string) (user : InsertUser.t) (w w1 : World) (h : Handle) :
  truthy_string (InsertUser.openId user) = true ->
  getDb w = (Returns (Some h), w1) ->
  existsb (fun r => eq_text (User.openId r) (InsertUser.openId user)) (users (store w))
    = false ->
  upsertUser owner user w =
  (Returns tt,
   set_store (with_users (store w)
                (users (store w)
                 ++ [first_sight_row owner user (seq_users (store w)) (clock w)])
                (seq_users (store w) + 1)) w1).
Proof.
  intros Ht E Hex.
  destruct (getDb_split w _ w1 E) as [Hs Hc].
  unfold upsertUser. rewrite Ht.
  cbv beta iota delta [negb bind]. rewrite E.
  cbv beta iota delta [try_catch bind new_Date].
  rewrite Hc.
  destruct (upsert_statement_columns owner user (clock w) (clock w))
    as [Hid [Hop _]].
  unfold first_sight_row.
  destruct (upsert_statement owner user (clock w) (clock w)) as [values set].
  simpl fst in *. simpl snd in *.
  unfold insert_users_onDuplicateKeyUpdate.
  cbv beta iota delta [bind read_store new_Date write_store].
  rewrite Hs, Hc.
  assert (Hc' : forall r, user_conflicts values r
                          = eq_text (User.openId r) (InsertUser.openId user)).
  { intros r. unfold user_conflicts. rewrite Hid, Hop. apply orb_false_r. }
  rewrite (existsb_pointwise _ _ (users (store w)) Hc').
  rewrite Hex. reflexivity.
Qed.

Lemma getUserByOpenId_runs (openId : string) (w w1 : World) (h : Handle) :
  getDb w = (Returns (Some h), w1) ->
  getUserByOpenId openId w =
  (Returns (find (fun r => eq_text (User.openId r) openId) (users (store w))), w1).
Proof.
  intros E. destruct (getDb_split w _ w1 E) as [Hs _].
  unfold getUserByOpenId. cbv beta iota delta [bind]. rewrite E.
  cbv beta iota delta [bind read_store ret]. rewrite Hs, first_match.
  destruct (find _ _); reflexivity.
Qed.

Lemma upserted_openId (owner : string) (user : InsertUser.t) (now : Date) (r : User.t) :
  User.openId (upserted owner user now r) = User.openId r.
Proof.
  unfold upserted.
  destruct (user_conflicts _ r); [|reflexivity].
  exact (proj1 (proj2 (user_update_columns _ now r))).
Qed.

(** X2.  With a datastore at hand and a non-empty openId, [upsertUser]
    succeeds, and a lookup of that openId right afterwards finds a row with
    that openId in which every field the argument supplied holds the
    supplied value; when the argument leaves the role out and the openId is
    the configured owner's, the row found is an admin. *)
Theorem upsertUser_then_getUserByOpenId
    (owner : string) (user : InsertUser.t) (w w1 : World) (h : Handle) :
  truthy_string (InsertUser.openId user) = true ->
  getDb w = (Returns (Some h), w1) ->
  exists (w2 : World) (r : User.t),
    upsertUser owner user w = (Returns tt, w2) /\
    getUserByOpenId (InsertUser.openId user) w2 = (Returns (Some r), w2) /\
    User.openId r = InsertUser.openId user /\
    (forall v, InsertUser.name user = Some v -> User.name r = v) /\
    (forall v, InsertUser.email user = Some v -> User.email r = v) /\
    (forall v, InsertUser.loginMethod user = Some v -> User.loginMethod r = v) /\
    (forall v, InsertUser.role user = Some v -> User.role r = v) /\
    (forall d, InsertUser.lastSignedIn user = Some d -> User.lastSignedIn r = d) /\
    (InsertUser.role user = None -> InsertUser.openId user = owner ->
     User.role r = role_admin).
Proof.
  intros Ht E.
  pose proof (getDb_keeps_handle w w1 h E) as Hdb.
  set (p := fun r => eq_text (User.openId r) (InsertUser.openId user)).
  destruct (existsb p (users (store w))) eqn:Hex.
  - (* seen before *)
    pose proof (upsertUser_runs owner user w w1 h Ht E Hex) as Hrun.
    destruct (existsb_find_some p _ Hex) as [r0 Hfind].
    pose proof (find_some _ _ Hfind) as [_ Hp0].
    eexists. exists (upserted owner user (clock w) r0).
    split; [exact Hrun|].
    split.
    { rewrite (getUserByOpenId_runs _ _ _ h (getDb_after_write w1 h _ Hdb)).
      cbn [store set_store users with_users].
      rewrite (find_map_same_test p (upserted owner user (clock w)));
        [rewrite Hfind; reflexivity|].
      intros x. unfold p. rewrite upserted_openId. reflexivity. }
    destruct (upsert_statement_columns owner user (clock w) (clock w))
      as [Hid [Hop [Hn [He [Hl [Hr Hs]]]]]].
    assert (Hconf : user_conflicts (fst (upsert_statement owner user (clock w) (clock w))) r0
                    = true).
    { unfold user_conflicts. rewrite Hid, Hop, orb_false_r. exact Hp0. }
    unfold upserted. rewrite Hconf.
    destruct (user_update_columns (snd (upsert_statement owner user (clock w) (clock w)))
                (clock w) r0)
      as [U1 [U2 [U3 [U4 [U5 [U6 [U7 [U8 _]]]]]]]].
    rewrite U2, U4, U5, U6, U7, U8, Hn, He, Hl, Hr, Hs.
    split; [apply String.eqb_eq; exact Hp0|].
    repeat split; intros; try (rewrite H; reflexivity).
    rewrite H. apply String.eqb_eq in H0. rewrite H0. reflexivity.
  - (* first sight *)
    pose proof (upsertUser_inserts owner user w w1 h Ht E Hex) as Hrun.
    pose proof (existsb_find_none p _ Hex) as Hfind.
    eexists. exists (first_sight_row owner user (seq_users (store w)) (clock w)).
    split; [exact Hrun|].
    destruct (upsert_values_columns owner user (clock w) (clock w))
      as [Hid [Hop [Hn [He [Hl [Hr [_ [_ Hs]]]]]]]].
    split.
    { rewrite (getUserByOpenId_runs _ _ _ h (getDb_after_write w1 h _ Hdb)).
      cbn [store set_store users with_users].
      rewrite find_snoc. fold p. rewrite Hfind.
      unfold p, eq_text, first_sight_row, user_row_of. cbn [User.openId].
      rewrite Hop, String.eqb_refl. reflexivity. }
    unfold first_sight_row, user_row_of.
    cbn [User.openId User.name User.email User.loginMethod User.role User.lastSignedIn].
    rewrite Hop, Hn, He, Hl, Hr, Hs.
    split; [reflexivity|].
    repeat split; intros; try (rewrite H; reflexivity).
    rewrite H. apply String.eqb_eq in H0. rewrite H0. reflexivity.
Qed.

(** A newcomer named Cy is upserted and found again under that name. *)
Lemma upsertUser_then_getUserByOpenId_witness :
  exists w2 r,
    upsertUser "owner-1"
      (InsertUser.mk None "new-3" (Some (Some "Cy")) None None None None None None)
      (world_up users_database) = (Returns tt, w2) /\
    getUserByOpenId "new-3" w2 = (Returns (Some r), w2) /\
    User.name r = Some "Cy".
Proof.
  destruct (upsertUser_then_getUserByOpenId "owner-1"
              (InsertUser.mk None "new-3" (Some (Some "Cy")) None None None None None None)
              (world_up users_database) (world_up users_database)
              (Drizzle "mysql://db") eq_refl eq_refl)
    as [w2 [r [Hrun [Hget [_ [Hname _]]]]]].
  exists w2, r.
  split; [exact Hrun|]. split; [exact Hget|].
  exact (Hname (Some "Cy") eq_refl).
Defined.

(** X3.  A user whose openId no stored row carries is inserted as one new
    row at the end of the table: its id is the next AUTO_INCREMENT value,
    text fields left out are NULL, the role is the supplied one, else admin
    for the configured owner's openId, else user; createdAt and updatedAt
    are now and last-signed-in is the supplied time, else now.  The rows
    that were there stay as they were. *)
Theorem upsertUser_first_sight
    (owner : string) (user : InsertUser.t) (w w1 : World) (h : Handle) :
  truthy_string (InsertUser.openId user) = true ->
  getDb w = (Returns (Some h), w1) ->
  (forall r, In r (users (store w)) -> User.openId r <> InsertUser.openId user) ->
  exists (w2 : World) (row : User.t),
    upsertUser owner user w = (Returns tt, w2) /\
    users (store w2) = (users (store w) ++ [row])%list /\
    seq_users (store w2) = seq_users (store w) + 1 /\
    User.id row = seq_users (store w) /\
    User.openId row = InsertUser.openId user /\
    User.name row = or_null (InsertUser.name user) /\
    User.email row = or_null (InsertUser.email user) /\
    User.loginMethod row = or_null (InsertUser.loginMethod user) /\
    User.role row =
      match InsertUser.role user with
      | Some x => x
      | None => if String.eqb (InsertUser.openId user) owner then role_admin else role_user
      end /\
    User.createdAt row = clock w /\
    User.updatedAt row = clock w /\
    User.lastSignedIn row = or_else (InsertUser.lastSignedIn user) (clock w).
Proof.
  intros Ht E Hnew.
  assert (Hex : existsb (fun r => eq_text (User.openId r) (InsertUser.openId user))
                        (users (store w)) = false).
  { destruct (existsb _ _) eqn:Hex; [|reflexivity].
    apply existsb_exists in Hex. destruct Hex as [r [Hin Hr]].
    apply String.eqb_eq in Hr. elim (Hnew r Hin Hr). }
  eexists. exists (first_sight_row owner user (seq_users (store w)) (clock w)).
  split; [exact (upsertUser_inserts owner user w w1 h Ht E Hex)|].
  destruct (upsert_values_columns owner user (clock w) (clock w))
    as [Hid [Hop [Hn [He [Hl [Hr [Hc [Hu Hs]]]]]]]].
  unfold first_sight_row, user_row_of.
  cbn [store set_store users with_users seq_users User.id User.openId User.name
       User.email User.loginMethod User.role User.createdAt User.updatedAt
       User.lastSignedIn].
  rewrite Hid, Hop, Hn, He, Hl, Hr, Hc, Hu, Hs.
  repeat split.
  destruct (InsertUser.role user); [reflexivity|].
  destruct (String.eqb (InsertUser.openId user) owner); reflexivity.
Qed.

(** An empty table, and Ann arriving with the owner's openId. *)
Lemma upsertUser_first_sight_witness :
  exists w2 row,
    upsertUser "owner-1" (only_openId "owner-1") (world_up empty_database)
      = (Returns tt, w2) /\
    users (store w2) = [row] /\
    User.id row = 1 /\ User.role row = role_admin /\ User.name row = None /\
    User.lastSignedIn row = 1000.
Proof.
  destruct (upsertUser_first_sight "owner-1" (only_openId "owner-1")
              (world_up empty_database) (world_up empty_database)
              (Drizzle "mysql://db") eq_refl eq_refl
              (fun r (H : In r []) => match H with end))
    as [w2 [row [Hrun [Htab [_ [Hid [_ [Hname [_ [_ [Hrole [_ [_ Hlast]]]]]]]]]]]]].
  exists w2, row.
  repeat split; assumption.
Defined.

(** X4.  The openIds of the users table stay pairwise different under
    [upsertUser], in every world and for every argument, and the table gains
    at most one row. *)
Theorem upsertUser_keeps_openIds_unique
    (owner : string) (user : InsertUser.t) (w : World) :
  NoDup (map User.openId (users (store w))) ->
  let w2 := snd (upsertUser owner user w) in
  NoDup (map User.openId (users (store w2))) /\
  (List.length (users (store w)) <= List.length (users (store w2))
   <= List.length (users (store w)) + 1)%nat.
Proof.
  intros Hnd w2. unfold w2.
  destruct (truthy_string (InsertUser.openId user)) eqn:Ht.
  2:{ unfold upsertUser. rewrite Ht. simpl. split; [exact Hnd|lia]. }
  destruct (getDb w) as [r w1] eqn:E.
  destruct (getDb_split w r w1 E) as [Hs _].
  destruct r as [[h|]|e].
  - destruct (existsb (fun r => eq_text (User.openId r) (InsertUser.openId user))
                      (users (store w))) eqn:Hex.
    + rewrite (upsertUser_runs owner user w w1 h Ht E Hex).
      cbn [snd store set_store users with_users].
      rewrite map_map, length_map.
      rewrite (map_ext _ User.openId (upserted_openId owner user (clock w))).
      split; [exact Hnd|lia].
    + rewrite (upsertUser_inserts owner user w w1 h Ht E Hex).
      cbn [snd store set_store users with_users].
      rewrite map_app, length_app. cbn [map List.length].
      split; [|lia].
      apply NoDup_app; [exact Hnd|constructor; [intros []|constructor]|].
      intros a Ha [Hb|[]]. subst a.
      apply in_map_iff in Ha. destruct Ha as [r [Hr Hin]].
      assert (Hp : eq_text (User.openId r) (InsertUser.openId user) = true).
      { unfold eq_text. apply String.eqb_eq. rewrite Hr.
        unfold first_sight_row, user_row_of. cbn [User.openId].
        exact (proj1 (proj2 (upsert_values_columns owner user (clock w) (clock w)))). }
      assert (Hex' : existsb (fun r => eq_text (User.openId r) (InsertUser.openId user))
                             (users (store w)) = true).
      { apply existsb_exists. exists r. split; assumption. }
      congruence.
  - unfold upsertUser. rewrite Ht. cbv beta iota delta [negb bind]. rewrite E.
    simpl. rewrite Hs. split; [exact Hnd|lia].
  - unfold upsertUser. rewrite Ht. cbv beta iota delta [negb bind]. rewrite E.
    simpl. rewrite Hs. split; [exact Hnd|lia].
Qed.

Lemma upsertUser_keeps_openIds_unique_witness :
  NoDup (map User.openId
           (users (store (snd (upsertUser "owner-1" (only_openId "guest-2")
                                 (world_up users_database)))))).
Proof.
  assert (Hnd : NoDup (map User.openId (users (store (world_up users_database))))).
  { simpl. constructor; [intros [H|[]]; discriminate|].
    constructor; [intros []|constructor]. }
  exact (proj1 (upsertUser_keeps_openIds_unique "owner-1" (only_openId "guest-2")
                  (world_up users_database) Hnd)).
Defined.

(* ------------------------------------------------------------------ *)
(** ** Projects: create, fetch, list, soft delete (db.ts) *)

Fixpoint JSON_eqb_eq (a b : JSON) {struct a} : JSON_eqb a b = true -> a = b.
Proof.
  destruct a as [|x|x|x|xs|xs], b as [|y|y|y|ys|ys]; simpl; try discriminate.
  - reflexivity.
  - intros H. apply Bool.eqb_prop in H. congruence.
  - intros H. apply Z.eqb_eq in H. congruence.
  - intros H. apply String.eqb_eq in H. congruence.
  - intros H. f_equal. revert ys H.
    induction xs as [|x xs IH]; intros [|y ys] H; try discriminate; [reflexivity|].
    apply andb_prop in H. destruct H as [H1 H2].
    f_equal; [exact (JSON_eqb_eq x y H1)|exact (IH ys H2)].
  - intros H. f_equal. revert ys H.
    induction xs as [|[k x] xs IH]; intros [|[k' y] ys] H; try discriminate; [reflexivity|].
    apply andb_prop in H. destruct H as [H1 H2].
    apply andb_prop in H1. destruct H1 as [H0 H1].
    apply String.eqb_eq in H0.
    f_equal; [f_equal; [exact H0|exact (JSON_eqb_eq x y H1)]|exact (IH ys H2)].
Qed.

Lemma option_eqb_JSON_eq (a b : option JSON) :
  option_eqb JSON_eqb a b = true -> a = b.
Proof.
  destruct a, b; simpl; try discriminate; auto.
  intros H. apply JSON_eqb_eq in H. congruence.
Qed.

Lemma Project_eqb_eq (a b : Project.t) : Project.eqb a b = true -> a = b.
Proof.
  destruct a, b. unfold Project.eqb. simpl. intros H.
  repeat (apply andb_prop in H; destruct H as [H ?]).
  repeat match goal with
         | X : (_ =? _) = true |- _ => apply Z.eqb_eq in X
         | X : String.eqb _ _ = true |- _ => apply String.eqb_eq in X
         | X : option_eqb String.eqb _ _ = true |- _ => apply option_eqb_string_eq in X
         | X : option_eqb JSON_eqb _ _ = true |- _ => apply option_eqb_JSON_eq in X
         | X : Bool.eqb _ _ = true |- _ => apply Bool.eqb_prop in X
         end.
  congruence.
Qed.

(** What one UPDATE does to the columns of a project row, for a SET clause
    that does not assign [updatedAt]. *)
Lemma project_update_columns (u : ProjectPatch.t) (now : Date) (r : Project.t) :
  ProjectPatch.updatedAt u = None ->
  Project.id (project_update u now r) = or_else (ProjectPatch.id u) (Project.id r) /\
  Project.adminUserId (project_update u now r)
    = or_else (ProjectPatch.adminUserId u) (Project.adminUserId r) /\
  Project.name (project_update u now r) = or_else (ProjectPatch.name u) (Project.name r) /\
  Project.description (project_update u now r)
    = or_else (ProjectPatch.description u) (Project.description r) /\
  Project.schema (project_update u now r)
    = match ProjectPatch.schema u with
      | None => Project.schema r
      | Some JNull => None
      | Some v => Some v
      end /\
  Project.isActive (project_update u now r)
    = or_else (ProjectPatch.isActive u) (Project.isActive r) /\
  Project.createdAt (project_update u now r)
    = or_else (ProjectPatch.createdAt u) (Project.createdAt r) /\
  (Project.updatedAt (project_update u now r) = Project.updatedAt r \/
   Project.updatedAt (project_update u now r) = now).
Proof.
  intros Hu. unfold project_update. rewrite Hu.
  destruct (Project.eqb r (project_assign u r)) eqn:E.
  - apply Project_eqb_eq in E.
    repeat split; try (rewrite E at 1; reflexivity). left; reflexivity.
  - repeat split. right; reflexivity.
Qed.

(** The row [createProject] inserts. *)
Definition created_project (adminUserId : Z) (name : string)
    (description : option string) (schema : option JSON) (d : Database) (now : Date)
  : Project.t :=
  Project.mk (seq_projects d) adminUserId name description
             (match schema with Some JNull => None | other => other end)
             true now now.

Lemma createProject_runs (adminUserId : Z) (name : string)
    (description : option string) (schema : option JSON) (w w1 : World) (h : Handle) :
  getDb w = (Returns (Some h), w1) ->
  createProject adminUserId name description schema w =
  (Returns (mkResult (seq_projects (store w))),
   set_store (with_projects (store w)
                (projects (store w)
                 ++ [created_project adminUserId name description schema
                       (store w) (clock w)])
                (seq_projects (store w) + 1)) w1).
Proof.
  intros E. destruct (getDb_split w _ w1 E) as [Hs Hc].
  unfold createProject. cbv beta iota delta [bind]. rewrite E.
  cbv beta iota zeta delta [bind read_store new_Date write_store ret].
  rewrite Hs, Hc. reflexivity.
Qed.

Lemma getProjectsByAdminId_runs (adminUserId : Z) (w w1 : World) (h : Handle) :
  getDb w = (Returns (Some h), w1) ->
  getProjectsByAdminId adminUserId w =
  (Returns (filter (fun r => eq_int (Project.adminUserId r) adminUserId)
                   (projects (store w))), w1).
Proof.
  intros E. destruct (getDb_split w _ w1 E) as [Hs _].
  unfold getProjectsByAdminId. cbv beta iota delta [bind]. rewrite E.
  cbv beta iota delta [bind read_store ret]. rewrite Hs. reflexivity.
Qed.

(** X5.  With a datastore at hand whose AUTO_INCREMENT value no project
    holds yet, [createProject] returns an insertId under which
    [getProjectById] finds the new project: owned by the given admin, with
    the given name and description, active, created now.  Every project that
    could be fetched before is fetched unchanged afterwards. *)
Theorem createProject_then_getProjectById
    (adminUserId : Z) (name : string) (description : option string)
    (schema : option JSON) (w w1 : World) (h : Handle) :
  getDb w = (Returns (Some h), w1) ->
  (forall r, In r (projects (store w)) -> Project.id r <> seq_projects (store w)) ->
  exists (w2 : World) (row : Project.t),
    createProject adminUserId name description schema w
      = (Returns (mkResult (Project.id row)), w2) /\
    getProjectById (Project.id row) w2 = (Returns (Some row), w2) /\
    Project.id row = seq_projects (store w) /\
    Project.adminUserId row = adminUserId /\
    Project.name row = name /\
    Project.description row = description /\
    Project.isActive row = true /\
    Project.createdAt row = clock w /\
    (forall p r, fetched p w = Some r -> getProjectById p w2 = (Returns (Some r), w2)).
Proof.
  intros E Hfresh.
  pose proof (getDb_keeps_handle w w1 h E) as Hdb.
  set (row := created_project adminUserId name description schema (store w) (clock w)).
  eexists. exists row.
  split; [exact (createProject_runs adminUserId name description schema w w1 h E)|].
  split.
  { rewrite (getProjectById_runs _ _ _ h (getDb_after_write w1 h _ Hdb)).
    unfold fetched. cbn [store set_store projects with_projects].
    rewrite find_snoc.
    rewrite find_all_false.
    - unfold eq_int. rewrite Z.eqb_refl. reflexivity.
    - intros x Hx. apply Z.eqb_neq. exact (Hfresh x Hx). }
  repeat split.
  intros p r Hp.
  rewrite (getProjectById_runs _ _ _ h (getDb_after_write w1 h _ Hdb)).
  unfold fetched in *. cbn [store set_store projects with_projects].
  rewrite find_snoc, Hp. reflexivity.
Qed.

Lemma createProject_then_getProjectById_witness :
  exists w2 row,
    createProject 2 "P2" None None (world_up tenant_database)
      = (Returns (mkResult 11), w2) /\
    getProjectById 11 w2 = (Returns (Some row), w2) /\
    Project.adminUserId row = 2 /\ Project.name row = "P2" /\
    getProjectById 10 w2 = (Returns (Some project_ten), w2).
Proof.
  assert (Hfresh : forall r, In r (projects (store (world_up tenant_database))) ->
                             Project.id r <> seq_projects (store (world_up tenant_database))).
  { intros r [H|[]]. subst r. discriminate. }
  destruct (createProject_then_getProjectById 2 "P2" None None
              (world_up tenant_database) (world_up tenant_database)
              (Drizzle "mysql://db") eq_refl Hfresh)
    as [w2 [row [Hrun [Hget [Hid [Ha [Hn [_ [_ [_ Hold]]]]]]]]]].
  change (seq_projects (store (world_up tenant_database))) with 11 in Hid.
  exists w2, row. rewrite Hid in Hrun, Hget.
  repeat split; try assumption.
  exact (Hold 10 project_ten eq_refl).
Defined.

(** The projects of one admin, as [getProjectsByAdminId] selects them. *)
Definition projects_of (adminUserId : Z) (d : Database) : list Project.t :=
  filter (fun r => eq_int (Project.adminUserId r) adminUserId) (projects d).

(** X6.  [getProjectsByAdminId] lists exactly the stored projects whose
    owner is the given admin, in table order.  After [createProject] for an
    admin, that admin's list is the former list followed by the new project,
    and the list of every other admin is what it was. *)
Theorem createProject_then_getProjectsByAdminId
    (adminUserId : Z) (name : string) (description : option string)
    (schema : option JSON) (w w1 : World) (h : Handle) :
  getDb w = (Returns (Some h), w1) ->
  (forall a, getProjectsByAdminId a w = (Returns (projects_of a (store w)), w1)) /\
  (forall a r, In r (projects_of a (store w)) <->
               In r (projects (store w)) /\ Project.adminUserId r = a) /\
  exists (w2 : World) (row : Project.t),
    createProject adminUserId name description schema w
      = (Returns (mkResult (Project.id row)), w2) /\
    Project.adminUserId row = adminUserId /\ Project.name row = name /\
    getProjectsByAdminId adminUserId w2
      = (Returns (projects_of adminUserId (store w) ++ [row])%list, w2) /\
    (forall a, a <> adminUserId ->
       getProjectsByAdminId a w2 = (Returns (projects_of a (store w)), w2)).
Proof.
  intros E.
  pose proof (getDb_keeps_handle w w1 h E) as Hdb.
  split; [intros a; exact (getProjectsByAdminId_runs a w w1 h E)|].
  split.
  { intros a r. unfold projects_of. rewrite filter_In. unfold eq_int.
    rewrite Z.eqb_eq. reflexivity. }
  set (row := created_project adminUserId name description schema (store w) (clock w)).
  eexists. exists row.
  split; [exact (createProject_runs adminUserId name description schema w w1 h E)|].
  split; [reflexivity|]. split; [reflexivity|].
  split.
  - rewrite (getProjectsByAdminId_runs _ _ _ h (getDb_after_write w1 h _ Hdb)).
    cbn [store set_store projects with_projects].
    rewrite filter_snoc. unfold eq_int at 2. cbn [Project.adminUserId row created_project].
    rewrite Z.eqb_refl. reflexivity.
  - intros a Hne.
    rewrite (getProjectsByAdminId_runs _ _ _ h (getDb_after_write w1 h _ Hdb)).
    cbn [store set_store projects with_projects].
    rewrite filter_snoc. unfold eq_int at 2. cbn [Project.adminUserId row created_project].
    assert (Hb : (adminUserId =? a) = false) by (apply Z.eqb_neq; congruence).
    rewrite Hb, app_nil_r. reflexivity.
Qed.

Lemma createProject_then_getProjectsByAdminId_witness :
  exists w2 row,
    createProject 2 "P2" None None (world_up tenant_database)
      = (Returns (mkResult (Project.id row)), w2) /\
    getProjectsByAdminId 2 w2 = (Returns [row], w2) /\
    getProjectsByAdminId 1 w2 = (Returns [project_ten], w2).
Proof.
  destruct (createProject_then_getProjectsByAdminId 2 "P2" None None
              (world_up tenant_database) (world_up tenant_database)
              (Drizzle "mysql://db") eq_refl)
    as [_ [_ [w2 [row [Hrun [_ [_ [Hmine Hother]]]]]]]].
  exists w2, row.
  split; [exact Hrun|]. split; [exact Hmine|].
  assert (Hne : 1 <> 2) by discriminate.
  exact (Hother 1 Hne).
Defined.

(** The SET clause of [deleteProject]. *)
Definition deactivate : ProjectPatch.t :=
  ProjectPatch.mk None None None None None (Some false) None None.

Definition deactivated (projectId : Z) (now : Date) (r : Project.t) : Project.t :=
  if eq_int (Project.id r) projectId then project_update deactivate now r else r.

Lemma deleteProject_runs (projectId : Z) (w w1 : World) (h : Handle) :
  getDb w = (Returns (Some h), w1) ->
  deleteProject projectId w =
  (Returns (mkResult 0),
   set_store (with_projects (store w)
                (map (deactivated projectId (clock w)) (projects (store w)))
                (seq_projects (store w))) w1).
Proof.
  intros E. destruct (getDb_split w _ w1 E) as [Hs Hc].
  unfold deleteProject. cbv beta iota delta [bind]. rewrite E.
  unfold update_projects.
  cbv beta iota zeta delta [ProjectPatch.no_values ProjectPatch.id ProjectPatch.adminUserId
    ProjectPatch.name ProjectPatch.description ProjectPatch.schema ProjectPatch.isActive
    ProjectPatch.createdAt ProjectPatch.updatedAt bind read_store new_Date write_store ret].
  rewrite andb_false_r. rewrite Hs, Hc. reflexivity.
Qed.

Lemma deactivated_columns (projectId : Z) (now : Date) (r : Project.t) :
  Project.id (deactivated projectId now r) = Project.id r /\
  Project.adminUserId (deactivated projectId now r) = Project.adminUserId r /\
  Project.name (deactivated projectId now r) = Project.name r /\
  Project.description (deactivated projectId now r) = Project.description r /\
  Project.schema (deactivated projectId now r) = Project.schema r /\
  Project.createdAt (deactivated projectId now r) = Project.createdAt r /\
  Project.isActive (deactivated projectId now r)
    = (if Project.id r =? projectId then false else Project.isActive r).
Proof.
  unfold deactivated, eq_int.
  destruct (Project.id r =? projectId); [|repeat split].
  destruct (project_update_columns deactivate now r eq_refl)
    as [U1 [U2 [U3 [U4 [U5 [U6 [U7 _]]]]]]].
  simpl in U1, U2, U3, U4, U5, U6, U7.
  repeat split; assumption.
Qed.

(** X7.  [deleteProject] is a soft delete.  With a datastore at hand it
    succeeds (also when no project has the id) and removes nothing: every
    project that could be fetched before can still be fetched by its id, with
    the same owner, name, description, schema and creation time; the
    project with the given id is now inactive, the others keep their flag.
    The keys and the records of the project are left as they were. *)
Theorem deleteProject_is_soft (projectId : Z) (w w1 : World) (h : Handle) :
  getDb w = (Returns (Some h), w1) ->
  exists w2 : World,
    deleteProject projectId w = (Returns (mkResult 0), w2) /\
    List.length (projects (store w2)) = List.length (projects (store w)) /\
    (forall q, fetched q w = None -> getProjectById q w2 = (Returns None, w2)) /\
    (forall q r, fetched q w = Some r ->
       exists r',
         getProjectById q w2 = (Returns (Some r'), w2) /\
         Project.id r' = Project.id r /\
         Project.adminUserId r' = Project.adminUserId r /\
         Project.name r' = Project.name r /\
         Project.description r' = Project.description r /\
         Project.schema r' = Project.schema r /\
         Project.createdAt r' = Project.createdAt r /\
         Project.isActive r' = (if q =? projectId then false else Project.isActive r)) /\
    apiKeys (store w2) = apiKeys (store w) /\
    dynamicData (store w2) = dynamicData (store w).
Proof.
  intros E.
  pose proof (getDb_keeps_handle w w1 h E) as Hdb.
  eexists. split; [exact (deleteProject_runs projectId w w1 h E)|].
  cbn [store set_store projects with_projects apiKeys dynamicData].
  split; [apply length_map|].
  assert (Hfind : forall q,
            find (fun r => eq_int (Project.id r) q)
                 (map (deactivated projectId (clock w)) (projects (store w)))
            = option_map (deactivated projectId (clock w)) (fetched q w)).
  { intros q. unfold fetched. apply find_map_same_test.
    intros x. rewrite (proj1 (deactivated_columns projectId (clock w) x)). reflexivity. }
  split; [|split; [|split; reflexivity]].
  - intros q Hq.
    rewrite (getProjectById_runs _ _ _ h (getDb_after_write w1 h _ Hdb)).
    unfold fetched at 1. cbn [store set_store projects with_projects].
    rewrite Hfind, Hq. reflexivity.
  - intros q r Hq.
    exists (deactivated projectId (clock w) r).
    split.
    { rewrite (getProjectById_runs _ _ _ h (getDb_after_write w1 h _ Hdb)).
      unfold fetched at 1. cbn [store set_store projects with_projects].
      rewrite Hfind, Hq. reflexivity. }
    destruct (deactivated_columns projectId (clock w) r)
      as [C1 [C2 [C3 [C4 [C5 [C6 C7]]]]]].
    unfold fetched in Hq. apply find_some in Hq. destruct Hq as [_ Hid].
    apply Z.eqb_eq in Hid. rewrite Hid in C7.
    repeat split; assumption.
Qed.

Lemma deleteProject_is_soft_witness :
  exists w2 r',
    deleteProject 10 (world_up tenant_database) = (Returns (mkResult 0), w2) /\
    getProjectById 10 w2 = (Returns (Some r'), w2) /\
    Project.isActive r' = false /\ Project.name r' = "P1" /\
    apiKeys (store w2) = [key_live; key_revoked].
Proof.
  destruct (deleteProject_is_soft 10 (world_up tenant_database) (world_up tenant_database)
              (Drizzle "mysql://db") eq_refl)
    as [w2 [Hrun [_ [_ [Hkept [Hkeys _]]]]]].
  destruct (Hkept 10 project_ten eq_refl)
    as [r' [Hget [_ [_ [Hname [_ [_ [_ Hflag]]]]]]]].
  exists w2, r'.
  repeat split; assumption.
Defined.

(* ------------------------------------------------------------------ *)
(** ** API keys: create, resolve, revoke (db.ts, api.ts) *)

Lemma getApiKeyByKey_runs (key : string) (w w1 : World) (h : Handle) :
  getDb w = (Returns (Some h), w1) ->
  getApiKeyByKey key w =
  (Returns (find (fun r => eq_text (ApiKey.key r) key) (apiKeys (store w))), w1).
Proof.
  intros E. destruct (getDb_split w _ w1 E) as [Hs _].
  unfold getApiKeyByKey. cbv beta iota delta [bind]. rewrite E.
  cbv beta iota delta [bind read_store ret]. rewrite Hs, first_match.
  destruct (find _ _); reflexivity.
Qed.

(** The middleware on a non-empty header, with a datastore at hand. *)
Lemma authenticateApiKey_runs (req : Request.t) (next : Bound.t -> Async Response.t)
    (key : string) (w w1 : World) (h : Handle) :
  Request.x_api_key req = Some key -> truthy_string key = true ->
  getDb w = (Returns (Some h), w1) ->
  authenticateApiKey req next w =
  match find (fun r => eq_text (ApiKey.key r) key) (apiKeys (store w)) with
  | None => (Returns invalid_api_key, w1)
  | Some k => if negb (ApiKey.isActive k)
              then (Returns invalid_api_key, w1)
              else next (Bound.mk req k (ApiKey.projectId k)) w1
  end.
Proof.
  intros Hkey Htruthy E.
  unfold authenticateApiKey. rewrite Hkey.
  cbv beta iota delta [truthy_opt or_else]. rewrite Htruthy.
  cbv beta iota delta [negb bind].
  rewrite (getApiKeyByKey_runs key w w1 h E).
  destruct (find _ _) as [k|]; [|reflexivity].
  destruct (ApiKey.isActive k); reflexivity.
Qed.

(** The key text [createApiKey] generates from the clock and one random
    draw. *)
Definition generated_key (w : World) : string :=
  "sk_" ++ decimal (clock w) ++ "_" ++ hd EmptyString (entropy w).

Definition created_key (projectId : Z) (name : string)
    (permissions : option (list string)) (w : World) : ApiKey.t :=
  ApiKey.mk (seq_apiKeys (store w)) projectId (generated_key w) name
            (Some (or_else permissions ["read"; "write"]))
            true None (clock w) (clock w).

Lemma createApiKey_runs (projectId : Z) (name : string)
    (permissions : option (list string)) (w w1 : World) (h : Handle) :
  getDb w = (Returns (Some h), w1) ->
  existsb (fun r => eq_text (ApiKey.key r) (generated_key w)) (apiKeys (store w)) = false ->
  createApiKey projectId name permissions w =
  (Returns (mkResult (seq_apiKeys (store w))),
   set_store (with_apiKeys (store w)
                (apiKeys (store w) ++ [created_key projectId name permissions w])
                (seq_apiKeys (store w) + 1))
             (set_entropy (tl (entropy w1)) w1)).
Proof.
  intros E Hnew. destruct (getDb_split w _ w1 E) as [Hs Hc].
  pose proof (getDb_entropy w) as He. rewrite E in He. simpl in He.
  unfold createApiKey. cbv beta iota delta [bind]. rewrite E.
  cbv beta iota zeta delta [bind new_Date random_draw read_store].
  change (store (set_entropy (tl (entropy w1)) w1)) with (store w1).
  change (clock (set_entropy (tl (entropy w1)) w1)) with (clock w1).
  rewrite Hs, Hc, He.
  change ("sk_" ++ decimal (clock w) ++ "_" ++ hd EmptyString (entropy w))
    with (generated_key w).
  rewrite Hnew.
  cbv beta iota zeta delta [bind write_store ret].
  change (store (set_entropy (tl (entropy w)) w1)) with (store w1).
  reflexivity.
Qed.

(** X8.  With a datastore at hand, [createApiKey] generates the text
    "sk_", the clock in decimal, "_" and a random part.  When no stored key
    has that text, the key is stored active for the given project, with the
    given permissions or read and write when none are given, and a request
    that carries the text in its X-API-Key header passes the middleware: the
    handler runs with the new key and its project id attached. *)
Theorem createApiKey_then_authenticateApiKey
    (projectId : Z) (name : string) (permissions : option (list string))
    (w w1 : World) (h : Handle) :
  getDb w = (Returns (Some h), w1) ->
  (forall r, In r (apiKeys (store w)) -> ApiKey.key r <> generated_key w) ->
  exists (w2 : World) (row : ApiKey.t),
    createApiKey projectId name permissions w = (Returns (mkResult (ApiKey.id row)), w2) /\
    ApiKey.key row = generated_key w /\
    ApiKey.projectId row = projectId /\
    ApiKey.name row = name /\
    ApiKey.permissions row = Some (or_else permissions ["read"; "write"]) /\
    ApiKey.isActive row = true /\
    ApiKey.lastUsedAt row = None /\
    getApiKeyByKey (ApiKey.key row) w2 = (Returns (Some row), w2) /\
    (forall req next,
       Request.x_api_key req = Some (ApiKey.key row) ->
       authenticateApiKey req next w2 = next (Bound.mk req row projectId) w2).
Proof.
  intros E Hnew.
  pose proof (getDb_keeps_handle w w1 h E) as Hdb.
  assert (Hex : existsb (fun r => eq_text (ApiKey.key r) (generated_key w))
                        (apiKeys (store w)) = false).
  { destruct (existsb _ _) eqn:Hex; [|reflexivity].
    apply existsb_exists in Hex. destruct Hex as [r [Hin Hr]].
    apply String.eqb_eq in Hr. elim (Hnew r Hin Hr). }
  set (row := created_key projectId name permissions w).
  set (w2 := set_store (with_apiKeys (store w) (apiKeys (store w) ++ [row])
                          (seq_apiKeys (store w) + 1))
                       (set_entropy (tl (entropy w1)) w1)).
  assert (E2 : getDb w2 = (Returns (Some h), w2)).
  { apply getDb_cached. exact Hdb. }
  assert (Hfind : find (fun r => eq_text (ApiKey.key r) (generated_key w))
                       (apiKeys (store w2)) = Some row).
  { unfold w2. cbn [store set_store apiKeys with_apiKeys].
    rewrite find_snoc, (existsb_find_none _ _ Hex).
    unfold eq_text, row, created_key. cbn [ApiKey.key].
    rewrite String.eqb_refl. reflexivity. }
  exists w2, row.
  split; [exact (createApiKey_runs projectId name permissions w w1 h E Hex)|].
  repeat split.
  - rewrite (getApiKeyByKey_runs _ w2 w2 h E2). cbn [ApiKey.key row created_key].
    rewrite Hfind. reflexivity.
  - intros req next Hreq.
    rewrite (authenticateApiKey_runs req next (generated_key w) w2 w2 h Hreq eq_refl E2).
    rewrite Hfind. reflexivity.
Qed.

Lemma createApiKey_then_authenticateApiKey_witness :
  exists w2 row,
    createApiKey 10 "mobile" None (world_up tenant_database)
      = (Returns (mkResult (ApiKey.id row)), w2) /\
    ApiKey.key row = "sk_1000_k3x9" /\
    ApiKey.permissions row = Some ["read"; "write"] /\
    GET_api_v1_project
      (Request.mk (Some "sk_1000_k3x9") (Query.mk None None None None) "" empty_body) w2
    = (Returns (Response.mk 200 (project_payload 10 "P1" (Some "first project") true 5)),
       w2).
Proof.
  assert (Hnew : forall r, In r (apiKeys (store (world_up tenant_database))) ->
                           ApiKey.key r <> generated_key (world_up tenant_database)).
  { intros r [H|[H|[]]]; subst r; discriminate. }
  destruct (createApiKey_then_authenticateApiKey 10 "mobile" None
              (world_up tenant_database) (world_up tenant_database)
              (Drizzle "mysql://db") eq_refl Hnew)
    as [w2 [row [Hrun [Hkey [_ [_ [Hperm [_ [_ [_ Hauth]]]]]]]]]].
  exists w2, row.
  split; [exact Hrun|]. split; [exact Hkey|]. split; [exact Hperm|].
  unfold GET_api_v1_project. rewrite Hauth by (rewrite Hkey; reflexivity).
  pose proof Hrun as Hrun'. vm_compute in Hrun'. inversion Hrun' as [[Hid Hw2]].
  reflexivity.
Defined.

Definition revoked (apiKeyId : Z) (now : Date) (r : ApiKey.t) : ApiKey.t :=
  if eq_int (ApiKey.id r) apiKeyId then apiKey_set_isActive false now r else r.

Lemma revokeApiKey_runs (apiKeyId : Z) (w w1 : World) (h : Handle) :
  getDb w = (Returns (Some h), w1) ->
  revokeApiKey apiKeyId w =
  (Returns (mkResult 0),
   set_store (with_apiKeys (store w)
                (map (revoked apiKeyId (clock w)) (apiKeys (store w)))
                (seq_apiKeys (store w))) w1).
Proof.
  intros E. destruct (getDb_split w _ w1 E) as [Hs Hc].
  unfold revokeApiKey. cbv beta iota delta [bind]. rewrite E.
  cbv beta iota zeta delta [bind read_store new_Date write_store ret].
  rewrite Hs, Hc. reflexivity.
Qed.

Lemma revoked_columns (apiKeyId : Z) (now : Date) (r : ApiKey.t) :
  ApiKey.id (revoked apiKeyId now r) = ApiKey.id r /\
  ApiKey.projectId (revoked apiKeyId now r) = ApiKey.projectId r /\
  ApiKey.key (revoked apiKeyId now r) = ApiKey.key r /\
  ApiKey.name (revoked apiKeyId now r) = ApiKey.name r /\
  ApiKey.permissions (revoked apiKeyId now r) = ApiKey.permissions r /\
  ApiKey.lastUsedAt (revoked apiKeyId now r) = ApiKey.lastUsedAt r /\
  ApiKey.createdAt (revoked apiKeyId now r) = ApiKey.createdAt r /\
  ApiKey.isActive (revoked apiKeyId now r)
    = (if ApiKey.id r =? apiKeyId then false else ApiKey.isActive r).
Proof.
  unfold revoked, eq_int, apiKey_set_isActive.
  destruct (ApiKey.id r =? apiKeyId); [|repeat split].
  destruct (Bool.eqb (ApiKey.isActive r) false) eqn:Hb; [|repeat split].
  apply Bool.eqb_prop in Hb. repeat split. exact Hb.
Qed.

(** X9.  Revocation clears the active flag and keeps the row.  With a
    datastore at hand [revokeApiKey] succeeds and leaves as many keys as
    there were; a key that resolved before still resolves, with the same id,
    project, text, name and permissions, inactive if its id is the revoked
    one and with its former flag otherwise.  From then on a request that
    carries the (non-empty) text of the revoked key is answered 401 "Invalid
    or revoked API key" and its handler does not run. *)
Theorem revokeApiKey_then_authenticateApiKey
    (apiKeyId : Z) (w w1 : World) (h : Handle) :
  getDb w = (Returns (Some h), w1) ->
  exists w2 : World,
    revokeApiKey apiKeyId w = (Returns (mkResult 0), w2) /\
    List.length (apiKeys (store w2)) = List.length (apiKeys (store w)) /\
    (forall key k,
       find (fun r => eq_text (ApiKey.key r) key) (apiKeys (store w)) = Some k ->
       exists k',
         getApiKeyByKey key w2 = (Returns (Some k'), w2) /\
         ApiKey.id k' = ApiKey.id k /\
         ApiKey.projectId k' = ApiKey.projectId k /\
         ApiKey.key k' = ApiKey.key k /\
         ApiKey.name k' = ApiKey.name k /\
         ApiKey.permissions k' = ApiKey.permissions k /\
         ApiKey.isActive k'
           = (if ApiKey.id k =? apiKeyId then false else ApiKey.isActive k)) /\
    (forall key k req next,
       find (fun r => eq_text (ApiKey.key r) key) (apiKeys (store w)) = Some k ->
       ApiKey.id k = apiKeyId ->
       Request.x_api_key req = Some key -> key <> "" ->
       authenticateApiKey req next w2 = (Returns invalid_api_key, w2)).
Proof.
  intros E.
  pose proof (getDb_keeps_handle w w1 h E) as Hdb.
  set (w2 := set_store (with_apiKeys (store w)
                          (map (revoked apiKeyId (clock w)) (apiKeys (store w)))
                          (seq_apiKeys (store w))) w1).
  assert (E2 : getDb w2 = (Returns (Some h), w2)).
  { apply getDb_cached. exact Hdb. }
  assert (Hfind : forall key,
            find (fun r => eq_text (ApiKey.key r) key) (apiKeys (store w2))
            = option_map (revoked apiKeyId (clock w))
                (find (fun r => eq_text (ApiKey.key r) key) (apiKeys (store w)))).
  { intros key. unfold w2. cbn [store set_store apiKeys with_apiKeys].
    apply find_map_same_test. intros x.
    rewrite (proj1 (proj2 (proj2 (revoked_columns apiKeyId (clock w) x)))). reflexivity. }
  exists w2.
  split; [exact (revokeApiKey_runs apiKeyId w w1 h E)|].
  split; [unfold w2; cbn [store set_store apiKeys with_apiKeys]; apply length_map|].
  split.
  - intros key k Hk. exists (revoked apiKeyId (clock w) k).
    split.
    { rewrite (getApiKeyByKey_runs key w2 w2 h E2), Hfind, Hk. reflexivity. }
    destruct (revoked_columns apiKeyId (clock w) k) as [C1 [C2 [C3 [C4 [C5 [_ [_ C8]]]]]]].
    repeat split; assumption.
  - intros key k req next Hk Hid Hreq Hne.
    assert (Htruthy : truthy_string key = true).
    { destruct key; [congruence|reflexivity]. }
    rewrite (authenticateApiKey_runs req next key w2 w2 h Hreq Htruthy E2).
    rewrite Hfind, Hk. cbn [option_map].
    rewrite (proj2 (proj2 (proj2 (proj2 (proj2 (proj2 (proj2
               (revoked_columns apiKeyId (clock w) k)))))))).
    rewrite Hid, Z.eqb_refl. reflexivity.
Qed.

(** The live key of project 10 is revoked: two keys remain, and a request
    with the revoked text is turned away. *)
Lemma revokeApiKey_then_authenticateApiKey_witness :
  exists w2,
    revokeApiKey 7 (world_up tenant_database) = (Returns (mkResult 0), w2) /\
    List.length (apiKeys (store w2)) = 2%nat /\
    GET_v1_data (request_with (Query.mk None None None None) "" empty_body) w2
      = (Returns invalid_api_key, w2).
Proof.
  destruct (revokeApiKey_then_authenticateApiKey 7 (world_up tenant_database)
              (world_up tenant_database) (Drizzle "mysql://db") eq_refl)
    as [w2 [Hrun [Hlen [_ Hauth]]]].
  exists w2.
  split; [exact Hrun|]. split; [exact Hlen|].
  assert (Hne : "sk_live_1" <> "") by discriminate.
  exact (Hauth "sk_live_1" key_live
           (request_with (Query.mk None None None None) "" empty_body)
           get_data_handler eq_refl eq_refl eq_refl Hne).
Defined.

(* ------------------------------------------------------------------ *)
(** ** Dynamic data: insert, fetch, update, delete, search (db.ts, api.ts) *)

Definition inserted_record (projectId : Z) (doc : JSON)
    (userId dataType : option string) (isPublic : option bool) (d : Database) (now : Date)
  : DynamicData.t :=
  DynamicData.mk (seq_dynamicData d) projectId userId dataType doc
                 (or_else isPublic false) now now.

Lemma insertDynamicData_runs (projectId : Z) (doc : JSON)
    (userId dataType : option string) (isPublic : option bool)
    (w w1 : World) (h : Handle) :
  getDb w = (Returns (Some h), w1) -> doc <> JNull ->
  insertDynamicData projectId (Some doc) userId dataType isPublic w =
  (Returns (mkResult (seq_dynamicData (store w))),
   set_store (with_dynamicData (store w)
                (dynamicData (store w)
                 ++ [inserted_record projectId doc userId dataType isPublic
                       (store w) (clock w)])
                (seq_dynamicData (store w) + 1)) w1).
Proof.
  intros E Hdoc. destruct (getDb_split w _ w1 E) as [Hs Hc].
  unfold insertDynamicData. cbv beta iota delta [bind]. rewrite E.
  cbv beta iota zeta delta [bind read_store new_Date].
  rewrite Hs, Hc.
  destruct doc; try congruence; reflexivity.
Qed.

Lemma getDynamicDataById_runs (dataId : Z) (w w1 : World) (h : Handle) :
  getDb w = (Returns (Some h), w1) ->
  getDynamicDataById dataId w =
  (Returns (find (fun r => eq_int (DynamicData.id r) dataId) (dynamicData (store w))), w1).
Proof.
  intros E. destruct (getDb_split w _ w1 E) as [Hs _].
  unfold getDynamicDataById. cbv beta iota delta [bind]. rewrite E.
  cbv beta iota delta [bind read_store ret]. rewrite Hs, first_match.
  destruct (find _ _); reflexivity.
Qed.

(** X10.  With a datastore at hand whose AUTO_INCREMENT value no record
    holds yet, [insertDynamicData] of a document other than null returns an
    insertId under which [getDynamicDataById] finds a record whose payload is
    the inserted document, under the given project, user id and type, public
    only if asked for.  Records that could be fetched before are fetched
    unchanged afterwards. *)
Theorem insertDynamicData_then_getDynamicDataById
    (projectId : Z) (doc : JSON) (userId dataType : option string)
    (isPublic : option bool) (w w1 : World) (h : Handle) :
  getDb w = (Returns (Some h), w1) ->
  doc <> JNull ->
  (forall r, In r (dynamicData (store w)) -> DynamicData.id r <> seq_dynamicData (store w)) ->
  exists (w2 : World) (row : DynamicData.t),
    insertDynamicData projectId (Some doc) userId dataType isPublic w
      = (Returns (mkResult (DynamicData.id row)), w2) /\
    getDynamicDataById (DynamicData.id row) w2 = (Returns (Some row), w2) /\
    DynamicData.data row = doc /\
    DynamicData.projectId row = projectId /\
    DynamicData.userId row = userId /\
    DynamicData.dataType row = dataType /\
    DynamicData.isPublic row = or_else isPublic false /\
    (forall i r, getDynamicDataById i w = (Returns (Some r), w1) ->
                 getDynamicDataById i w2 = (Returns (Some r), w2)).
Proof.
  intros E Hdoc Hfresh.
  pose proof (getDb_keeps_handle w w1 h E) as Hdb.
  set (row := inserted_record projectId doc userId dataType isPublic (store w) (clock w)).
  eexists. exists row.
  split; [exact (insertDynamicData_runs projectId doc userId dataType isPublic w w1 h E Hdoc)|].
  split.
  { rewrite (getDynamicDataById_runs _ _ _ h (getDb_after_write w1 h _ Hdb)).
    cbn [store set_store dynamicData with_dynamicData].
    rewrite find_snoc, find_all_false.
    - unfold eq_int. cbn [DynamicData.id row inserted_record].
      rewrite Z.eqb_refl. reflexivity.
    - intros x Hx. apply Z.eqb_neq. exact (Hfresh x Hx). }
  repeat split.
  intros i r Hi.
  rewrite (getDynamicDataById_runs i w w1 h E) in Hi. inversion Hi as [Hfind].
  rewrite (getDynamicDataById_runs _ _ _ h (getDb_after_write w1 h _ Hdb)).
  cbn [store set_store dynamicData with_dynamicData].
  rewrite find_snoc, Hfind. reflexivity.
Qed.

Lemma insertDynamicData_then_getDynamicDataById_witness :
  exists w2 row,
    insertDynamicData 10 (Some (JObject [("name", JString "John"); ("age", JNumber 30)]))
                      (Some "user_123") (Some "profile") None (world_up tenant_database)
      = (Returns (mkResult (DynamicData.id row)), w2) /\
    getDynamicDataById (DynamicData.id row) w2 = (Returns (Some row), w2) /\
    DynamicData.data row = JObject [("name", JString "John"); ("age", JNumber 30)] /\
    DynamicData.isPublic row = false.
Proof.
  assert (Hdoc : JObject [("name", JString "John"); ("age", JNumber 30)] <> JNull)
    by discriminate.
  assert (Hfresh : forall r, In r (dynamicData (store (world_up tenant_database))) ->
             DynamicData.id r <> seq_dynamicData (store (world_up tenant_database))).
  { intros r [H|[H|[H|[]]]]; subst r; discriminate. }
  destruct (insertDynamicData_then_getDynamicDataById 10
              (JObject [("name", JString "John"); ("age", JNumber 30)])
              (Some "user_123") (Some "profile") None
              (world_up tenant_database) (world_up tenant_database)
              (Drizzle "mysql://db") eq_refl Hdoc Hfresh)
    as [w2 [row [Hrun [Hget [Hdata [_ [_ [_ [Hpub _]]]]]]]]].
  exists w2, row. repeat split; assumption.
Defined.

Lemma truthy_JSON_not_null (doc : JSON) : truthy_JSON doc = true -> doc <> JNull.
Proof. intros H Hn. subst doc. discriminate. Qed.

(** X11.  A create request that passed the middleware with a truthy
    [data], on a datastore at hand, is answered 201 "Data inserted
    successfully" with the new id, and what it stores is one record with that
    payload under the project of the key: the records of that project are
    the former ones followed by the new one, and the records of every other
    project are what they were.  Nothing in the body can direct the record
    to another project. *)
Theorem post_data_handler_stores_under_key_project
    (b : Bound.t) (doc : JSON) (w w1 : World) (h : Handle) :
  getDb w = (Returns (Some h), w1) ->
  Body.data (Request.body (Bound.req b)) = Some doc ->
  truthy_JSON doc = true ->
  exists (w2 : World) (row : DynamicData.t),
    post_data_handler b w
      = (Returns (Response.mk 201 (done_payload "Data inserted successfully"
                                     (mkResult (seq_dynamicData (store w))))), w2) /\
    DynamicData.id row = seq_dynamicData (store w) /\
    DynamicData.projectId row = Bound.projectId b /\
    DynamicData.data row = doc /\
    DynamicData.userId row = Body.userId (Request.body (Bound.req b)) /\
    DynamicData.dataType row = Body.dataType (Request.body (Bound.req b)) /\
    dynamicData (store w2) = (dynamicData (store w) ++ [row])%list /\
    stored_for (Bound.projectId b) (store w2)
      = (stored_for (Bound.projectId b) (store w) ++ [row])%list /\
    (forall q, q <> Bound.projectId b -> stored_for q (store w2) = stored_for q (store w)).
Proof.
  intros E Hdata Htruthy.
  set (body := Request.body (Bound.req b)) in *.
  set (row := inserted_record (Bound.projectId b) doc (Body.userId body)
                (Body.dataType body) (Body.isPublic body) (store w) (clock w)).
  eexists. exists row.
  split.
  { unfold post_data_handler. cbv beta iota zeta delta [try_catch bind].
    fold body. rewrite Hdata. cbn [truthy_opt]. rewrite Htruthy. cbn [negb].
    rewrite (insertDynamicData_runs (Bound.projectId b) doc (Body.userId body)
               (Body.dataType body) (Body.isPublic body) w w1 h E
               (truthy_JSON_not_null doc Htruthy)).
    reflexivity. }
  cbn [store set_store dynamicData with_dynamicData].
  repeat split.
  - unfold stored_for. cbn [dynamicData with_dynamicData]. rewrite filter_snoc.
    unfold eq_int at 2. cbn [DynamicData.projectId row inserted_record].
    rewrite Z.eqb_refl. reflexivity.
  - intros q Hq. unfold stored_for. cbn [dynamicData with_dynamicData].
    rewrite filter_snoc.
    unfold eq_int at 2. cbn [DynamicData.projectId row inserted_record].
    assert (Hb : (Bound.projectId b =? q) = false) by (apply Z.eqb_neq; congruence).
    rewrite Hb, app_nil_r. reflexivity.
Qed.

Lemma post_data_handler_stores_under_key_project_witness :
  exists w2 row,
    post_data_handler
      (bound_with (Query.mk None None None None) ""
                  (Body.mk (Some (JString "hi")) (Some "u9") None None))
      (world_up tenant_database)
    = (Returns (Response.mk 201 (done_payload "Data inserted successfully" (mkResult 8))),
       w2) /\
    stored_for 10 (store w2) = [record_5; record_6; record_7; row] /\
    DynamicData.data row = JString "hi".
Proof.
  destruct (post_data_handler_stores_under_key_project
              (bound_with (Query.mk None None None None) ""
                          (Body.mk (Some (JString "hi")) (Some "u9") None None))
              (JString "hi") (world_up tenant_database) (world_up tenant_database)
              (Drizzle "mysql://db") eq_refl eq_refl eq_refl)
    as [w2 [row [Hrun [_ [_ [Hdata [_ [_ [_ [Hmine _]]]]]]]]]].
  exists w2, row.
  split; [exact Hrun|]. split; [exact Hmine|exact Hdata].
Defined.

Lemma deleteDynamicData_runs (dataId : Z) (w w1 : World) (h : Handle) :
  getDb w = (Returns (Some h), w1) ->
  deleteDynamicData dataId w =
  (Returns (mkResult 0),
   set_store (with_dynamicData (store w)
                (filter (fun r => negb (eq_int (DynamicData.id r) dataId))
                        (dynamicData (store w)))
                (seq_dynamicData (store w))) w1).
Proof.
  intros E. destruct (getDb_split w _ w1 E) as [Hs _].
  unfold deleteDynamicData. cbv beta iota delta [bind]. rewrite E.
  cbv beta iota zeta delta [bind read_store write_store ret].
  rewrite Hs. reflexivity.
Qed.

(** X12.  A delete request that passed the middleware, with an id that
    converts to a BigInt and a datastore at hand, is answered 200 "Data
    deleted successfully", whether or not a record has that id.  Afterwards
    no record has the id and a fetch by it yields null; every record with
    another id is still there.  The project of the key plays no part: a
    record with that id is removed whatever project it belongs to. *)
Theorem delete_data_handler_removes_by_id
    (b : Bound.t) (dataId : Z) (w w1 : World) (h : Handle) :
  getDb w = (Returns (Some h), w1) ->
  BigInt (Request.params_id (Bound.req b)) = Returns dataId ->
  exists w2 : World,
    delete_data_handler b w
      = (Returns (Response.mk 200 (done_payload "Data deleted successfully" (mkResult 0))),
         w2) /\
    getDynamicDataById dataId w2 = (Returns None, w2) /\
    (forall r, In r (dynamicData (store w2)) <->
               In r (dynamicData (store w)) /\ DynamicData.id r <> dataId) /\
    (forall r, In r (dynamicData (store w)) -> DynamicData.id r = dataId ->
               DynamicData.projectId r <> Bound.projectId b ->
               ~ In r (dynamicData (store w2))).
Proof.
  intros E Hid.
  pose proof (getDb_keeps_handle w w1 h E) as Hdb.
  eexists. split.
  { unfold delete_data_handler. cbv beta iota zeta delta [try_catch bind].
    rewrite Hid. cbv beta iota zeta delta [bind].
    rewrite (deleteDynamicData_runs dataId w w1 h E). reflexivity. }
  assert (Hin : forall r,
            In r (filter (fun r => negb (eq_int (DynamicData.id r) dataId))
                         (dynamicData (store w))) <->
            In r (dynamicData (store w)) /\ DynamicData.id r <> dataId).
  { intros r. rewrite filter_In. unfold eq_int.
    rewrite negb_true_iff, Z.eqb_neq. reflexivity. }
  split; [|split].
  - rewrite (getDynamicDataById_runs _ _ _ h (getDb_after_write w1 h _ Hdb)).
    cbn [store set_store dynamicData with_dynamicData].
    rewrite find_all_false; [reflexivity|].
    intros x Hx. apply Hin in Hx. destruct Hx as [_ Hx].
    apply Z.eqb_neq. exact Hx.
  - intros r. cbn [store set_store dynamicData with_dynamicData]. apply Hin.
  - intros r _ Hr _ Habs. cbn [store set_store dynamicData with_dynamicData] in Habs.
    apply Hin in Habs. destruct Habs as [_ Habs]. exact (Habs Hr).
Qed.

(** A record of project 20, out of reach of the keys of project 10. *)
Definition record_foreign : DynamicData.t :=
  DynamicData.mk 9 20 None None (JString "theirs") false 9 9.

Definition two_tenants_database : Database :=
  mkDatabase [] [admin_ann; admin_bob] [project_ten] [key_live; key_revoked]
             [record_5; record_foreign] 1 3 11 9 10.

(** The key of project 10 deletes record 9 of project 20. *)
Lemma delete_data_handler_removes_by_id_witness :
  exists w2,
    delete_data_handler (bound_with (Query.mk None None None None) "9" empty_body)
                        (world_up two_tenants_database)
    = (Returns (Response.mk 200 (done_payload "Data deleted successfully" (mkResult 0))),
       w2) /\
    ~ In record_foreign (dynamicData (store w2)) /\
    In record_5 (dynamicData (store w2)).
Proof.
  destruct (delete_data_handler_removes_by_id
              (bound_with (Query.mk None None None None) "9" empty_body) 9
              (world_up two_tenants_database) (world_up two_tenants_database)
              (Drizzle "mysql://db") eq_refl eq_refl)
    as [w2 [Hrun [_ [Hin Hforeign]]]].
  exists w2. split; [exact Hrun|]. split.
  - apply Hforeign; [right; left; reflexivity|reflexivity|discriminate].
  - apply Hin. split; [left; reflexivity|discriminate].
Defined.

Definition rewritten (dataId : Z) (doc : JSON) (now : Date) (r : DynamicData.t)
  : DynamicData.t :=
  if eq_int (DynamicData.id r) dataId then
    DynamicData.mk (DynamicData.id r) (DynamicData.projectId r) (DynamicData.userId r)
                   (DynamicData.dataType r) doc (DynamicData.isPublic r)
                   (DynamicData.createdAt r) now
  else r.

Lemma updateDynamicData_runs (dataId : Z) (doc : JSON) (w w1 : World) (h : Handle) :
  getDb w = (Returns (Some h), w1) -> doc <> JNull ->
  updateDynamicData dataId (Some doc) w =
  (Returns (mkResult 0),
   set_store (with_dynamicData (store w)
                (map (rewritten dataId doc (clock w)) (dynamicData (store w)))
                (seq_dynamicData (store w))) w1).
Proof.
  intros E Hdoc. destruct (getDb_split w _ w1 E) as [Hs Hc].
  unfold updateDynamicData. cbv beta iota delta [bind]. rewrite E.
  cbv beta iota zeta delta [bind new_Date read_store].
  rewrite Hs, Hc.
  destruct doc; try congruence; reflexivity.
Qed.

(** X13.  An update request that passed the middleware with a truthy
    [data], an id that converts to a BigInt and a datastore at hand is
    answered 200 "Data updated successfully", whether or not a record has
    that id.  The table keeps its length; a record with the id carries the
    new payload and now as updatedAt and keeps its id, project, user id,
    type, visibility and creation time; every other record is untouched.
    The project of the key plays no part. *)
Theorem put_data_handler_rewrites_by_id
    (b : Bound.t) (dataId : Z) (doc : JSON) (w w1 : World) (h : Handle) :
  getDb w = (Returns (Some h), w1) ->
  BigInt (Request.params_id (Bound.req b)) = Returns dataId ->
  Body.data (Request.body (Bound.req b)) = Some doc ->
  truthy_JSON doc = true ->
  exists (w2 : World) (f : DynamicData.t -> DynamicData.t),
    put_data_handler b w
      = (Returns (Response.mk 200 (done_payload "Data updated successfully" (mkResult 0))),
         w2) /\
    dynamicData (store w2) = map f (dynamicData (store w)) /\
    (forall r, DynamicData.id r <> dataId -> f r = r) /\
    (forall r, DynamicData.id r = dataId ->
       DynamicData.data (f r) = doc /\
       DynamicData.updatedAt (f r) = clock w /\
       DynamicData.id (f r) = DynamicData.id r /\
       DynamicData.projectId (f r) = DynamicData.projectId r /\
       DynamicData.userId (f r) = DynamicData.userId r /\
       DynamicData.dataType (f r) = DynamicData.dataType r /\
       DynamicData.isPublic (f r) = DynamicData.isPublic r /\
       DynamicData.createdAt (f r) = DynamicData.createdAt r).
Proof.
  intros E Hid Hdata Htruthy.
  eexists. exists (rewritten dataId doc (clock w)).
  split.
  { unfold put_data_handler. cbv beta iota zeta delta [try_catch bind].
    rewrite Hid. cbv beta iota zeta. rewrite Hdata. cbn [truthy_opt].
    rewrite Htruthy. cbn [negb]. cbv beta iota zeta delta [bind].
    rewrite (updateDynamicData_runs dataId doc w w1 h E
               (truthy_JSON_not_null doc Htruthy)).
    reflexivity. }
  split; [reflexivity|].
  split.
  - intros r Hne. unfold rewritten, eq_int.
    apply Z.eqb_neq in Hne. rewrite Hne. reflexivity.
  - intros r Heq. unfold rewritten, eq_int.
    apply Z.eqb_eq in Heq. rewrite Heq. repeat split.
Qed.

Lemma put_data_handler_rewrites_by_id_witness :
  exists w2 r,
    put_data_handler
      (bound_with (Query.mk None None None None) "9"
                  (Body.mk (Some (JString "ours now")) None None None))
      (world_up two_tenants_database)
    = (Returns (Response.mk 200 (done_payload "Data updated successfully" (mkResult 0))),
       w2) /\
    dynamicData (store w2) = [record_5; r] /\
    DynamicData.projectId r = 20 /\ DynamicData.data r = JString "ours now".
Proof.
  destruct (put_data_handler_rewrites_by_id
              (bound_with (Query.mk None None None None) "9"
                          (Body.mk (Some (JString "ours now")) None None None))
              9 (JString "ours now")
              (world_up two_tenants_database) (world_up two_tenants_database)
              (Drizzle "mysql://db") eq_refl eq_refl eq_refl eq_refl)
    as [w2 [f [Hrun [Hmap [Hother Hsame]]]]].
  exists w2, (f record_foreign).
  split; [exact Hrun|].
  split.
  - rewrite Hmap. simpl. rewrite (Hother record_5) by discriminate. reflexivity.
  - destruct (Hsame record_foreign eq_refl) as [Hd [_ [_ [Hp _]]]].
    split; assumption.
Defined.

Lemma eq_text_nullable_true (a : option string) (b : string) :
  eq_text_nullable a b = true <-> a = Some b.
Proof.
  unfold eq_text_nullable. destruct a as [x|].
  - rewrite String.eqb_eq. split; congruence.
  - split; discriminate.
Qed.

(** A filter of the search that is given and not empty. *)
Definition filter_given (f : option string) (s : string) : Prop :=
  f = Some s /\ s <> "".

Lemma searchDynamicData_runs (projectId : Z) (userId dataType : option string)
    (w w1 : World) (h : Handle) :
  getDb w = (Returns (Some h), w1) ->
  exists rows,
    searchDynamicData projectId userId dataType w = (Returns rows, w1) /\
    (forall r, In r rows <->
       In r (dynamicData (store w)) /\
       DynamicData.projectId r = projectId /\
       (forall s, filter_given userId s -> DynamicData.userId r = Some s) /\
       (forall s, filter_given dataType s -> DynamicData.dataType r = Some s)).
Proof.
  intros E. destruct (getDb_split w _ w1 E) as [Hs _].
  unfold searchDynamicData. cbv beta iota delta [bind]. rewrite E.
  cbv beta iota zeta delta [bind read_store ret]. rewrite Hs.
  eexists. split; [reflexivity|].
  intros r. rewrite filter_In. unfold filter_given, eq_int.
  destruct userId as [[|c u]|], dataType as [[|c' t]|];
    cbn [truthy_string app forallb]; rewrite ?andb_true_r, ?andb_true_iff,
      ?eq_text_nullable_true, ?Z.eqb_eq;
    (split; [intros [Hin Hrest]; split; [exact Hin|]
            |intros [Hin [Hp [Hu Ht]]]; split; [exact Hin|]]);
    repeat match goal with
           | H : _ /\ _ |- _ => destruct H
           end;
    repeat split; try assumption;
    try (intros s [Hs' Hne]; congruence);
    try (apply Hu; split; [reflexivity|discriminate]);
    try (apply Ht; split; [reflexivity|discriminate]).
Qed.

(** X14.  On a datastore at hand [searchDynamicData] returns exactly the
    stored records that belong to the project and match each filter that is
    given and not empty: the user id, the data type, or both; a filter that
    is absent or empty does not restrict the result.  The search endpoint,
    for a request that passed the middleware, runs this search on the
    project of the key: when no record matches it answers 200 with the
    filters echoed and an empty list; when a record matches it answers 500,
    because the BigInt id of a record cannot be serialized.  The search
    writes nothing. *)
Theorem search_data_handler_spec (b : Bound.t) (w w1 : World) (h : Handle) :
  getDb w = (Returns (Some h), w1) ->
  let userId := Query.userId (Request.query (Bound.req b)) in
  let dataType := Query.dataType (Request.query (Bound.req b)) in
  exists rows,
    searchDynamicData (Bound.projectId b) userId dataType w = (Returns rows, w1) /\
    (forall r, In r rows <->
       In r (dynamicData (store w)) /\
       DynamicData.projectId r = Bound.projectId b /\
       (forall s, filter_given userId s -> DynamicData.userId r = Some s) /\
       (forall s, filter_given dataType s -> DynamicData.dataType r = Some s)) /\
    (rows = [] ->
     search_data_handler b w
       = (Returns (Response.mk 200 (search_payload [] userId dataType)), w1)) /\
    (rows <> [] ->
     search_data_handler b w
       = (Returns (Response.mk 500
                     (error_payload (Text "Do not know how to serialize a BigInt"))),
          w1)) /\
    store w1 = store w.
Proof.
  intros E userId dataType.
  destruct (searchDynamicData_runs (Bound.projectId b) userId dataType w w1 h E)
    as [rows [Hrun Hin]].
  exists rows. split; [exact Hrun|]. split; [exact Hin|].
  assert (Hhandler :
    search_data_handler b w =
    (Returns match rows with
             | [] => Response.mk 200 (search_payload [] userId dataType)
             | _ :: _ => Response.mk 500 (error_payload (message_of cannot_serialize))
             end, w1)).
  { unfold search_data_handler. cbv beta iota zeta delta [try_catch bind].
    fold userId. fold dataType. rewrite Hrun. destruct rows; reflexivity. }
  split; [intros Hnil; rewrite Hhandler, Hnil; reflexivity|].
  split; [|exact (proj1 (getDb_split w _ w1 E))].
  intros Hsome. rewrite Hhandler. destruct rows; [contradiction|reflexivity].
Qed.

(** Searching project 10 for the records of user u1, with an empty type
    filter: record 7 matches and record 6 of user u2 does not, and the
    answer is 500.  Searching for the records of user u9, who has none:
    the answer is 200 with an empty list. *)
Lemma search_data_handler_spec_witness :
  (exists rows,
    searchDynamicData 10 (Some "u1") (Some "") (world_up tenant_database)
      = (Returns rows, world_up tenant_database) /\
    In record_7 rows /\ ~ In record_6 rows /\
    search_data_handler
      (bound_with (Query.mk None None (Some "u1") (Some "")) "" empty_body)
      (world_up tenant_database)
    = (Returns (Response.mk 500
                  (error_payload (Text "Do not know how to serialize a BigInt"))),
       world_up tenant_database)) /\
  search_data_handler
    (bound_with (Query.mk None None (Some "u9") None) "" empty_body)
    (world_up tenant_database)
  = (Returns (Response.mk 200 (search_payload [] (Some "u9") None)),
     world_up tenant_database).
Proof.
  split.
  - destruct (search_data_handler_spec
                (bound_with (Query.mk None None (Some "u1") (Some "")) "" empty_body)
                (world_up tenant_database) (world_up tenant_database)
                (Drizzle "mysql://db") eq_refl)
      as [rows [Hrun [Hin [_ [Hfails _]]]]].
    exists rows. split; [exact Hrun|].
    assert (H7 : In record_7 rows).
    { apply Hin. split; [right; right; left; reflexivity|].
      split; [reflexivity|]. split.
      + intros s [Hs Hne]. inversion Hs. reflexivity.
      + intros s [Hs Hne]. inversion Hs. subst s. elim Hne. reflexivity. }
    split; [exact H7|]. split.
    + intros Habs. apply Hin in Habs. destruct Habs as [_ [_ [Hu _]]].
      assert (Hg : filter_given (Some "u1") "u1") by (split; [reflexivity|discriminate]).
      specialize (Hu "u1" Hg). discriminate.
    + apply Hfails. intros Hnil. rewrite Hnil in H7. exact H7.
  - destruct (search_data_handler_spec
                (bound_with (Query.mk None None (Some "u9") None) "" empty_body)
                (world_up tenant_database) (world_up tenant_database)
                (Drizzle "mysql://db") eq_refl)
      as [rows [Hrun [_ [Hempty _]]]].
    apply Hempty. vm_compute in Hrun. inversion Hrun. reflexivity.
Defined.

(* ------------------------------------------------------------------ *)
(** ** What the REST facade returns and what it leaves alone (api.ts) *)

Lemma in_firstn_skipn {A : Type} (n m : nat) (l : list A) (x : A) :
  In x (firstn n (skipn m l)) -> In x l.
Proof.
  intros H.
  rewrite <- (firstn_skipn m l). apply in_or_app. right.
  rewrite <- (firstn_skipn n (skipn m l)). apply in_or_app. left. exact H.
Qed.

Lemma get_data_handler_keeps_store (b : Bound.t) (w : World) :
  store (snd (get_data_handler b w)) = store w.
Proof.
  unfold get_data_handler, getDynamicDataByProjectId.
  cbv beta iota zeta delta [try_catch bind or_else].
  destruct (getDb w) as [r w1] eqn:E.
  destruct (getDb_split w r w1 E) as [Hs _].
  destruct r as [[h|]|e]; try exact Hs.
  cbv beta iota delta [read_store].
  destruct (limit_offset _ _ _) as [rows|e]; [|exact Hs].
  cbv beta iota delta [ret]. destruct rows; exact Hs.
Qed.

(** X15.  On a datastore at hand and for a limit and an offset that are
    not negative, [getDynamicDataByProjectId] returns the page: stored
    records of the project only, at most as many as the limit.  The list
    endpoint asks for the page of the project of the key, but no record
    leaves through it: a page it sends is empty and its total is 0, and a
    page that holds a record is answered 500, because the BigInt id of a
    record cannot be serialized.  Listing writes nothing. *)
Theorem get_data_handler_sends_no_record (b : Bound.t) (w : World) :
  let limit := effective_limit (Request.query (Bound.req b)) in
  let offset := effective_offset (Request.query (Bound.req b)) in
  (forall resp w' data l o total,
     get_data_handler b w = (Returns resp, w') ->
     Response.json resp = list_payload data l o total ->
     data = [] /\ total = 0) /\
  (forall h w1,
     getDb w = (Returns (Some h), w1) -> 0 <= limit -> 0 <= offset ->
     getDynamicDataByProjectId (Bound.projectId b) (Some limit) (Some offset) w
       = (Returns (page_of b (store w)), w1) /\
     (forall r, In r (page_of b (store w)) ->
        In r (dynamicData (store w)) /\ DynamicData.projectId r = Bound.projectId b) /\
     Z.of_nat (List.length (page_of b (store w))) <= limit /\
     (forall r, In r (page_of b (store w)) ->
        get_data_handler b w
        = (Returns (Response.mk 500
                      (error_payload (Text "Do not know how to serialize a BigInt"))),
           w1))) /\
  store (snd (get_data_handler b w)) = store w.
Proof.
  intros limit offset. split; [|split].
  - intros resp w' data l o total Hrun Hjson.
    destruct (get_data_handler_cases b w) as [w1 [[m Hcase]|[Hl [Ho [Hnil Hcase]]]]];
      rewrite Hcase in Hrun; inversion Hrun; subst resp; simpl in Hjson.
    + discriminate.
    + inversion Hjson. rewrite Hnil. split; reflexivity.
  - intros h w1 E Hl Ho. split; [|split; [|split]].
    + destruct (getDb_split w _ w1 E) as [Hs _].
      unfold getDynamicDataByProjectId.
      cbv beta iota zeta delta [bind or_else]. rewrite E.
      cbv beta iota delta [read_store]. rewrite Hs.
      unfold limit_offset.
      apply Z.ltb_ge in Hl. apply Z.ltb_ge in Ho. rewrite Hl, Ho. reflexivity.
    + intros r Hr.
      unfold page_of in Hr. apply in_firstn_skipn in Hr.
      unfold stored_for in Hr. apply filter_In in Hr. destruct Hr as [Hin Hp].
      apply Z.eqb_eq in Hp. split; assumption.
    + exact (proj1 (page_length b (store w) Hl)).
    + intros r Hr. rewrite (get_data_handler_page b w w1 h E Hl Ho).
      destruct (page_of b (store w)); [contradiction|reflexivity].
  - apply get_data_handler_keeps_store.
Qed.

(** With a limit far beyond what is stored, the page for the key of
    project 10 holds record 5 only, not the record of project 20, and the
    answer is 500; with the offset 5 the page is empty and the answer is
    200 with the total 0. *)
Lemma get_data_handler_sends_no_record_witness :
  getDynamicDataByProjectId 10 (Some 1000) (Some 0) (world_up two_tenants_database)
  = (Returns [record_5], world_up two_tenants_database) /\
  get_data_handler (bound_with (Query.mk (Some "1000") None None None) "" empty_body)
                   (world_up two_tenants_database)
  = (Returns (Response.mk 500
                (error_payload (Text "Do not know how to serialize a BigInt"))),
     world_up two_tenants_database) /\
  (exists data total,
     get_data_handler (bound_with (Query.mk None (Some "5") None None) "" empty_body)
                      (world_up two_tenants_database)
     = (Returns (Response.mk 200 (list_payload data 100 5 total)),
        world_up two_tenants_database) /\
     data = [] /\ total = 0).
Proof.
  destruct (get_data_handler_sends_no_record
              (bound_with (Query.mk (Some "1000") None None None) "" empty_body)
              (world_up two_tenants_database)) as [_ [Hpage _]].
  assert (Hl : 0 <= 1000) by (vm_compute; discriminate).
  assert (Ho : 0 <= 0) by (vm_compute; discriminate).
  destruct (Hpage (Drizzle "mysql://db") (world_up two_tenants_database) eq_refl Hl Ho)
    as [Hrun [_ [_ Hfails]]].
  split; [exact Hrun|]. split; [exact (Hfails record_5 (or_introl eq_refl))|].
  destruct (get_data_handler_sends_no_record
              (bound_with (Query.mk None (Some "5") None None) "" empty_body)
              (world_up two_tenants_database)) as [Hsent _].
  exists [], 0. split; [reflexivity|].
  exact (Hsent (Response.mk 200 (list_payload [] 100 5 0)) (world_up two_tenants_database)
               [] 100 5 0 eq_refl eq_refl).
Defined.

(** X16.  The handlers never throw: each answers in every world, also
    without a datastore, and with one of its statuses only: 200 or 500 for
    list, delete and search, 201, 400 or 500 for create, 200, 400 or 500 for
    update, 200, 404 or 500 for the project, always 200 for the health
    check. *)
Theorem handlers_always_respond (b : Bound.t) (w : World) :
  (exists r w', get_data_handler b w = (Returns r, w') /\
                In (Response.status r) [200; 500]) /\
  (exists r w', post_data_handler b w = (Returns r, w') /\
                In (Response.status r) [201; 400; 500]) /\
  (exists r w', put_data_handler b w = (Returns r, w') /\
                In (Response.status r) [200; 400; 500]) /\
  (exists r w', delete_data_handler b w = (Returns r, w') /\
                In (Response.status r) [200; 500]) /\
  (exists r w', search_data_handler b w = (Returns r, w') /\
                In (Response.status r) [200; 500]) /\
  (exists r w', project_handler b w = (Returns r, w') /\
                In (Response.status r) [200; 404; 500]) /\
  (exists r w', health_handler (Bound.req b) w = (Returns r, w') /\
                Response.status r = 200).
Proof.
  repeat split.
  - destruct (get_data_handler_cases b w) as [w1 [[m Hcase]|[_ [_ [_ Hcase]]]]];
      rewrite Hcase; eexists; eexists; (split; [reflexivity|simpl; auto]).
  - unfold post_data_handler. cbv beta iota zeta delta [try_catch bind].
    destruct (negb (truthy_opt truthy_JSON (Body.data (Request.body (Bound.req b))))).
    + eexists; eexists; (split; [reflexivity|simpl; auto]).
    + destruct (insertDynamicData _ _ _ _ _ w) as [[res|e] w'];
        eexists; eexists; (split; [reflexivity|simpl; auto]).
  - unfold put_data_handler. cbv beta iota zeta delta [try_catch bind].
    destruct (BigInt (Request.params_id (Bound.req b))) as [dataId|e].
    + destruct (negb (truthy_opt truthy_JSON (Body.data (Request.body (Bound.req b))))).
      * eexists; eexists; (split; [reflexivity|simpl; auto]).
      * destruct (updateDynamicData _ _ w) as [[res|e] w'];
          eexists; eexists; (split; [reflexivity|simpl; auto]).
    + eexists; eexists; (split; [reflexivity|simpl; auto]).
  - unfold delete_data_handler. cbv beta iota zeta delta [try_catch bind].
    destruct (BigInt (Request.params_id (Bound.req b))) as [dataId|e].
    + destruct (deleteDynamicData _ w) as [[res|e] w'];
        eexists; eexists; (split; [reflexivity|simpl; auto]).
    + eexists; eexists; (split; [reflexivity|simpl; auto]).
  - unfold search_data_handler. cbv beta iota zeta delta [try_catch bind].
    destruct (searchDynamicData _ _ _ w) as [[[|r0 res]|e] w'];
      eexists; eexists; (split; [reflexivity|simpl; auto]).
  - unfold project_handler. cbv beta iota zeta delta [try_catch bind].
    destruct (getProjectById _ w) as [[[p|]|e] w'];
      eexists; eexists; (split; [reflexivity|simpl; auto]).
  - eexists; eexists; split; reflexivity.
Qed.

(** X17.  Without a datastore the key cannot be resolved: for a request
    with a non-empty X-API-Key header the failure of [getApiKeyByKey] leaves
    the middleware uncaught, so each of the six key-protected routes ends in
    the error "Database not available" instead of a response, and no handler
    runs.  A request without header, or with an empty one, is still answered
    401, and the health check still answers 200. *)
Theorem routes_without_datastore (req : Request.t) (w w1 : World) :
  getDb w = (Returns None, w1) ->
  (forall key, Request.x_api_key req = Some key -> key <> "" ->
     (forall next, authenticateApiKey req next w = (Throws db_unavailable, w1)) /\
     GET_v1_data req w = (Throws db_unavailable, w1) /\
     POST_api_v1_data req w = (Throws db_unavailable, w1) /\
     PUT_api_v1_data_id req w = (Throws db_unavailable, w1) /\
     DELETE_api_v1_data_id req w = (Throws db_unavailable, w1) /\
     GET_api_v1_data_search req w = (Throws db_unavailable, w1) /\
     GET_api_v1_project req w = (Throws db_unavailable, w1)) /\
  (Request.x_api_key req = None \/ Request.x_api_key req = Some "" ->
   forall next, authenticateApiKey req next w = (Returns missing_api_key, w)) /\
  GET_api_v1_health req w
    = (Returns (Response.mk 200 (health_payload "API is healthy" (clock w))), w).
Proof.
  intros E. split; [|split].
  - intros key Hkey Hne.
    assert (Htruthy : truthy_string key = true).
    { destruct key; [congruence|reflexivity]. }
    assert (G : forall next, authenticateApiKey req next w = (Throws db_unavailable, w1)).
    { intros next. unfold authenticateApiKey, getApiKeyByKey. rewrite Hkey.
      cbv beta iota delta [truthy_opt or_else]. rewrite Htruthy.
      cbv beta iota delta [negb bind]. rewrite E. reflexivity. }
    split; [exact G|].
    unfold GET_v1_data, POST_api_v1_data, PUT_api_v1_data_id, DELETE_api_v1_data_id,
      GET_api_v1_data_search, GET_api_v1_project.
    repeat split; apply G.
  - intros [H|H] next; unfold authenticateApiKey; rewrite H; reflexivity.
  - reflexivity.
Qed.

Lemma routes_without_datastore_witness :
  GET_api_v1_project (request_with (Query.mk None None None None) "" empty_body) world_down
    = (Throws db_unavailable, world_down) /\
  GET_api_v1_project (Request.mk None (Query.mk None None None None) "" empty_body)
                     world_down
    = (Returns missing_api_key, world_down).
Proof.
  destruct (routes_without_datastore
              (request_with (Query.mk None None None None) "" empty_body)
              world_down world_down eq_refl) as [Hkey _].
  destruct (routes_without_datastore
              (Request.mk None (Query.mk None None None None) "" empty_body)
              world_down world_down eq_refl) as [_ [Hnone _]].
  assert (Hne : "sk_live_1" <> "") by discriminate.
  split.
  - exact (proj2 (proj2 (proj2 (proj2 (proj2 (proj2 (Hkey "sk_live_1" eq_refl Hne))))))).
  - exact (Hnone (or_introl eq_refl) project_handler).
Defined.

(** X18.  The project endpoint, for a request that passed the middleware on
    a datastore at hand, answers 404 "Project not found" when no project row
    has the id attached to the request, and otherwise 200 with the id, name,
    description, active flag and creation time of that row; the owner, the
    schema and the update time are not part of the answer, and an inactive
    project is served like an active one.  Nothing is written. *)
Theorem project_handler_spec (b : Bound.t) (w w1 : World) (h : Handle) :
  getDb w = (Returns (Some h), w1) ->
  (fetched (Bound.projectId b) w = None ->
   project_handler b w
   = (Returns (Response.mk 404 (error_payload (Text "Project not found"))), w1)) /\
  (forall p, fetched (Bound.projectId b) w = Some p ->
   Project.id p = Bound.projectId b /\
   project_handler b w
   = (Returns (Response.mk 200
                 (project_payload (Project.id p) (Project.name p) (Project.description p)
                                  (Project.isActive p) (Project.createdAt p))), w1)) /\
  store w1 = store w.
Proof.
  intros E.
  pose proof (getProjectById_runs (Bound.projectId b) w w1 h E) as Hget.
  split; [|split].
  - intros Hf. unfold project_handler. cbv beta iota zeta delta [try_catch bind].
    rewrite Hget, Hf. reflexivity.
  - intros p Hf. split.
    + unfold fetched in Hf. apply find_some in Hf. destruct Hf as [_ Hid].
      apply Z.eqb_eq. exact Hid.
    + unfold project_handler. cbv beta iota zeta delta [try_catch bind].
      rewrite Hget, Hf. reflexivity.
  - exact (proj1 (getDb_split w _ w1 E)).
Qed.

Lemma project_handler_spec_witness :
  project_handler (bound_with (Query.mk None None None None) "" empty_body)
                  (world_up tenant_database)
  = (Returns (Response.mk 200 (project_payload 10 "P1" (Some "first project") true 5)),
     world_up tenant_database) /\
  project_handler (Bound.mk (request_with (Query.mk None None None None) "" empty_body)
                            key_live 77)
                  (world_up tenant_database)
  = (Returns (Response.mk 404 (error_payload (Text "Project not found"))),
     world_up tenant_database).
Proof.
  split.
  - destruct (project_handler_spec
                (bound_with (Query.mk None None None None) "" empty_body)
                (world_up tenant_database) (world_up tenant_database)
                (Drizzle "mysql://db") eq_refl) as [_ [Hsome _]].
    exact (proj2 (Hsome project_ten eq_refl)).
  - destruct (project_handler_spec
                (Bound.mk (request_with (Query.mk None None None None) "" empty_body)
                          key_live 77)
                (world_up tenant_database) (world_up tenant_database)
                (Drizzle "mysql://db") eq_refl) as [Hnone _].
    exact (Hnone eq_refl).
Defined.

(** X19.  Soft-deleting a project does not disable its keys.  After
    [deleteProject], a request that carries an active key of that project
    still passes the middleware, and the project endpoint answers 200 with
    the project's id, name, description and creation time and the active
    flag false. *)
Theorem deleted_project_still_served
    (projectId : Z) (p : Project.t) (k : ApiKey.t) (req : Request.t)
    (w w1 : World) (h : Handle) :
  getDb w = (Returns (Some h), w1) ->
  fetched projectId w = Some p ->
  Request.x_api_key req = Some (ApiKey.key k) -> ApiKey.key k <> "" ->
  find (fun r => eq_text (ApiKey.key r) (ApiKey.key k)) (apiKeys (store w)) = Some k ->
  ApiKey.isActive k = true -> ApiKey.projectId k = projectId ->
  exists w2 : World,
    deleteProject projectId w = (Returns (mkResult 0), w2) /\
    GET_api_v1_project req w2
    = (Returns (Response.mk 200
                  (project_payload (Project.id p) (Project.name p) (Project.description p)
                                   false (Project.createdAt p))), w2).
Proof.
  intros E Hp Hreq Hne Hk Hactive Hproj.
  pose proof (getDb_keeps_handle w w1 h E) as Hdb.
  set (w2 := set_store (with_projects (store w)
                          (map (deactivated projectId (clock w)) (projects (store w)))
                          (seq_projects (store w))) w1).
  assert (E2 : getDb w2 = (Returns (Some h), w2)) by (apply getDb_cached; exact Hdb).
  exists w2. split; [exact (deleteProject_runs projectId w w1 h E)|].
  assert (Htruthy : truthy_string (ApiKey.key k) = true).
  { destruct (ApiKey.key k); [congruence|reflexivity]. }
  unfold GET_api_v1_project.
  rewrite (authenticateApiKey_runs req project_handler (ApiKey.key k) w2 w2 h
             Hreq Htruthy E2).
  change (apiKeys (store w2)) with (apiKeys (store w)).
  rewrite Hk, Hactive. cbn [negb].
  unfold project_handler. cbv beta iota zeta delta [try_catch bind].
  cbn [Bound.projectId]. rewrite Hproj.
  rewrite (getProjectById_runs projectId w2 w2 h E2).
  assert (Hf : fetched projectId w2 = Some (deactivated projectId (clock w) p)).
  { unfold fetched, w2. cbn [store set_store projects with_projects].
    rewrite (find_map_same_test _ (deactivated projectId (clock w))).
    - unfold fetched in Hp. rewrite Hp. reflexivity.
    - intros x. rewrite (proj1 (deactivated_columns projectId (clock w) x)). reflexivity. }
  rewrite Hf.
  destruct (deactivated_columns projectId (clock w) p)
    as [C1 [_ [C3 [C4 [_ [C6 C7]]]]]].
  unfold fetched in Hp. apply find_some in Hp. destruct Hp as [_ Hid].
  apply Z.eqb_eq in Hid. rewrite Hid, Z.eqb_refl in C7.
  rewrite C1, C3, C4, C6, C7. reflexivity.
Qed.

Lemma deleted_project_still_served_witness :
  exists w2,
    deleteProject 10 (world_up tenant_database) = (Returns (mkResult 0), w2) /\
    GET_api_v1_project (request_with (Query.mk None None None None) "" empty_body) w2
    = (Returns (Response.mk 200 (project_payload 10 "P1" (Some "first project") false 5)),
       w2).
Proof.
  assert (Hne : ApiKey.key key_live <> "") by discriminate.
  exact (deleted_project_still_served 10 project_ten key_live
           (request_with (Query.mk None None None None) "" empty_body)
           (world_up tenant_database) (world_up tenant_database)
           (Drizzle "mysql://db") eq_refl eq_refl eq_refl Hne eq_refl eq_refl eq_refl).
Defined.

(** The tables a tenant configures: users, admins, projects and keys. *)
Definition configuration (d : Database)
  : list User.t * list AdminUser.t * list Project.t * list ApiKey.t :=
  (users d, adminUsers d, projects d, apiKeys d).

Lemma authenticateApiKey_keeps {X : Type} (g : Database -> X)
    (req : Request.t) (next : Bound.t -> Async Response.t) (w : World) :
  (forall b w0, g (store (snd (next b w0))) = g (store w0)) ->
  g (store (snd (authenticateApiKey req next w))) = g (store w).
Proof.
  intros Hnext. unfold authenticateApiKey.
  destruct (negb (truthy_opt truthy_string (Request.x_api_key req))); [reflexivity|].
  unfold getApiKeyByKey. cbv beta iota delta [bind].
  destruct (getDb w) as [r w1] eqn:E.
  destruct (getDb_split w r w1 E) as [Hs _].
  destruct r as [[h|]|e]; simpl; try (rewrite Hs; reflexivity).
  destruct (first_or_null _) as [k|]; simpl; try (rewrite Hs; reflexivity).
  destruct (negb (ApiKey.isActive k)); simpl; try (rewrite Hs; reflexivity).
  rewrite Hnext, Hs. reflexivity.
Qed.

Ltac frame_of_operation w :=
  cbv beta iota zeta delta [try_catch bind or_else];
  let r := fresh "r" in let w1 := fresh "w1" in let E := fresh "E" in
  let Hs := fresh "Hs" in
  destruct (getDb w) as [r w1] eqn:E;
  destruct (getDb_split w r w1 E) as [Hs _];
  destruct r as [[?|]|?]; simpl; try (rewrite Hs; reflexivity).

Lemma insertDynamicData_keeps_configuration
    (p : Z) (data : option JSON) (u t : option string) (pub : option bool) (w : World) :
  configuration (store (snd (insertDynamicData p data u t pub w)))
  = configuration (store w).
Proof.
  unfold insertDynamicData. frame_of_operation w.
  destruct data as [[]|]; simpl; rewrite Hs; reflexivity.
Qed.

Lemma updateDynamicData_keeps_configuration (i : Z) (data : option JSON) (w : World) :
  configuration (store (snd (updateDynamicData i data w))) = configuration (store w).
Proof.
  unfold updateDynamicData. frame_of_operation w.
  destruct data as [[]|]; simpl; try (rewrite Hs; reflexivity).
  destruct (existsb _ _); simpl; rewrite Hs; reflexivity.
Qed.

Lemma deleteDynamicData_keeps_configuration (i : Z) (w : World) :
  configuration (store (snd (deleteDynamicData i w))) = configuration (store w).
Proof. unfold deleteDynamicData. frame_of_operation w. Qed.

Lemma searchDynamicData_keeps_store (p : Z) (u t : option string) (w : World) :
  store (snd (searchDynamicData p u t w)) = store w.
Proof. unfold searchDynamicData. frame_of_operation w. Qed.

Lemma getProjectById_keeps_store (p : Z) (w : World) :
  store (snd (getProjectById p w)) = store w.
Proof. unfold getProjectById. frame_of_operation w. Qed.

Lemma try_catch_status_500_keeps {X : Type} (g : Database -> X)
    (m : Async Response.t) (w : World) :
  g (store (snd (m w))) = g (store w) ->
  g (store (snd (try_catch m status_500 w))) = g (store w).
Proof.
  unfold try_catch. destruct (m w) as [[r|e] w']; simpl; auto.
Qed.

(** X20.  Nothing a caller sends to the REST facade changes the tables of
    users, admins, projects or keys: whatever the request and whatever the
    outcome, each of the six key-protected routes leaves them as they were.
    In particular no route activates, revokes or creates a key, none records
    a key's last use, and none alters a project. *)
Theorem rest_facade_keeps_configuration (req : Request.t) (w : World) :
  configuration (store (snd (GET_v1_data req w))) = configuration (store w) /\
  configuration (store (snd (POST_api_v1_data req w))) = configuration (store w) /\
  configuration (store (snd (PUT_api_v1_data_id req w))) = configuration (store w) /\
  configuration (store (snd (DELETE_api_v1_data_id req w))) = configuration (store w) /\
  configuration (store (snd (GET_api_v1_data_search req w))) = configuration (store w) /\
  configuration (store (snd (GET_api_v1_project req w))) = configuration (store w).
Proof.
  unfold GET_v1_data, POST_api_v1_data, PUT_api_v1_data_id, DELETE_api_v1_data_id,
    GET_api_v1_data_search, GET_api_v1_project.
  repeat split; apply authenticateApiKey_keeps; intros b w0.
  - f_equal. apply get_data_handler_keeps_store.
  - unfold post_data_handler. apply try_catch_status_500_keeps.
    cbv beta iota zeta.
    destruct (negb (truthy_opt truthy_JSON (Body.data (Request.body (Bound.req b)))));
      [reflexivity|].
    unfold bind.
    pose proof (insertDynamicData_keeps_configuration (Bound.projectId b)
                  (Body.data (Request.body (Bound.req b)))
                  (Body.userId (Request.body (Bound.req b)))
                  (Body.dataType (Request.body (Bound.req b)))
                  (Body.isPublic (Request.body (Bound.req b))) w0) as H.
    destruct (insertDynamicData _ _ _ _ _ w0) as [[res|e] w']; exact H.
  - unfold put_data_handler. apply try_catch_status_500_keeps.
    destruct (BigInt (Request.params_id (Bound.req b))) as [dataId|e]; [|reflexivity].
    cbv beta iota zeta.
    destruct (negb (truthy_opt truthy_JSON (Body.data (Request.body (Bound.req b)))));
      [reflexivity|].
    unfold bind.
    pose proof (updateDynamicData_keeps_configuration dataId
                  (Body.data (Request.body (Bound.req b))) w0) as H.
    destruct (updateDynamicData _ _ w0) as [[res|e] w']; exact H.
  - unfold delete_data_handler. apply try_catch_status_500_keeps.
    destruct (BigInt (Request.params_id (Bound.req b))) as [dataId|e]; [|reflexivity].
    unfold bind.
    pose proof (deleteDynamicData_keeps_configuration dataId w0) as H.
    destruct (deleteDynamicData _ w0) as [[res|e] w']; exact H.
  - unfold search_data_handler. apply try_catch_status_500_keeps.
    cbv beta iota zeta. unfold bind.
    pose proof (searchDynamicData_keeps_store (Bound.projectId b)
                  (Query.userId (Request.query (Bound.req b)))
                  (Query.dataType (Request.query (Bound.req b))) w0) as H.
    destruct (searchDynamicData _ _ _ w0) as [[[|r0 res]|e] w'];
      simpl in *; rewrite H; reflexivity.
  - unfold project_handler. apply try_catch_status_500_keeps.
    unfold bind.
    pose proof (getProjectById_keeps_store (Bound.projectId b) w0) as H.
    destruct (getProjectById _ w0) as [[[p|]|e] w']; simpl in *; rewrite H; reflexivity.
Qed.

(* ------------------------------------------------------------------ *)
(** ** Admin accounts: create, sign in, fetch (auth.ts) *)

Lemma authenticateAdmin_runs
    (bcrypt_compare : string -> string -> bool)
    (email password : string) (w w1 : World) (h : Handle) :
  getDb w = (Returns (Some h), w1) ->
  authenticateAdmin bcrypt_compare email password w =
  match find (fun r => eq_text (AdminUser.email r) email) (adminUsers (store w)) with
  | None => (Returns None, w1)
  | Some admin =>
      if negb (AdminUser.isActive admin) then (Returns None, w1)
      else if negb (bcrypt_compare password (AdminUser.passwordHash admin))
           then (Returns None, w1)
           else (Returns (Some (AdminSession.mk (AdminUser.id admin)
                                  (AdminUser.email admin) (AdminUser.name admin))),
                 set_store (with_adminUsers (store w)
                              (map (signed_in (AdminUser.id admin) (clock w))
                                   (adminUsers (store w)))
                              (seq_adminUsers (store w))) w1)
  end.
Proof.
  intros E. destruct (getDb_split w _ w1 E) as [Hs Hc].
  unfold authenticateAdmin.
  cbv beta iota delta [bind]. rewrite E.
  cbv beta iota delta [bind read_store]. rewrite Hs.
  rewrite first_match.
  destruct (find _ _) as [admin|]; [|reflexivity].
  destruct (AdminUser.isActive admin); [|reflexivity].
  cbv beta iota delta [negb bind comparePassword ret].
  destruct (bcrypt_compare password (AdminUser.passwordHash admin)); [|reflexivity].
  cbv beta iota delta [negb bind new_Date read_store write_store ret].
  rewrite Hs, Hc. reflexivity.
Qed.

(** X21.  Creating an admin and signing in.  With a datastore at hand,
    after [createAdminUser] for an email, the first row with that email
    carries a hash of the given password and the given name (the part of the
    email before '@' when the name is left out or empty).  If the email was
    new, the row is active and [authenticateAdmin] with a password that
    verifies against that hash returns the new id, the email and the name.
    If the email was taken by an active account, the same holds with that
    account's id.  If it was taken by an inactive account, the account stays
    inactive and [authenticateAdmin] returns null: creating again does not
    reactivate.  A password that does not verify against the new hash is
    answered null. *)
Theorem createAdminUser_then_authenticateAdmin
    (bcrypt_hash : string -> Z -> string -> string)
    (bcrypt_compare : string -> string -> bool)
    (email password : string) (name : option string) (w w1 : World) (h : Handle) :
  getDb w = (Returns (Some h), w1) ->
  let before := find (fun r => eq_text (AdminUser.email r) email) (adminUsers (store w)) in
  let hashed := bcrypt_hash password SALT_ROUNDS (hd EmptyString (entropy w)) in
  exists wA : World,
    createAdminUser bcrypt_hash email password name w = (Returns tt, wA) /\
    (forall attempt,
       bcrypt_compare attempt hashed = false ->
       fst (authenticateAdmin bcrypt_compare email attempt wA) = Returns None) /\
    (forall attempt,
       bcrypt_compare attempt hashed = true ->
       (before = None ->
        fst (authenticateAdmin bcrypt_compare email attempt wA)
        = Returns (Some (AdminSession.mk (seq_adminUsers (store w)) email
                                         (Some (name_or_prefix name email))))) /\
       (forall a, before = Some a -> AdminUser.isActive a = true ->
        fst (authenticateAdmin bcrypt_compare email attempt wA)
        = Returns (Some (AdminSession.mk (AdminUser.id a) email
                                         (Some (name_or_prefix name email))))) /\
       (forall a, before = Some a -> AdminUser.isActive a = false ->
        fst (authenticateAdmin bcrypt_compare email attempt wA) = Returns None)).
Proof.
  intros E before hashed.
  pose proof (getDb_keeps_handle w w1 h E) as Hdb.
  pose proof (getDb_entropy w) as He. rewrite E in He. simpl in He.
  pose proof (createAdminUser_runs bcrypt_hash email password name w w1 h E) as Hrun.
  cbv zeta in Hrun. rewrite He in Hrun. fold hashed in Hrun.
  set (p := fun r => eq_text (AdminUser.email r) email) in *.
  set (dA := if existsb p (adminUsers (store w))
             then with_adminUsers (store w)
                    (map (recreated email hashed name (clock w)) (adminUsers (store w)))
                    (seq_adminUsers (store w))
             else with_adminUsers (store w)
                    (adminUsers (store w) ++
                     [admin_row_of (createAdminUser_values email hashed name)
                        (seq_adminUsers (store w)) (clock w)])
                    (seq_adminUsers (store w) + 1)) in *.
  set (wA := set_store dA (set_entropy (tl (entropy w)) w1)) in *.
  assert (EA : getDb wA = (Returns (Some h), wA)) by (apply getDb_cached; exact Hdb).
  (* the first row with the email, after the call *)
  assert (Hafter :
    find p (adminUsers (store wA)) =
    match before with
    | Some a => Some (admin_update (createAdminUser_set email hashed name) (clock w) a)
    | None => Some (admin_row_of (createAdminUser_values email hashed name)
                      (seq_adminUsers (store w)) (clock w))
    end).
  { change (store wA) with dA. unfold dA, before.
    destruct (existsb p (adminUsers (store w))) eqn:Hex.
    - cbn [adminUsers with_adminUsers].
      rewrite (find_map_same_test p (recreated email hashed name (clock w)));
        [|intros x; unfold p; rewrite recreated_email; reflexivity].
      destruct (existsb_find_some p _ Hex) as [a Ha]. rewrite Ha. cbn [option_map].
      unfold recreated. pose proof (find_some _ _ Ha) as [_ Hpa].
      unfold p in Hpa. rewrite Hpa. reflexivity.
    - cbn [adminUsers with_adminUsers].
      rewrite find_snoc, (existsb_find_none p _ Hex).
      unfold p at 1, eq_text, admin_row_of, createAdminUser_values.
      cbn [AdminUser.email InsertAdminUser.email].
      rewrite String.eqb_refl. reflexivity. }
  exists wA. split; [exact Hrun|].
  assert (Hauth : forall attempt,
            fst (authenticateAdmin bcrypt_compare email attempt wA) =
            match before with
            | Some a =>
                if negb (AdminUser.isActive a) then Returns None
                else if negb (bcrypt_compare attempt hashed) then Returns None
                     else Returns (Some (AdminSession.mk (AdminUser.id a) email
                                           (Some (name_or_prefix name email))))
            | None =>
                if negb (bcrypt_compare attempt hashed) then Returns None
                else Returns (Some (AdminSession.mk (seq_adminUsers (store w)) email
                                      (Some (name_or_prefix name email))))
            end).
  { intros attempt.
    rewrite (authenticateAdmin_runs bcrypt_compare email attempt wA wA h EA).
    fold p. rewrite Hafter.
    destruct before as [a|] eqn:Hb.
    - destruct (admin_update_columns (createAdminUser_set email hashed name)
                  (clock w) a eq_refl)
        as [U1 [U2 [U3 [U4 [U5 _]]]]].
      simpl in U1, U2, U3, U4, U5.
      rewrite U1, U2, U3, U4, U5.
      unfold before in Hb. pose proof (find_some _ _ Hb) as [_ Hpa].
      unfold p, eq_text in Hpa. apply String.eqb_eq in Hpa. rewrite Hpa.
      destruct (AdminUser.isActive a); [|reflexivity].
      destruct (bcrypt_compare attempt hashed); reflexivity.
    - unfold admin_row_of, createAdminUser_values.
      cbn [AdminUser.isActive AdminUser.passwordHash AdminUser.id AdminUser.email
           AdminUser.name InsertAdminUser.id InsertAdminUser.email
           InsertAdminUser.passwordHash InsertAdminUser.name InsertAdminUser.isActive
           or_else or_null negb].
      destruct (bcrypt_compare attempt hashed); reflexivity. }
  split.
  - intros attempt Hno. rewrite Hauth, Hno.
    destruct before as [a|]; [destruct (negb (AdminUser.isActive a))|]; reflexivity.
  - intros attempt Hyes. split; [|split].
    + intros Hb. rewrite Hauth, Hb, Hyes. reflexivity.
    + intros a Hb Hactive. rewrite Hauth, Hb, Hactive, Hyes. reflexivity.
    + intros a Hb Hactive. rewrite Hauth, Hb, Hactive. reflexivity.
Qed.

(** A new admin without a name signs in under the local part of the email;
    Bob, whose account is inactive, cannot sign in after being created
    again. *)
Lemma createAdminUser_then_authenticateAdmin_witness :
  (exists wA,
     createAdminUser sample_hash "noname@example.com" "pw" None (world_up admins_database)
       = (Returns tt, wA) /\
     fst (authenticateAdmin sample_compare "noname@example.com" "pw" wA)
       = Returns (Some (AdminSession.mk 3 "noname@example.com" (Some "noname"))) /\
     fst (authenticateAdmin sample_compare "noname@example.com" "wrong" wA)
       = Returns None) /\
  (exists wA,
     createAdminUser sample_hash "b@x.com" "pw" None (world_up admins_database)
       = (Returns tt, wA) /\
     fst (authenticateAdmin sample_compare "b@x.com" "pw" wA) = Returns None).
Proof.
  split.
  - destruct (createAdminUser_then_authenticateAdmin sample_hash sample_compare
                "noname@example.com" "pw" None
                (world_up admins_database) (world_up admins_database)
                (Drizzle "mysql://db") eq_refl)
      as [wA [Hrun [Hwrong Hright]]].
    exists wA. split; [exact Hrun|]. split.
    + exact (proj1 (Hright "pw" eq_refl) eq_refl).
    + exact (Hwrong "wrong" eq_refl).
  - destruct (createAdminUser_then_authenticateAdmin sample_hash sample_compare
                "b@x.com" "pw" None
                (world_up admins_database) (world_up admins_database)
                (Drizzle "mysql://db") eq_refl)
      as [wA [Hrun [_ Hright]]].
    exists wA. split; [exact Hrun|].
    exact (proj2 (proj2 (Hright "pw" eq_refl)) admin_bob eq_refl eq_refl).
Defined.

Lemma getAdminById_runs (id : Z) (w w1 : World) (h : Handle) :
  getDb w = (Returns (Some h), w1) ->
  getAdminById id w =
  (Returns (find (fun r => eq_int (AdminUser.id r) id) (adminUsers (store w))), w1).
Proof.
  intros E. destruct (getDb_split w _ w1 E) as [Hs _].
  unfold getAdminById. cbv beta iota delta [bind]. rewrite E.
  cbv beta iota delta [bind read_store ret]. rewrite Hs, first_match.
  destruct (find _ _); reflexivity.
Qed.

Lemma signed_in_id (id : Z) (now : Date) (r : AdminUser.t) :
  AdminUser.id (signed_in id now r) = AdminUser.id r.
Proof.
  unfold signed_in. destruct (eq_int (AdminUser.id r) id); [|reflexivity].
  exact (proj1 (admin_update_columns
                  (AdminUserSet.mk None None None None None None None (Some (Some now)))
                  now r eq_refl)).
Qed.

(** X22.  After a sign-in that succeeded, [getAdminById] with the id that
    [authenticateAdmin] returned finds a row with that id whose
    last-signed-in is the time of the sign-in.  For an id that no row
    carries, [getAdminById] returns null. *)
Theorem authenticateAdmin_then_getAdminById
    (bcrypt_compare : string -> string -> bool)
    (email password : string) (session : AdminSession.t)
    (w w1 w2 : World) (h : Handle) :
  getDb w = (Returns (Some h), w1) ->
  authenticateAdmin bcrypt_compare email password w = (Returns (Some session), w2) ->
  (exists row,
     getAdminById (AdminSession.id session) w2 = (Returns (Some row), w2) /\
     AdminUser.id row = AdminSession.id session /\
     AdminUser.lastSignedIn row = Some (clock w)) /\
  (forall id, (forall r, In r (adminUsers (store w)) -> AdminUser.id r <> id) ->
     getAdminById id w2 = (Returns None, w2)).
Proof.
  intros E Hauth.
  pose proof (getDb_keeps_handle w w1 h E) as Hdb.
  rewrite (authenticateAdmin_runs bcrypt_compare email password w w1 h E) in Hauth.
  destruct (find _ _) as [admin|] eqn:Hfind; [|discriminate].
  destruct (negb (AdminUser.isActive admin)); [discriminate|].
  destruct (negb (bcrypt_compare password (AdminUser.passwordHash admin)));
    [discriminate|].
  inversion Hauth as [[Hsession Hw2]]. clear Hauth.
  cbn [AdminSession.id].
  set (d2 := with_adminUsers (store w)
               (map (signed_in (AdminUser.id admin) (clock w)) (adminUsers (store w)))
               (seq_adminUsers (store w))) in *.
  assert (E2 : getDb (set_store d2 w1) = (Returns (Some h), set_store d2 w1))
    by (apply getDb_cached; exact Hdb).
  assert (Hby : forall id,
            find (fun r => eq_int (AdminUser.id r) id) (adminUsers (store (set_store d2 w1)))
            = option_map (signed_in (AdminUser.id admin) (clock w))
                (find (fun r => eq_int (AdminUser.id r) id) (adminUsers (store w)))).
  { intros id. cbn [store set_store d2 adminUsers with_adminUsers].
    apply find_map_same_test. intros x. rewrite signed_in_id. reflexivity. }
  split.
  - pose proof (find_some _ _ Hfind) as [Hin _].
    assert (Hex : existsb (fun r => eq_int (AdminUser.id r) (AdminUser.id admin))
                          (adminUsers (store w)) = true).
    { apply existsb_exists. exists admin. split; [exact Hin|apply Z.eqb_refl]. }
    destruct (existsb_find_some _ _ Hex) as [a0 Ha0].
    exists (signed_in (AdminUser.id admin) (clock w) a0).
    pose proof (find_some _ _ Ha0) as [_ Hid0]. unfold eq_int in Hid0.
    split; [rewrite (getAdminById_runs _ _ _ h E2), Hby, Ha0; reflexivity|].
    split; [rewrite signed_in_id; apply Z.eqb_eq; exact Hid0|].
    unfold signed_in, eq_int. rewrite Hid0.
    destruct (admin_update_columns
                (AdminUserSet.mk None None None None None None None (Some (Some (clock w))))
                (clock w) a0 eq_refl) as [_ [_ [_ [_ [_ [_ [U7 _]]]]]]].
    exact U7.
  - intros id Hnone.
    rewrite (getAdminById_runs _ _ _ h E2), Hby.
    rewrite find_all_false; [reflexivity|].
    intros x Hx. apply Z.eqb_neq. exact (Hnone x Hx).
Qed.

Lemma authenticateAdmin_then_getAdminById_witness :
  exists w2 row,
    authenticateAdmin sample_compare "a@x.com" "pw1" (world_up admins_database)
      = (Returns (Some (AdminSession.mk 1 "a@x.com" (Some "Ann"))), w2) /\
    getAdminById 1 w2 = (Returns (Some row), w2) /\
    AdminUser.lastSignedIn row = Some 1000 /\
    getAdminById 99999 w2 = (Returns None, w2).
Proof.
  eexists.
  assert (Hauth : authenticateAdmin sample_compare "a@x.com" "pw1" (world_up admins_database)
                  = (Returns (Some (AdminSession.mk 1 "a@x.com" (Some "Ann"))),
                     snd (authenticateAdmin sample_compare "a@x.com" "pw1"
                            (world_up admins_database)))) by reflexivity.
  destruct (authenticateAdmin_then_getAdminById sample_compare "a@x.com" "pw1"
              (AdminSession.mk 1 "a@x.com" (Some "Ann"))
              (world_up admins_database) (world_up admins_database) _
              (Drizzle "mysql://db") eq_refl Hauth)
    as [[row [Hget [_ Hlast]]] Hnone].
  exists row.
  split; [exact Hauth|]. split; [exact Hget|]. split; [exact Hlast|].
  apply Hnone. intros r [H|[H|[]]]; subst r; discriminate.
Defined.

(* ------------------------------------------------------------------ *)
(** ** The router: what an admin can reach (routers.ts) *)

(** The session's admin owns the project stored under the id. *)
Definition owns (ctx : Context.t) (projectId : Z) (w : World) : Prop :=
  exists session project,
    Context.user ctx <> None /\
    Context.adminSession ctx = Some session /\
    fetched projectId w = Some project /\
    Project.adminUserId project = AdminSession.id session.

(** A resolver that fetches the project, refuses a stranger and only then
    goes on: it returns only for an owner, and what it returns is what the
    guarded part returned. *)
Lemma checked_resolver_returns {O : Type} (ctx : Context.t) (projectId : Z)
    (k : option Project.t -> Async O) (w w' : World) (result : O) :
  adminProcedure ctx (fun ctx0 =>
    project <- getProjectById projectId ;;
    if not_owner project ctx0 then throw (TRPCError FORBIDDEN None) else k project) w
  = (Returns result, w') ->
  owns ctx projectId w /\
  exists h w1, getDb w = (Returns (Some h), w1) /\
               k (fetched projectId w) w1 = (Returns result, w').
Proof.
  unfold adminProcedure, owns.
  destruct (Context.user ctx) as [u|] eqn:Hu; [|discriminate].
  destruct (Context.adminSession ctx) as [s|] eqn:Hs; [|discriminate].
  cbv beta iota delta [bind].
  destruct (getDb w) as [r w1] eqn:E.
  destruct r as [[h|]|e].
  - rewrite (getProjectById_runs projectId w w1 h E).
    unfold not_owner, Context.adminSession_id. rewrite Hs. cbn [option_map].
    destruct (fetched projectId w) as [p|] eqn:Hf; [|discriminate].
    destruct (Project.adminUserId p =? AdminSession.id s) eqn:Hown; [|discriminate].
    cbn [negb]. intros Hk. split.
    + exists s, p. apply Z.eqb_eq in Hown.
      repeat split; try assumption; try reflexivity. discriminate.
    + exists h, w1. split; [reflexivity|exact Hk].
  - unfold getProjectById. cbv beta iota delta [bind]. rewrite E. discriminate.
  - unfold getProjectById. cbv beta iota delta [bind]. rewrite E. discriminate.
Qed.

(** X23.  The eight procedures that take a project id return a result only
    to the owner: whenever one of them returns, in any world, the context
    carries an end-user identity and an admin session, the project with that
    id exists and its owner is the admin of the session.  What the reading
    procedures return then belongs to that project: the project itself, its
    keys, its records. *)
Theorem checked_procedures_return_to_owner (ctx : Context.t) (projectId : Z) (w : World) :
  (forall p w', projects.get ctx projectId w = (Returns p, w') ->
     owns ctx projectId w /\ Project.id p = projectId) /\
  (forall n d s res w', projects.update ctx projectId n d s w = (Returns res, w') ->
     owns ctx projectId w) /\
  (forall res w', projects.delete ctx projectId w = (Returns res, w') ->
     owns ctx projectId w) /\
  (forall keys w', apiKeys.list ctx projectId w = (Returns keys, w') ->
     owns ctx projectId w /\
     forall k, In k keys -> In k (apiKeys (store w)) /\ ApiKey.projectId k = projectId) /\
  (forall n ps res w', apiKeys.create ctx projectId n ps w = (Returns res, w') ->
     owns ctx projectId w) /\
  (forall l o rows w', data.list ctx projectId l o w = (Returns rows, w') ->
     owns ctx projectId w /\
     forall r, In r rows ->
       In r (dynamicData (store w)) /\ DynamicData.projectId r = projectId) /\
  (forall d u t pub res w', data.create ctx projectId d u t pub w = (Returns res, w') ->
     owns ctx projectId w) /\
  (forall u t rows w', data.search ctx projectId u t w = (Returns rows, w') ->
     owns ctx projectId w /\
     forall r, In r rows ->
       In r (dynamicData (store w)) /\ DynamicData.projectId r = projectId).
Proof.
  split; [|split; [|split; [|split; [|split; [|split; [|split]]]]]].
  - intros p w' H.
    destruct (checked_resolver_returns ctx projectId _ w w' p H)
      as [Hown [h [w1 [E Hk]]]].
    split; [exact Hown|].
    destruct (fetched projectId w) as [project|] eqn:Hf; [|discriminate].
    inversion Hk. subst p.
    unfold fetched in Hf. apply find_some in Hf. apply Z.eqb_eq. exact (proj2 Hf).
  - intros n d s res w' H.
    exact (proj1 (checked_resolver_returns ctx projectId _ w w' res H)).
  - intros res w' H.
    exact (proj1 (checked_resolver_returns ctx projectId _ w w' res H)).
  - intros keys w' H.
    destruct (checked_resolver_returns ctx projectId _ w w' keys H)
      as [Hown [h [w1 [E Hk]]]].
    split; [exact Hown|].
    unfold getApiKeysByProjectId in Hk. cbv beta iota delta [bind] in Hk.
    rewrite (getDb_again w w1 h E) in Hk.
    cbv beta iota delta [bind read_store ret] in Hk.
    rewrite (proj1 (getDb_split w _ w1 E)) in Hk.
    inversion Hk. subst keys.
    intros k Hin. apply filter_In in Hin. destruct Hin as [Hin Hp].
    apply Z.eqb_eq in Hp. split; assumption.
  - intros n ps res w'. unfold apiKeys.create.
    destruct (z_string_min_1 n); cbn [negb]; intros H.
    + exact (proj1 (checked_resolver_returns ctx projectId _ w w' res H)).
    + unfold adminProcedure in H.
      destruct (Context.user ctx), (Context.adminSession ctx); discriminate.
  - intros l o rows w' H.
    destruct (checked_resolver_returns ctx projectId _ w w' rows H)
      as [Hown [h [w1 [E Hk]]]].
    split; [exact Hown|].
    unfold getDynamicDataByProjectId in Hk.
    cbv beta iota zeta delta [bind] in Hk.
    rewrite (getDb_again w w1 h E) in Hk.
    cbv beta iota delta [bind read_store ret] in Hk.
    rewrite (proj1 (getDb_split w _ w1 E)) in Hk.
    destruct (limit_offset _ _ _) as [page|e] eqn:Hpage; [|discriminate].
    inversion Hk. subst rows.
    unfold limit_offset in Hpage.
    destruct ((_ <? 0) || (_ <? 0)); [discriminate|].
    inversion Hpage. subst page.
    intros r Hin. apply in_firstn_skipn in Hin.
    apply filter_In in Hin. destruct Hin as [Hin Hp].
    apply Z.eqb_eq in Hp. split; assumption.
  - intros d u t pub res w' H.
    exact (proj1 (checked_resolver_returns ctx projectId _ w w' res H)).
  - intros u t rows w' H.
    destruct (checked_resolver_returns ctx projectId _ w w' rows H)
      as [Hown [h [w1 [E Hk]]]].
    split; [exact Hown|].
    destruct (searchDynamicData_runs projectId u t w1 w1 h (getDb_again w w1 h E))
      as [found [Hrun Hin]].
    rewrite Hrun in Hk. inversion Hk. subst rows.
    intros r Hr. apply Hin in Hr.
    rewrite (proj1 (getDb_split w _ w1 E)) in Hr.
    split; [exact (proj1 Hr)|exact (proj1 (proj2 Hr))].
Qed.

(** Ann (admin 1) in a session of her own. *)
Definition ann_context : Context.t :=
  Context.mk (Some someone) (Some (AdminSession.mk 1 "a@x.com" (Some "Ann"))).

Lemma checked_procedures_return_to_owner_witness :
  data.list ann_context 10 (Some 2) None (world_up tenant_database)
    = (Returns [record_5; record_6], world_up tenant_database) /\
  owns ann_context 10 (world_up tenant_database) /\
  DynamicData.projectId record_6 = 10.
Proof.
  assert (Hrun : data.list ann_context 10 (Some 2) None (world_up tenant_database)
                 = (Returns [record_5; record_6], world_up tenant_database))
    by reflexivity.
  destruct (checked_procedures_return_to_owner ann_context 10 (world_up tenant_database))
    as [_ [_ [_ [_ [_ [Hlist _]]]]]].
  destruct (Hlist (Some 2) None _ _ Hrun) as [Hown Hrows].
  split; [exact Hrun|]. split; [exact Hown|].
  exact (proj2 (Hrows record_6 (or_intror (or_introl eq_refl)))).
Defined.

Definition bad_request : Exn := TRPCError BAD_REQUEST None.

(** X24.  [projects.list], under a context with both identities: a session
    whose id is 0 is refused with UNAUTHORIZED before anything is read;
    otherwise, with a datastore at hand, the list holds exactly the stored
    projects owned by the admin of the session, so no project of another
    admin is listed.  [projects.create] refuses an empty name as a
    BAD_REQUEST before its resolver runs, whatever the session id; for a
    name that is not empty it refuses a session whose id is 0 with
    UNAUTHORIZED and otherwise makes the admin of the session the owner of
    the new project. *)
Theorem projects_list_and_create_are_scoped_to_session
    (ctx : Context.t) (session : AdminSession.t) (w w1 : World) (h : Handle) :
  Context.user ctx <> None ->
  Context.adminSession ctx = Some session ->
  getDb w = (Returns (Some h), w1) ->
  (AdminSession.id session = 0 ->
   projects.list ctx w = (Throws unauthorized, w) /\
   (forall n d s, n <> "" -> projects.create ctx n d s w = (Throws unauthorized, w)) /\
   admin.getAdminInfo ctx w = (Throws unauthorized, w)) /\
  (forall d s, projects.create ctx "" d s w = (Throws bad_request, w)) /\
  (AdminSession.id session <> 0 ->
   projects.list ctx w = (Returns (projects_of (AdminSession.id session) (store w)), w1) /\
   (forall r, In r (projects_of (AdminSession.id session) (store w)) <->
              In r (projects (store w)) /\ Project.adminUserId r = AdminSession.id session) /\
   (forall n d s, n <> "" -> exists w2 row,
      projects.create ctx n d s w = (Returns (mkResult (Project.id row)), w2) /\
      projects (store w2) = (projects (store w) ++ [row])%list /\
      Project.adminUserId row = AdminSession.id session /\
      Project.name row = n /\ Project.isActive row = true)).
Proof.
  intros Hu Hs E.
  assert (Hid : Context.adminSession_id ctx = Some (AdminSession.id session)).
  { unfold Context.adminSession_id. rewrite Hs. reflexivity. }
  assert (Hsome : Context.adminSession ctx <> None) by congruence.
  split; [|split].
  - intros H0.
    assert (Hno : no_session_id ctx = true).
    { unfold no_session_id. rewrite Hid, H0. reflexivity. }
    unfold projects.list, projects.create, admin.getAdminInfo.
    split; [|split].
    + rewrite (proj2 (adminProcedure_guard ctx _) Hu Hsome). rewrite Hno. reflexivity.
    + intros n d s Hn.
      rewrite (proj2 (adminProcedure_guard ctx _) Hu Hsome).
      rewrite (z_string_min_1_given n Hn), Hno. reflexivity.
    + rewrite (proj2 (adminProcedure_guard ctx _) Hu Hsome). rewrite Hno. reflexivity.
  - intros d s. unfold projects.create.
    rewrite (proj2 (adminProcedure_guard ctx _) Hu Hsome). reflexivity.
  - intros Hne.
    assert (Hno : no_session_id ctx = false).
    { unfold no_session_id. rewrite Hid. apply Z.eqb_neq. exact Hne. }
    split; [|split].
    + unfold projects.list.
      rewrite (proj2 (adminProcedure_guard ctx _) Hu Hsome). rewrite Hno, Hid.
      exact (getProjectsByAdminId_runs _ w w1 h E).
    + intros r. unfold projects_of. rewrite filter_In. unfold eq_int.
      rewrite Z.eqb_eq. reflexivity.
    + intros n d s Hn.
      eexists. exists (created_project (AdminSession.id session) n d s (store w) (clock w)).
      split.
      { unfold projects.create.
        rewrite (proj2 (adminProcedure_guard ctx _) Hu Hsome).
        rewrite (z_string_min_1_given n Hn), Hno, Hid.
        exact (createProject_runs _ n d s w w1 h E). }
      repeat split.
Qed.

(** Ann lists her project and Bob lists none; a session with the id 0 is
    refused.  Ann cannot create a project without a name; the project she
    creates as "P2" is hers. *)
Lemma projects_list_and_create_are_scoped_to_session_witness :
  projects.list ann_context (world_up tenant_database)
    = (Returns [project_ten], world_up tenant_database) /\
  projects.list bob_context (world_up tenant_database)
    = (Returns [], world_up tenant_database) /\
  projects.list (Context.mk (Some someone) (Some (AdminSession.mk 0 "z@x.com" None)))
                (world_up tenant_database)
    = (Throws unauthorized, world_up tenant_database) /\
  projects.create ann_context "" None None (world_up tenant_database)
    = (Throws bad_request, world_up tenant_database) /\
  (exists w2 row,
     projects.create ann_context "P2" None None (world_up tenant_database)
       = (Returns (mkResult (Project.id row)), w2) /\
     projects (store w2) = [project_ten; row] /\
     Project.adminUserId row = 1 /\ Project.name row = "P2").
Proof.
  assert (Hu : Some someone <> None) by discriminate.
  assert (Hne : 1 <> 0) by discriminate.
  destruct (projects_list_and_create_are_scoped_to_session ann_context
              (AdminSession.mk 1 "a@x.com" (Some "Ann"))
              (world_up tenant_database) (world_up tenant_database)
              (Drizzle "mysql://db") Hu eq_refl eq_refl) as [_ [Hbad Hann]].
  destruct (Hann Hne) as [Hlist [_ Hcreate]].
  split; [exact Hlist|]. split; [|split; [|split; [exact (Hbad None None)|]]].
  - destruct (projects_list_and_create_are_scoped_to_session bob_context
                (AdminSession.mk 2 "b@x.com" (Some "Bob"))
                (world_up tenant_database) (world_up tenant_database)
                (Drizzle "mysql://db") Hu eq_refl eq_refl) as [_ [_ Hcase]].
    assert (Hne2 : 2 <> 0) by discriminate.
    exact (proj1 (Hcase Hne2)).
  - destruct (projects_list_and_create_are_scoped_to_session
                (Context.mk (Some someone) (Some (AdminSession.mk 0 "z@x.com" None)))
                (AdminSession.mk 0 "z@x.com" None)
                (world_up tenant_database) (world_up tenant_database)
                (Drizzle "mysql://db") Hu eq_refl eq_refl) as [Hcase _].
    exact (proj1 (Hcase eq_refl)).
  - assert (Hname : "P2" <> "") by discriminate.
    destruct (Hcreate "P2" None None Hname) as [w2 [row [Hrun [Hrows [Hown [Hn _]]]]]].
    exists w2, row.
    split; [exact Hrun|]. split; [exact Hrows|]. split; [exact Hown|exact Hn].
Defined.

(** What [projects.update] hands to [updateProject]. *)
Definition router_patch (name description : option string) (schema : option JSON)
  : ProjectPatch.t :=
  ProjectPatch.mk None None name (option_map Some description) schema None None None.

Definition router_updated (projectId : Z) (name description : option string)
    (schema : option JSON) (now : Date) (r : Project.t) : Project.t :=
  if eq_int (Project.id r) projectId
  then project_update (router_patch name description schema) now r
  else r.

Lemma router_updated_columns (projectId : Z) (name description : option string)
    (schema : option JSON) (now : Date) (r : Project.t) :
  Project.id (router_updated projectId name description schema now r) = Project.id r /\
  Project.adminUserId (router_updated projectId name description schema now r)
    = Project.adminUserId r /\
  Project.isActive (router_updated projectId name description schema now r)
    = Project.isActive r /\
  Project.createdAt (router_updated projectId name description schema now r)
    = Project.createdAt r /\
  (Project.id r = projectId ->
   Project.name (router_updated projectId name description schema now r)
     = or_else name (Project.name r) /\
   Project.description (router_updated projectId name description schema now r)
     = match description with Some t => Some t | None => Project.description r end) /\
  (Project.id r <> projectId ->
   router_updated projectId name description schema now r = r).
Proof.
  unfold router_updated, eq_int.
  destruct (project_update_columns (router_patch name description schema) now r eq_refl)
    as [U1 [U2 [U3 [U4 [_ [U6 [U7 _]]]]]]].
  simpl in U1, U2, U3, U4, U6, U7.
  destruct (Project.id r =? projectId) eqn:Hid.
  - apply Z.eqb_eq in Hid.
    split; [exact U1|]. split; [exact U2|]. split; [exact U6|]. split; [exact U7|].
    split.
    + intros _. split; [exact U3|].
      rewrite U4. destruct description; reflexivity.
    + intros Hne. congruence.
  - apply Z.eqb_neq in Hid.
    split; [reflexivity|]. split; [reflexivity|]. split; [reflexivity|].
    split; [reflexivity|].
    split; [intros Heq; congruence|intros _; reflexivity].
Qed.

(** X25.  [projects.update] can rename a project, describe it and replace
    its schema, and nothing else.  In every world and whatever the outcome,
    the projects table afterwards is the former table row by row, each row
    with its id, owner, active flag and creation time, and rows with another
    id exactly as they were: ownership cannot be moved and a project cannot
    be reactivated through it.  For the owner, with a datastore at hand and
    a name supplied, the call succeeds and the project then carries the
    supplied name, and the supplied description if there is one. *)
Theorem projects_update_keeps_ownership
    (ctx : Context.t) (projectId : Z) (name description : option string)
    (schema : option JSON) (w : World) :
  (exists f : Project.t -> Project.t,
     projects (store (snd (projects.update ctx projectId name description schema w)))
       = map f (projects (store w)) /\
     forall r,
       Project.id (f r) = Project.id r /\
       Project.adminUserId (f r) = Project.adminUserId r /\
       Project.isActive (f r) = Project.isActive r /\
       Project.createdAt (f r) = Project.createdAt r /\
       (Project.id r <> projectId -> f r = r)) /\
  (forall h w1 newName project,
     getDb w = (Returns (Some h), w1) ->
     owns ctx projectId w -> name = Some newName ->
     fetched projectId w = Some project ->
     exists w2 project',
       projects.update ctx projectId name description schema w = (Returns (mkResult 0), w2) /\
       getProjectById projectId w2 = (Returns (Some project'), w2) /\
       Project.name project' = newName /\
       Project.description project'
         = match description with Some t => Some t | None => Project.description project end /\
       Project.adminUserId project' = Project.adminUserId project).
Proof.
  assert (Hrun : forall h w1,
            getDb w = (Returns (Some h), w1) ->
            updateProject projectId (router_patch name description schema) w1 =
            if ProjectPatch.no_values (router_patch name description schema)
            then (Throws (Error "No values to set"), w1)
            else (Returns (mkResult 0),
                  set_store (with_projects (store w)
                               (map (router_updated projectId name description schema (clock w))
                                    (projects (store w)))
                               (seq_projects (store w))) w1)).
  { intros h w1 E. destruct (getDb_split w _ w1 E) as [Hs Hc].
    unfold updateProject. cbv beta iota delta [bind].
    rewrite (getDb_again w w1 h E). unfold update_projects.
    destruct (ProjectPatch.no_values (router_patch name description schema));
      [reflexivity|].
    cbv beta iota zeta delta [bind read_store new_Date write_store ret].
    cbn [ProjectPatch.id router_patch]. rewrite andb_false_r, Hs, Hc. reflexivity. }
  assert (Hid_map : map (fun r : Project.t => r) (projects (store w)) = projects (store w))
    by apply map_id.
  split.
  - (* the frame, by cases on how far the call gets *)
    assert (Hsame : forall w', store w' = store w ->
              exists f : Project.t -> Project.t,
                projects (store w') = map f (projects (store w)) /\
                forall r,
                  Project.id (f r) = Project.id r /\
                  Project.adminUserId (f r) = Project.adminUserId r /\
                  Project.isActive (f r) = Project.isActive r /\
                  Project.createdAt (f r) = Project.createdAt r /\
                  (Project.id r <> projectId -> f r = r)).
    { intros w' Hw'. exists (fun r => r). rewrite Hw', Hid_map.
      split; [reflexivity|]. intros r. repeat split. }
    unfold projects.update, adminProcedure.
    destruct (Context.user ctx); [|apply Hsame; reflexivity].
    destruct (Context.adminSession ctx); [|apply Hsame; reflexivity].
    cbv beta iota delta [bind].
    destruct (getDb w) as [r0 w1] eqn:E.
    destruct (getDb_split w _ w1 E) as [Hs _].
    destruct r0 as [[h|]|e];
      try (unfold getProjectById; cbv beta iota delta [bind]; rewrite E;
           apply Hsame; exact Hs).
    rewrite (getProjectById_runs projectId w w1 h E).
    destruct (not_owner _ _); [apply Hsame; exact Hs|].
    change (ProjectPatch.mk None None name (option_map Some description) schema
                            None None None)
      with (router_patch name description schema).
    rewrite (Hrun h w1 eq_refl).
    destruct (ProjectPatch.no_values _); [apply Hsame; exact Hs|].
    exists (router_updated projectId name description schema (clock w)).
    split; [reflexivity|].
    intros r.
    destruct (router_updated_columns projectId name description schema (clock w) r)
      as [C1 [C2 [C3 [C4 [_ C6]]]]].
    repeat split; assumption.
  - intros h w1 newName project E Hown Hname Hf. subst name.
    pose proof (getDb_keeps_handle w w1 h E) as Hdb.
    destruct Hown as [s [p [Hu [Hs [Hf' Ho]]]]].
    assert (Hsome : Context.adminSession ctx <> None) by congruence.
    assert (Hno : not_owner (fetched projectId w) ctx = false).
    { unfold not_owner, Context.adminSession_id. rewrite Hf', Hs. cbn [option_map].
      rewrite Ho, Z.eqb_refl. reflexivity. }
    eexists.
    exists (router_updated projectId (Some newName) description schema (clock w) project).
    split.
    { unfold projects.update.
      rewrite (proj2 (adminProcedure_guard ctx _) Hu Hsome).
      cbv beta iota delta [bind].
      rewrite (getProjectById_runs projectId w w1 h E), Hno.
      change (ProjectPatch.mk None None (Some newName) (option_map Some description) schema
                              None None None)
        with (router_patch (Some newName) description schema).
      rewrite (Hrun h w1 E). reflexivity. }
    split.
    { rewrite (getProjectById_runs _ _ _ h (getDb_after_write w1 h _ Hdb)).
      unfold fetched at 1. cbn [store set_store projects with_projects].
      rewrite (find_map_same_test _
                 (router_updated projectId (Some newName) description schema (clock w))).
      - unfold fetched in Hf. rewrite Hf. reflexivity.
      - intros x.
        rewrite (proj1 (router_updated_columns projectId (Some newName) description
                          schema (clock w) x)).
        reflexivity. }
    unfold fetched in Hf. pose proof (find_some _ _ Hf) as [_ Hid].
    apply Z.eqb_eq in Hid.
    destruct (router_updated_columns projectId (Some newName) description schema
                (clock w) project)
      as [_ [C2 [_ [_ [C5 _]]]]].
    destruct (C5 Hid) as [Cn Cd].
    rewrite Cn, Cd, C2. repeat split.
Qed.

(** Ann renames her project; the owner stays Ann. *)
Lemma projects_update_keeps_ownership_witness :
  exists w2 project',
    projects.update ann_context 10 (Some "P1 renamed") None None (world_up tenant_database)
      = (Returns (mkResult 0), w2) /\
    getProjectById 10 w2 = (Returns (Some project'), w2) /\
    Project.name project' = "P1 renamed" /\
    Project.adminUserId project' = 1.
Proof.
  destruct (projects_update_keeps_ownership ann_context 10 (Some "P1 renamed") None None
              (world_up tenant_database)) as [_ Hok].
  assert (Hown : owns ann_context 10 (world_up tenant_database)).
  { exists (AdminSession.mk 1 "a@x.com" (Some "Ann")), project_ten.
    repeat split. discriminate. }
  destruct (Hok (Drizzle "mysql://db") (world_up tenant_database) "P1 renamed" project_ten
              eq_refl Hown eq_refl eq_refl)
    as [w2 [project' [Hrun [Hget [Hname [_ Howner]]]]]].
  exists w2, project'. repeat split; assumption.
Defined.

(* ------------------------------------------------------------------ *)
(** ** Ids in decimal and back (api.ts, db.ts) *)

From Stdlib Require DecimalPos.

(** A text without white space. *)
Fixpoint no_white (s : string) : bool :=
  match s with
  | EmptyString => true
  | String c rest => negb (is_white c) && no_white rest
  end.

Lemma trim_start_no_white (s : string) : no_white s = true -> trim_start s = s.
Proof.
  destruct s as [|c rest]; simpl; [reflexivity|].
  intros H. apply andb_prop in H. destruct H as [Hc _].
  apply negb_true_iff in Hc. rewrite Hc. reflexivity.
Qed.

Lemma trim_end_no_white (s : string) : no_white s = true -> trim_end s = s.
Proof.
  induction s as [|c rest IH]; [reflexivity|].
  cbn [no_white trim_end]. intros H. apply andb_prop in H. destruct H as [Hc Hrest].
  rewrite (IH Hrest). apply negb_true_iff in Hc.
  destruct rest; [rewrite Hc|]; reflexivity.
Qed.

Lemma digits_no_white (d : Decimal.uint) :
  no_white (DecimalString.NilEmpty.string_of_uint d) = true.
Proof.
  induction d; cbn [DecimalString.NilEmpty.string_of_uint no_white];
    try reflexivity; rewrite IHd; reflexivity.
Qed.

(** Reading the digits of a decimal numeral continues the accumulator. *)
Lemma only_digits_acc (d : Decimal.uint) (a : positive) :
  only_digits 10 (DecimalString.NilEmpty.string_of_uint d) (Some (Z.pos a))
  = Some (Z.pos (Pos.of_uint_acc d a)).
Proof.
  revert a.
  induction d; intros a;
    cbn [DecimalString.NilEmpty.string_of_uint only_digits Pos.of_uint_acc];
    try reflexivity;
    match goal with
    | |- context [digit_value 10 ?c] =>
        let v := eval vm_compute in (digit_value 10 c) in
        change (digit_value 10 c) with v
    end;
    cbn [or_else]; rewrite <- IHd; f_equal; f_equal; lia.
Qed.

Lemma only_digits_zero (d : Decimal.uint) :
  only_digits 10 (DecimalString.NilEmpty.string_of_uint d) (Some 0)
  = Some (Z.of_N (Pos.of_uint d)).
Proof.
  induction d;
    cbn [DecimalString.NilEmpty.string_of_uint only_digits Pos.of_uint];
    try reflexivity;
    match goal with
    | |- context [digit_value 10 ?c] =>
        let v := eval vm_compute in (digit_value 10 c) in
        change (digit_value 10 c) with v
    end;
    cbn [or_else]; try exact IHd;
    match goal with
    | |- only_digits 10 _ (Some ?z) = _ =>
        let p := eval vm_compute in (Z.to_pos z) in
        change z with (Z.pos p)
    end;
    rewrite only_digits_acc; reflexivity.
Qed.

Lemma only_digits_numeral (d : Decimal.uint) :
  d <> Decimal.Nil ->
  only_digits 10 (DecimalString.NilEmpty.string_of_uint d) None
  = Some (Z.of_N (Pos.of_uint d)).
Proof.
  intros Hd. rewrite <- only_digits_zero.
  destruct d; try congruence;
    cbn [DecimalString.NilEmpty.string_of_uint only_digits];
    match goal with
    | |- context [digit_value 10 ?c] =>
        let v := eval vm_compute in (digit_value 10 c) in
        change (digit_value 10 c) with v
    end;
    reflexivity.
Qed.

Lemma only_digits_positive (p : positive) :
  only_digits 10 (DecimalString.NilEmpty.string_of_uint (Pos.to_uint p)) None
  = Some (Z.pos p).
Proof.
  rewrite (only_digits_numeral _ (DecimalPos.Unsigned.to_uint_nonnil p)).
  rewrite DecimalPos.Unsigned.of_to. reflexivity.
Qed.

Lemma decimal_positive (p : positive) :
  decimal (Z.pos p) = DecimalString.NilEmpty.string_of_uint (Pos.to_uint p).
Proof.
  unfold decimal. cbn [Z.to_int DecimalString.NilZero.string_of_int].
  unfold DecimalString.NilZero.string_of_uint.
  pose proof (DecimalPos.Unsigned.to_uint_nonnil p) as Hnn.
  destruct (Pos.to_uint p); congruence.
Qed.

Lemma decimal_negative (p : positive) :
  decimal (Z.neg p)
  = String "-"%char (DecimalString.NilEmpty.string_of_uint (Pos.to_uint p)).
Proof.
  unfold decimal. cbn [Z.to_int DecimalString.NilZero.string_of_int].
  unfold DecimalString.NilZero.string_of_uint.
  pose proof (DecimalPos.Unsigned.to_uint_nonnil p) as Hnn.
  destruct (Pos.to_uint p); congruence.
Qed.

(** On a numeral, [BigInt] reads the digits in base ten. *)
Lemma BigInt_numeral (d : Decimal.uint) (n : Z) :
  d <> Decimal.Nil ->
  only_digits 10 (DecimalString.NilEmpty.string_of_uint d) None = Some n ->
  BigInt (DecimalString.NilEmpty.string_of_uint d) = Returns n.
Proof.
  intros Hd Hn. unfold BigInt.
  rewrite (trim_start_no_white _ (digits_no_white d)).
  rewrite (trim_end_no_white _ (digits_no_white d)).
  cbv zeta.
  assert (Hdefault :
    match DecimalString.NilEmpty.string_of_uint d with
    | EmptyString => Some 0
    | String "-" rest => option_map Z.opp (only_digits 10 rest None)
    | String "+" rest => only_digits 10 rest None
    | String "0" (String "x" rest) | String "0" (String "X" rest) =>
        only_digits 16 rest None
    | String "0" (String "o" rest) | String "0" (String "O" rest) =>
        only_digits 8 rest None
    | String "0" (String "b" rest) | String "0" (String "B" rest) =>
        only_digits 2 rest None
    | _ => only_digits 10 (DecimalString.NilEmpty.string_of_uint d) None
    end = only_digits 10 (DecimalString.NilEmpty.string_of_uint d) None).
  { destruct d as [|d'|d'|d'|d'|d'|d'|d'|d'|d'|d']; try congruence; try reflexivity.
    destruct d'; reflexivity. }
  rewrite Hdefault, Hn. reflexivity.
Qed.




Lemma BigInt_decimal (n : Z) : BigInt (decimal n) = Returns n.
Proof.
  destruct n as [|p|p].
  - reflexivity.
  - rewrite decimal_positive.
    exact (BigInt_numeral _ _ (DecimalPos.Unsigned.to_uint_nonnil p)
                          (only_digits_positive p)).
  - rewrite decimal_negative. unfold BigInt.
    assert (Hnw : no_white (String "-"%char
                    (DecimalString.NilEmpty.string_of_uint (Pos.to_uint p))) = true).
    { cbn [no_white]. rewrite digits_no_white. reflexivity. }
    rewrite (trim_start_no_white _ Hnw), (trim_end_no_white _ Hnw).
    cbv zeta. cbv iota beta.
    rewrite only_digits_positive. reflexivity.
Qed.




(** X27.  Create, then delete by the id of the answer.  On a datastore at
    hand whose AUTO_INCREMENT value no record holds yet, a create request
    with a truthy [data] is answered 201 with an insertId; a delete request
    whose path carries that insertId in decimal is then answered 200, and
    the records are again exactly the records there were before the
    create. *)
Theorem post_then_delete_restores_records
    (b b' : Bound.t) (doc : JSON) (w w1 : World) (h : Handle) :
  getDb w = (Returns (Some h), w1) ->
  (forall r, In r (dynamicData (store w)) -> DynamicData.id r <> seq_dynamicData (store w)) ->
  Body.data (Request.body (Bound.req b)) = Some doc ->
  truthy_JSON doc = true ->
  Request.params_id (Bound.req b') = decimal (seq_dynamicData (store w)) ->
  exists w2 w3 : World,
    post_data_handler b w
      = (Returns (Response.mk 201 (done_payload "Data inserted successfully"
                                     (mkResult (seq_dynamicData (store w))))), w2) /\
    List.length (dynamicData (store w2)) = S (List.length (dynamicData (store w))) /\
    delete_data_handler b' w2
      = (Returns (Response.mk 200 (done_payload "Data deleted successfully" (mkResult 0))),
         w3) /\
    dynamicData (store w3) = dynamicData (store w).
Proof.
  intros E Hfresh Hdata Htruthy Hid.
  pose proof (getDb_keeps_handle w w1 h E) as Hdb.
  set (body := Request.body (Bound.req b)) in *.
  set (row := inserted_record (Bound.projectId b) doc (Body.userId body)
                (Body.dataType body) (Body.isPublic body) (store w) (clock w)).
  set (d2 := with_dynamicData (store w) (dynamicData (store w) ++ [row])
               (seq_dynamicData (store w) + 1)).
  assert (E2 : getDb (set_store d2 w1) = (Returns (Some h), set_store d2 w1))
    by (apply getDb_cached; exact Hdb).
  exists (set_store d2 w1). eexists.
  split.
  { unfold post_data_handler. cbv beta iota zeta delta [try_catch bind].
    fold body. rewrite Hdata. cbn [truthy_opt]. rewrite Htruthy. cbn [negb].
    rewrite (insertDynamicData_runs (Bound.projectId b) doc (Body.userId body)
               (Body.dataType body) (Body.isPublic body) w w1 h E
               (truthy_JSON_not_null doc Htruthy)).
    reflexivity. }
  split.
  { cbn [store set_store d2 dynamicData with_dynamicData].
    rewrite length_app. cbn [List.length]. lia. }
  split.
  { unfold delete_data_handler. cbv beta iota zeta delta [try_catch bind].
    rewrite Hid, BigInt_decimal. cbv beta iota zeta delta [bind].
    rewrite (deleteDynamicData_runs _ _ _ h E2). reflexivity. }
  cbn [store set_store d2 dynamicData with_dynamicData].
  rewrite filter_app. cbn [filter]. unfold eq_int at 2.
  cbn [DynamicData.id row inserted_record]. rewrite Z.eqb_refl. cbn [negb].
  rewrite app_nil_r.
  apply forallb_filter_id. apply forallb_forall.
  intros x Hx. apply negb_true_iff. apply Z.eqb_neq. exact (Hfresh x Hx).
Qed.

Lemma post_then_delete_restores_records_witness :
  exists w2 w3,
    post_data_handler
      (bound_with (Query.mk None None None None) ""
                  (Body.mk (Some (JString "hi")) None None None))
      (world_up tenant_database)
    = (Returns (Response.mk 201 (done_payload "Data inserted successfully" (mkResult 8))),
       w2) /\
    delete_data_handler (bound_with (Query.mk None None None None) "8" empty_body) w2
    = (Returns (Response.mk 200 (done_payload "Data deleted successfully" (mkResult 0))),
       w3) /\
    dynamicData (store w3) = [record_5; record_6; record_7].
Proof.
  assert (Hfresh : forall r, In r (dynamicData (store (world_up tenant_database))) ->
             DynamicData.id r <> seq_dynamicData (store (world_up tenant_database))).
  { intros r [H|[H|[H|[]]]]; subst r; discriminate. }
  destruct (post_then_delete_restores_records
              (bound_with (Query.mk None None None None) ""
                          (Body.mk (Some (JString "hi")) None None None))
              (bound_with (Query.mk None None None None) "8" empty_body)
              (JString "hi") (world_up tenant_database) (world_up tenant_database)
              (Drizzle "mysql://db") eq_refl Hfresh eq_refl eq_refl eq_refl)
    as [w2 [w3 [Hpost [_ [Hdel Hback]]]]].
  exists w2, w3. repeat split; assumption.
Defined.

(* ------------------------------------------------------------------ *)
(** ** The default name of an admin (auth.ts) *)







